(** * edgeoci: the resumable blob ingestion engine, its signer and finalizer

    A shallow embedding of the Go sources [s3auth.go], [multipart.go],
    [uploads.go], [security.go] and the router in [main], together with the
    properties the specification states about them. The second part adds
    the rest of the upload life cycle, blob deletion ([blobs.go]), the
    route parser, the rate limiter, token authorization ([token_auth.go])
    and pagination ([cosmetics.go]), with the properties the code shows.

    Conventions.
    - A Go [string] is a sequence of bytes and is modelled by [string];
      a [[]byte] is a [list byte].
    - Go [int64] values are modelled by [Z]; the arithmetic the handlers do
      on them (sums of part sizes, [n - 1]) is written with its wrap-around
      [wrap64] where the source can overflow.
    - A Go run-time panic (slice bounds out of range) is the explicit
      outcome [Panic]. *)

From Stdlib Require Import ZArith Lia List Ascii String Bool.
From Stdlib Require Import Strings.Byte.
From stdpp Require Import base option strings gmap.
Import ListNotations.

Local Open Scope string_scope.
Local Open Scope list_scope.
Local Open Scope Z_scope.

(* ===================================================================== *)
(** ** Strings, bytes and formatting helpers                              *)
(* ===================================================================== *)

Module GoString.

(** [[]byte(s)] *)
Definition bytes_of (s : string) : list byte := list_byte_of_string s.

(** [string(b)] *)
Definition of_bytes (b : list byte) : string := string_of_list_byte b.

(** [len(s)] *)
Definition len (s : string) : Z := Z.of_nat (String.length s).

(** [strings.HasPrefix(s, p)] *)
Definition HasPrefix (s p : string) : bool := String.prefix p s.

(** [s[i:j]]; [None] is the run-time panic of an out-of-range slice. *)
Definition slice (s : string) (i j : Z) : option string :=
  if (0 <=? i) && (i <=? j) && (j <=? len s)
  then Some (String.substring (Z.to_nat i) (Z.to_nat (j - i)) s)
  else None.

(** [s[i:]] *)
Definition slice_from (s : string) (i : Z) : option string :=
  slice s i (len s).

(** [s[:j]] *)
Definition slice_to (s : string) (j : Z) : option string :=
  slice s 0 j.

(** The one-character string holding the double quote (code 34). *)
Definition dquote : string := String (ascii_of_nat 34) EmptyString.

(** The line feed used by the canonical request. *)
Definition nl : string := String (ascii_of_nat 10) EmptyString.

Fixpoint digits_of_pos_aux (fuel : nat) (n : Z) (acc : string) : string :=
  match fuel with
  | O => acc
  | S fuel' =>
      let d := ascii_of_nat (Z.to_nat (48 + n mod 10)) in
      if n <? 10 then String d acc
      else digits_of_pos_aux fuel' (n / 10) (String d acc)
  end.

(** [fmt.Sprintf("%d", n)] for an integer. *)
Definition itoa (n : Z) : string :=
  if n <? 0
  then String "-" (digits_of_pos_aux (S (Z.to_nat (Z.log2 (- n)))) (- n) EmptyString)
  else digits_of_pos_aux (S (Z.to_nat (Z.log2 n))) n EmptyString.

(** [strings.ReplaceAll(s, "/", "_")] *)
Fixpoint flatten_slashes (s : string) : string :=
  match s with
  | EmptyString => EmptyString
  | String c r =>
      String (if Ascii.eqb c "/" then "_"%char else c) (flatten_slashes r)
  end.

(** [strings.TrimSuffix(s, suffix)] *)
Definition TrimSuffix (s suffix : string) : string :=
  let n := String.length s in
  let k := String.length suffix in
  if (k <=? n)%nat && String.eqb (String.substring (n - k) k s) suffix
  then String.substring 0 (n - k) s
  else s.

End GoString.

(* ===================================================================== *)
(** ** [crypto/sha256], [crypto/hmac] and [encoding/hex]

    These are Go standard-library packages, modelled after FIPS 180-4,
    RFC 2104 and the lowercase hexadecimal alphabet.                       *)
(* ===================================================================== *)

Module Crypto.

Definition w32 (x : Z) : Z := Z.land x 4294967295.

Definition add32 (x y : Z) : Z := w32 (x + y).

Definition rotr (n x : Z) : Z :=
  Z.lor (Z.shiftr x n) (w32 (Z.shiftl x (32 - n))).

Definition Ch (x y z : Z) : Z :=
  Z.lxor (Z.land x y) (Z.land (Z.lxor x 4294967295) z).

Definition Maj (x y z : Z) : Z :=
  Z.lxor (Z.lxor (Z.land x y) (Z.land x z)) (Z.land y z).

Definition bigSigma0 (x : Z) : Z :=
  Z.lxor (Z.lxor (rotr 2 x) (rotr 13 x)) (rotr 22 x).

Definition bigSigma1 (x : Z) : Z :=
  Z.lxor (Z.lxor (rotr 6 x) (rotr 11 x)) (rotr 25 x).

Definition smallSigma0 (x : Z) : Z :=
  Z.lxor (Z.lxor (rotr 7 x) (rotr 18 x)) (Z.shiftr x 3).

Definition smallSigma1 (x : Z) : Z :=
  Z.lxor (Z.lxor (rotr 17 x) (rotr 19 x)) (Z.shiftr x 10).

(** The constants of FIPS 180-4, sections 4.2.2 and 5.3.3, from their
    definition: the first 32 bits of the fractional parts of the cube
    roots (round constants) and of the square roots (initial hash value)
    of the first primes. *)
Definition is_prime (n : Z) : bool :=
  (1 <? n)
  && List.forallb (fun d => negb (n mod Z.of_nat d =? 0))
       (List.seq 2 (Z.to_nat n - 2)).

Definition first_primes (count : nat) : list Z :=
  List.firstn count
    (List.filter is_prime (List.map Z.of_nat (List.seq 2 320))).

(** The integer cube root of [n], for [n] below [2 ^ 108], bit by bit. *)
Definition icbrt (n : Z) : Z :=
  List.fold_left
    (fun r i =>
       let c := r + Z.shiftl 1 (Z.of_nat (35 - i)) in
       if c * c * c <=? n then c else r)
    (List.seq 0 36) 0.

Definition K256 : list Z :=
  Eval vm_compute in
    List.map (fun p => w32 (icbrt (p * Z.shiftl 1 96))) (first_primes 64).

Definition H0 : list Z :=
  Eval vm_compute in
    List.map (fun p => w32 (Z.sqrt (p * Z.shiftl 1 64))) (first_primes 8).

Definition byteZ (b : byte) : Z := Z.of_N (Byte.to_N b).

Definition Zbyte (z : Z) : byte :=
  match Byte.of_N (Z.to_N (Z.land z 255)) with
  | Some b => b
  | None => x00
  end.

(** Big-endian encoding of [z] on [n] bytes. *)
Fixpoint be_bytes (n : nat) (z : Z) : list byte :=
  match n with
  | O => []
  | S n' => Zbyte (Z.shiftr z (8 * Z.of_nat n')) :: be_bytes n' z
  end.

(** The padded message: a [1] bit, zeros up to 56 mod 64, then the bit
    length on 8 bytes. *)
Definition pad (msg : list byte) : list byte :=
  let l := Z.of_nat (List.length msg) in
  let zeros := Z.to_nat ((55 - l) mod 64) in
  msg ++ [x80] ++ List.repeat x00 zeros ++ be_bytes 8 (8 * l).

(** Big-endian 32-bit words of a byte string (a trailing partial word
    never occurs after [pad]). *)
Fixpoint words_of (bs : list byte) : list Z :=
  match bs with
  | a :: b :: c :: d :: r =>
      (byteZ a * 16777216 + byteZ b * 65536 + byteZ c * 256 + byteZ d)
        :: words_of r
  | _ => []
  end.

(** One step of the message schedule, on the window W[t..t+15]. *)
Definition schedule_next (w : list Z) : list Z :=
  let g i := List.nth i w 0 in
  List.tl w ++
    [add32 (add32 (smallSigma1 (g 14%nat)) (g 9%nat))
           (add32 (smallSigma0 (g 1%nat)) (g 0%nat))].

Record regs := Regs { ra : Z; rb : Z; rc : Z; rd : Z;
                      re : Z; rf : Z; rg : Z; rh : Z }.

Definition round (k wt : Z) (r : regs) : regs :=
  let t1 := add32 (add32 (add32 (rh r) (bigSigma1 (re r)))
                         (add32 (Ch (re r) (rf r) (rg r)) k)) wt in
  let t2 := add32 (bigSigma0 (ra r)) (Maj (ra r) (rb r) (rc r)) in
  Regs (add32 t1 t2) (ra r) (rb r) (rc r) (add32 (rd r) t1) (re r) (rf r) (rg r).

Fixpoint rounds (ks : list Z) (w : list Z) (r : regs) : regs :=
  match ks with
  | [] => r
  | k :: ks' => rounds ks' (schedule_next w) (round k (List.hd 0 w) r)
  end.

Definition regs_of (h : list Z) : regs :=
  let g i := List.nth i h 0 in
  Regs (g 0%nat) (g 1%nat) (g 2%nat) (g 3%nat)
       (g 4%nat) (g 5%nat) (g 6%nat) (g 7%nat).

Definition compress (h : list Z) (block : list Z) : list Z :=
  let r0 := regs_of h in
  let r := rounds K256 block r0 in
  [ add32 (ra r0) (ra r); add32 (rb r0) (rb r);
    add32 (rc r0) (rc r); add32 (rd r0) (rd r);
    add32 (re r0) (re r); add32 (rf r0) (rf r);
    add32 (rg r0) (rg r); add32 (rh r0) (rh r) ].

(** Fold [compress] over the 16-word blocks of [ws]; [n] bounds the
    number of blocks. *)
Fixpoint blocks (n : nat) (h : list Z) (ws : list Z) : list Z :=
  match n with
  | O => h
  | S n' =>
      match ws with
      | [] => h
      | _ => blocks n' (compress h (List.firstn 16 ws)) (List.skipn 16 ws)
      end
  end.

(** [sha256.Sum256(data)] as 32 bytes. *)
Definition sha256 (data : list byte) : list byte :=
  let ws := words_of (pad data) in
  List.flat_map (be_bytes 4) (blocks (List.length ws) H0 ws).

Definition hex_digit (n : Z) : ascii :=
  if n <? 10 then ascii_of_nat (Z.to_nat (48 + n))
  else ascii_of_nat (Z.to_nat (87 + n)).

(** [hex.EncodeToString] *)
Fixpoint hex_encode (bs : list byte) : string :=
  match bs with
  | [] => EmptyString
  | b :: r =>
      String (hex_digit (Z.shiftr (byteZ b) 4))
        (String (hex_digit (Z.land (byteZ b) 15)) (hex_encode r))
  end.

Definition xor_pad (p : Z) (key : list byte) : list byte :=
  List.map (fun b => Zbyte (Z.lxor (byteZ b) p)) key.

(** [hmac.New(sha256.New, key)] followed by [Write(data)] and [Sum(nil)]:
    keys longer than the 64-byte block are hashed first, shorter keys are
    padded with zeros. *)
Definition hmac_sha256 (key data : list byte) : list byte :=
  let k0 := if (64 <? List.length key)%nat then sha256 key else key in
  let k := k0 ++ List.repeat x00 (64 - List.length k0) in
  sha256 (xor_pad 92 k ++ sha256 (xor_pad 54 k ++ data)).

End Crypto.

Import GoString.

(* ===================================================================== *)
(** ** [io]: request bodies as lazy byte streams                          *)
(* ===================================================================== *)

Module IO.

(** The errors a read distinguishes: [io.EOF], [io.ErrUnexpectedEOF] and
    any other (transport) error. *)
Inductive ioerr := EOF | ErrUnexpectedEOF | ErrOther (msg : string).

(** [err.Error()] *)
Definition ioerr_text (e : ioerr) : string :=
  match e with
  | EOF => "EOF"
  | ErrUnexpectedEOF => "unexpected EOF"
  | ErrOther msg => msg
  end.

(** What the stream yields once its bytes are exhausted. *)
Inductive ReadEnd := EndEOF | EndErr (msg : string).

(** An [io.Reader] over a request body: the bytes still to come and the
    way the stream ends. *)
Record Body := MkBody { b_data : list byte; b_end : ReadEnd }.

Definition lenZ {A} (l : list A) : Z := Z.of_nat (List.length l).

(** [l[:n]], counted in [Z] and structural on the list. *)
Fixpoint takeZ {A} (l : list A) (n : Z) : list A :=
  match l with
  | [] => []
  | x :: r => if n <=? 0 then [] else x :: takeZ r (n - 1)
  end.

(** [l[n:]] *)
Fixpoint dropZ {A} (l : list A) (n : Z) : list A :=
  match l with
  | [] => []
  | x :: r => if n <=? 0 then l else dropZ r (n - 1)
  end.

Definition end_err (e : ReadEnd) : ioerr :=
  match e with EndEOF => EOF | EndErr msg => ErrOther msg end.

(** [io.ReadFull(body, buf)] with [len(buf) = n]: the bytes read, the
    error, and the stream afterwards. A full buffer is no error; a clean
    end after zero bytes is [EOF], after some bytes [ErrUnexpectedEOF];
    a transport error is passed through. *)
Definition ReadFull (b : Body) (n : Z) : list byte * option ioerr * Body :=
  if n <=? lenZ (b_data b)
  then (takeZ (b_data b) n, None, MkBody (dropZ (b_data b) n) (b_end b))
  else (b_data b,
        Some (match b_end b with
              | EndErr msg => ErrOther msg
              | EndEOF => if lenZ (b_data b) =? 0 then EOF else ErrUnexpectedEOF
              end),
        MkBody [] (b_end b)).

(** [body.Read(peekBuf)] with a one-byte buffer. *)
Definition Read1 (b : Body) : Z * option ioerr * Body :=
  match b_data b with
  | _ :: r => (1, None, MkBody r (b_end b))
  | [] => (0, Some (end_err (b_end b)), b)
  end.

End IO.

Import IO.

(* ===================================================================== *)
(** ** Go results                                                         *)
(* ===================================================================== *)

(** A Go [(value, error)] pair whose value is only used when the error is
    [nil]; the error is kept as the text [%v] prints. *)
Inductive res (A : Type) : Type :=
| Ok (a : A)
| Err (msg : string).
Arguments Ok {A} a.
Arguments Err {A} msg.

(* ===================================================================== *)
(** ** [s3auth.go] and the signers of [multipart.go]                      *)
(* ===================================================================== *)

Module S3Auth.

(** The deployment constants of [s3auth.go]. The source ships them as
    placeholders to be configured, so the signer is stated over a
    configuration; [default_config] holds the values of the source. *)
Record Config := MkConfig {
  FastlyOSHost : string;
  FastlyOSRegion : string;
  S3Bucket : string }.

Definition default_config : Config :=
  MkConfig "YOUR_REGION.object.fastlystorage.app" "YOUR_REGION"
           "YOUR_BUCKET_NAME".

Definition S3Service : string := "s3".

(** The result of [loadCredentials]: access key and secret key. *)
Record Credentials := MkCreds { accessKey : string; secretKey : string }.

(** [time.Now().UTC()] as the two renderings the signer uses:
    [now.Format("20060102")] and [now.Format("20060102T150405Z")]. *)
Record Clock := MkClock { date : string; datetime : string }.

(** What a signer reads from its surroundings: the configuration, the
    cached result of [loadCredentials], the clock, and the URL check of
    [fsthttp.NewRequest] ([Some msg] when it rejects the URL). *)
Record SignEnv := MkSignEnv {
  cfg : Config;
  creds : res Credentials;
  clock : Clock;
  url_err : string -> option string }.

Definition Header := list (string * string).

(** [h.Set(k, v)] *)
Fixpoint hset (k v : string) (h : Header) : Header :=
  match h with
  | [] => [(k, v)]
  | (k', v') :: r =>
      if String.eqb k' k then (k, v) :: r else (k', v') :: hset k v r
  end.

(** [h.Get(k)]; a missing header reads as the empty string. *)
Fixpoint hget (k : string) (h : Header) : string :=
  match h with
  | [] => EmptyString
  | (k', v') :: r => if String.eqb k' k then v' else hget k r
  end.

(** A run of [Set] calls, in the order of the source. *)
Definition set_headers (kvs : list (string * string)) (h : Header) : Header :=
  List.fold_left (fun acc kv => hset (fst kv) (snd kv) acc) kvs h.

Record Request := MkRequest {
  Method : string;
  URL : string;
  Hdr : Header }.

(** [fsthttp.NewRequest(method, url, nil)] *)
Definition NewRequest (e : SignEnv) (method url : string) : res Request :=
  match url_err e url with
  | Some msg => Err msg
  | None => Ok (MkRequest method url [])
  end.

(** The first lines of every signer: [loadCredentials] and its wrapped
    error. *)
Definition with_credentials {A} (e : SignEnv) (k : Credentials -> res A) : res A :=
  match creds e with
  | Err msg => Err ("failed to load credentials: " +:+ msg)
  | Ok cr => k cr
  end.

Definition hmacSHA256 (key data : list byte) : list byte :=
  Crypto.hmac_sha256 key data.

Definition sha256Hex (data : list byte) : string :=
  Crypto.hex_encode (Crypto.sha256 data).

Definition calculateSignature (c : Config) (secretKey date stringToSign : string)
  : string :=
  let kSecret := bytes_of ("AWS4" +:+ secretKey) in
  let kDate := hmacSHA256 kSecret (bytes_of date) in
  let kRegion := hmacSHA256 kDate (bytes_of (FastlyOSRegion c)) in
  let kService := hmacSHA256 kRegion (bytes_of S3Service) in
  let kSigning := hmacSHA256 kService (bytes_of "aws4_request") in
  let signature := hmacSHA256 kSigning (bytes_of stringToSign) in
  Crypto.hex_encode signature.

(** [scope], [stringToSign] and [authHeader], spelled the same way by
    every signer. *)
Definition scope_of (c : Config) (k : Clock) : string :=
  date k +:+ "/" +:+ FastlyOSRegion c +:+ "/" +:+ S3Service +:+ "/aws4_request".

Definition stringToSign_of (c : Config) (k : Clock) (canonicalRequest : string)
  : string :=
  "AWS4-HMAC-SHA256" +:+ nl +:+ datetime k +:+ nl +:+ scope_of c k +:+ nl
    +:+ sha256Hex (bytes_of canonicalRequest).

Definition authHeader_of (c : Config) (cr : Credentials) (k : Clock)
    (signedHeaders canonicalRequest : string) : string :=
  "AWS4-HMAC-SHA256 Credential=" +:+ accessKey cr +:+ "/" +:+ scope_of c k
    +:+ ", SignedHeaders=" +:+ signedHeaders +:+ ", Signature="
    +:+ calculateSignature c (secretKey cr) (date k)
          (stringToSign_of c k canonicalRequest).

Definition uri_of (c : Config) (key : string) : string :=
  "/" +:+ S3Bucket c +:+ "/" +:+ key.

(** The canonical request of the signers that send a query string and
    the three headers host, x-amz-content-sha256 and x-amz-date. *)
Definition canonical3 (c : Config) (k : Clock)
    (method uri queryString payloadHash : string) : string :=
  let canonicalHeaders :=
    "host:" +:+ FastlyOSHost c +:+ nl
    +:+ "x-amz-content-sha256:" +:+ payloadHash +:+ nl
    +:+ "x-amz-date:" +:+ datetime k +:+ nl in
  let signedHeaders := "host;x-amz-content-sha256;x-amz-date" in
  method +:+ nl +:+ uri +:+ nl +:+ queryString +:+ nl +:+ canonicalHeaders +:+ nl
    +:+ signedHeaders +:+ nl +:+ payloadHash.

(** *** [SignCopyRequest] *)

(** The local [payloadHash] of [SignCopyRequest]: the source hashes the
    empty body. *)
Definition copy_payloadHash : string := sha256Hex [].

Definition copy_canonicalRequest (c : Config) (k : Clock)
    (destKey sourceKey : string) : string :=
  let uri := uri_of c destKey in
  let copySource := uri_of c sourceKey in
  let payloadHash := copy_payloadHash in
  let canonicalHeaders :=
    "host:" +:+ FastlyOSHost c +:+ nl
    +:+ "x-amz-content-sha256:" +:+ payloadHash +:+ nl
    +:+ "x-amz-copy-source:" +:+ copySource +:+ nl
    +:+ "x-amz-date:" +:+ datetime k +:+ nl in
  let signedHeaders := "host;x-amz-content-sha256;x-amz-copy-source;x-amz-date" in
  "PUT" +:+ nl +:+ uri +:+ nl +:+ nl +:+ canonicalHeaders +:+ nl
    +:+ signedHeaders +:+ nl +:+ payloadHash.

Definition SignCopyRequest (e : SignEnv) (destKey sourceKey : string)
  : res Request :=
  with_credentials e (fun cr =>
    let c := cfg e in
    let k := clock e in
    let uri := uri_of c destKey in
    let copySource := uri_of c sourceKey in
    let payloadHash := copy_payloadHash in
    let signedHeaders := "host;x-amz-content-sha256;x-amz-copy-source;x-amz-date" in
    let canonicalRequest := copy_canonicalRequest c k destKey sourceKey in
    let authHeader := authHeader_of c cr k signedHeaders canonicalRequest in
    let url := "https://" +:+ FastlyOSHost c +:+ uri in
    match NewRequest e "PUT" url with
    | Err msg => Err msg
    | Ok req =>
        Ok (MkRequest (Method req) (URL req)
              (set_headers [ ("Host", FastlyOSHost c);
                             ("x-amz-date", datetime k);
                             ("x-amz-content-sha256", payloadHash);
                             ("x-amz-copy-source", copySource);
                             ("Authorization", authHeader) ] (Hdr req)))
    end).

(** *** [SignUploadPart] *)

Definition part_payloadHash : string := "UNSIGNED-PAYLOAD".

Definition part_queryString (uploadId : string) (partNumber : Z) : string :=
  "partNumber=" +:+ itoa partNumber +:+ "&uploadId=" +:+ uploadId.

Definition part_canonicalRequest (c : Config) (k : Clock)
    (key uploadId : string) (partNumber contentLength : Z) : string :=
  let uri := uri_of c key in
  let queryString := part_queryString uploadId partNumber in
  let payloadHash := part_payloadHash in
  let canonicalHeaders :=
    "content-length:" +:+ itoa contentLength +:+ nl
    +:+ "host:" +:+ FastlyOSHost c +:+ nl
    +:+ "x-amz-content-sha256:" +:+ payloadHash +:+ nl
    +:+ "x-amz-date:" +:+ datetime k +:+ nl in
  let signedHeaders := "content-length;host;x-amz-content-sha256;x-amz-date" in
  "PUT" +:+ nl +:+ uri +:+ nl +:+ queryString +:+ nl +:+ canonicalHeaders +:+ nl
    +:+ signedHeaders +:+ nl +:+ payloadHash.

Definition SignUploadPart (e : SignEnv) (key uploadId : string)
    (partNumber contentLength : Z) : res Request :=
  with_credentials e (fun cr =>
    let c := cfg e in
    let k := clock e in
    let uri := uri_of c key in
    let payloadHash := part_payloadHash in
    let signedHeaders := "content-length;host;x-amz-content-sha256;x-amz-date" in
    let canonicalRequest :=
      part_canonicalRequest c k key uploadId partNumber contentLength in
    let authHeader := authHeader_of c cr k signedHeaders canonicalRequest in
    let url := "https://" +:+ FastlyOSHost c +:+ uri +:+ "?"
                 +:+ part_queryString uploadId partNumber in
    match NewRequest e "PUT" url with
    | Err msg => Err msg
    | Ok req =>
        Ok (MkRequest (Method req) (URL req)
              (set_headers [ ("Host", FastlyOSHost c);
                             ("x-amz-date", datetime k);
                             ("x-amz-content-sha256", payloadHash);
                             ("Content-Length", itoa contentLength);
                             ("Authorization", authHeader) ] (Hdr req)))
    end).

(** *** [SignInitiateMultipartUpload], [SignListParts],
        [SignAbortMultipartUpload] *)

Definition sign3 (e : SignEnv) (method key queryString urlQuery : string)
  : res Request :=
  with_credentials e (fun cr =>
    let c := cfg e in
    let k := clock e in
    let uri := uri_of c key in
    let payloadHash := sha256Hex [] in
    let signedHeaders := "host;x-amz-content-sha256;x-amz-date" in
    let canonicalRequest := canonical3 c k method uri queryString payloadHash in
    let authHeader := authHeader_of c cr k signedHeaders canonicalRequest in
    let url := "https://" +:+ FastlyOSHost c +:+ uri +:+ "?" +:+ urlQuery in
    match NewRequest e method url with
    | Err msg => Err msg
    | Ok req =>
        Ok (MkRequest (Method req) (URL req)
              (set_headers [ ("Host", FastlyOSHost c);
                             ("x-amz-date", datetime k);
                             ("x-amz-content-sha256", payloadHash);
                             ("Authorization", authHeader) ] (Hdr req)))
    end).

Definition SignInitiateMultipartUpload (e : SignEnv) (key : string) : res Request :=
  sign3 e "POST" key "uploads=" "uploads".

Definition SignListParts (e : SignEnv) (key uploadId : string) : res Request :=
  sign3 e "GET" key ("uploadId=" +:+ uploadId) ("uploadId=" +:+ uploadId).

Definition SignAbortMultipartUpload (e : SignEnv) (key uploadId : string)
  : res Request :=
  sign3 e "DELETE" key ("uploadId=" +:+ uploadId) ("uploadId=" +:+ uploadId).

(** *** [SignCompleteMultipartUpload] *)

Definition SignCompleteMultipartUpload (e : SignEnv) (key uploadId : string)
    (body : list byte) : res Request :=
  with_credentials e (fun cr =>
    let c := cfg e in
    let k := clock e in
    let uri := uri_of c key in
    let queryString := "uploadId=" +:+ uploadId in
    let payloadHash := sha256Hex body in
    let canonicalHeaders :=
      "content-length:" +:+ itoa (lenZ body) +:+ nl
      +:+ "content-type:application/xml" +:+ nl
      +:+ "host:" +:+ FastlyOSHost c +:+ nl
      +:+ "x-amz-content-sha256:" +:+ payloadHash +:+ nl
      +:+ "x-amz-date:" +:+ datetime k +:+ nl in
    let signedHeaders :=
      "content-length;content-type;host;x-amz-content-sha256;x-amz-date" in
    let canonicalRequest :=
      "POST" +:+ nl +:+ uri +:+ nl +:+ queryString +:+ nl +:+ canonicalHeaders
        +:+ nl +:+ signedHeaders +:+ nl +:+ payloadHash in
    let authHeader := authHeader_of c cr k signedHeaders canonicalRequest in
    let url := "https://" +:+ FastlyOSHost c +:+ uri +:+ "?uploadId=" +:+ uploadId in
    match NewRequest e "POST" url with
    | Err msg => Err msg
    | Ok req =>
        Ok (MkRequest (Method req) (URL req)
              (set_headers [ ("Host", FastlyOSHost c);
                             ("x-amz-date", datetime k);
                             ("x-amz-content-sha256", payloadHash);
                             ("Content-Type", "application/xml");
                             ("Content-Length", itoa (lenZ body));
                             ("Authorization", authHeader) ] (Hdr req)))
    end).

(** *** [SignPresignedPutURL] *)

Definition presigned_queryParams (c : Config) (cr : Credentials) (k : Clock)
    (expiresInSeconds : Z) : string :=
  "X-Amz-Algorithm=AWS4-HMAC-SHA256&X-Amz-Credential=" +:+ accessKey cr
    +:+ "%2F" +:+ date k +:+ "%2F" +:+ FastlyOSRegion c
    +:+ "%2Fs3%2Faws4_request&X-Amz-Date=" +:+ datetime k
    +:+ "&X-Amz-Expires=" +:+ itoa expiresInSeconds
    +:+ "&X-Amz-SignedHeaders=host".

Definition presigned_canonicalRequest (c : Config) (cr : Credentials)
    (k : Clock) (key : string) (expiresInSeconds : Z) : string :=
  let uri := uri_of c key in
  let queryParams := presigned_queryParams c cr k expiresInSeconds in
  let canonicalHeaders := "host:" +:+ FastlyOSHost c +:+ nl in
  let signedHeaders := "host" in
  "PUT" +:+ nl +:+ uri +:+ nl +:+ queryParams +:+ nl +:+ canonicalHeaders +:+ nl
    +:+ signedHeaders +:+ nl +:+ "UNSIGNED-PAYLOAD".

Definition SignPresignedPutURL (e : SignEnv) (key : string)
    (expiresInSeconds : Z) : res string :=
  with_credentials e (fun cr =>
    let c := cfg e in
    let k := clock e in
    let canonicalRequest :=
      presigned_canonicalRequest c cr k key expiresInSeconds in
    let signature :=
      calculateSignature c (secretKey cr) (date k)
        (stringToSign_of c k canonicalRequest) in
    Ok ("https://" +:+ FastlyOSHost c +:+ uri_of c key +:+ "?"
          +:+ presigned_queryParams c cr k expiresInSeconds
          +:+ "&X-Amz-Signature=" +:+ signature)).

(** *** [signRequest]: GET, HEAD, DELETE and plain PUT *)

Definition plain_payloadHash (contentType : string) : string :=
  if negb (String.eqb contentType EmptyString)
  then "UNSIGNED-PAYLOAD" else sha256Hex [].

Definition plain_canonicalRequest (c : Config) (k : Clock)
    (method key contentType : string) : string :=
  let uri := uri_of c key in
  let payloadHash := plain_payloadHash contentType in
  let canonicalHeaders :=
    if negb (String.eqb contentType EmptyString)
    then "content-type:" +:+ contentType +:+ nl
         +:+ "host:" +:+ FastlyOSHost c +:+ nl
         +:+ "x-amz-content-sha256:" +:+ payloadHash +:+ nl
         +:+ "x-amz-date:" +:+ datetime k +:+ nl
    else "host:" +:+ FastlyOSHost c +:+ nl
         +:+ "x-amz-content-sha256:" +:+ payloadHash +:+ nl
         +:+ "x-amz-date:" +:+ datetime k +:+ nl in
  let signedHeaders :=
    if negb (String.eqb contentType EmptyString)
    then "content-type;host;x-amz-content-sha256;x-amz-date"
    else "host;x-amz-content-sha256;x-amz-date" in
  method +:+ nl +:+ uri +:+ nl +:+ nl +:+ canonicalHeaders +:+ nl
    +:+ signedHeaders +:+ nl +:+ payloadHash.

Definition signRequest (e : SignEnv) (method key contentType : string)
  : res Request :=
  with_credentials e (fun cr =>
    let c := cfg e in
    let k := clock e in
    let payloadHash := plain_payloadHash contentType in
    let signedHeaders :=
      if negb (String.eqb contentType EmptyString)
      then "content-type;host;x-amz-content-sha256;x-amz-date"
      else "host;x-amz-content-sha256;x-amz-date" in
    let canonicalRequest := plain_canonicalRequest c k method key contentType in
    let authHeader := authHeader_of c cr k signedHeaders canonicalRequest in
    let url := "https://" +:+ FastlyOSHost c +:+ uri_of c key in
    match NewRequest e method url with
    | Err msg => Err msg
    | Ok req =>
        let h := set_headers [ ("Host", FastlyOSHost c);
                               ("x-amz-date", datetime k);
                               ("x-amz-content-sha256", payloadHash);
                               ("Authorization", authHeader) ] (Hdr req) in
        Ok (MkRequest (Method req) (URL req)
              (if negb (String.eqb contentType EmptyString)
               then hset "Content-Type" contentType h else h))
    end).

Definition SignGetRequest e key := signRequest e "GET" key EmptyString.
Definition SignPutRequest e key contentType := signRequest e "PUT" key contentType.
Definition SignHeadRequest e key := signRequest e "HEAD" key EmptyString.
Definition SignDeleteRequest e key := signRequest e "DELETE" key EmptyString.

(** *** [BlobKey] *)

(** [None] is the slice-bounds panic of [hash[0:2]] or [hash[2:4]]. *)
Definition BlobKey (digest : string) : option string :=
  if negb (HasPrefix digest "sha256:") then Some EmptyString
  else
    hash ← slice_from digest 7;
    h02 ← slice hash 0 2;
    h24 ← slice hash 2 4;
    Some ("blobs/sha256/" +:+ h02 +:+ "/" +:+ h24 +:+ "/" +:+ hash).

End S3Auth.

(* ===================================================================== *)
(** ** The surroundings of a request: KV store, object store, libraries   *)
(* ===================================================================== *)

Module World.

(** [CompletedPart] of [multipart.go]; Go [int] is 64 bits wide on the
    wasm target of the Compute platform. *)
Record CompletedPart := MkPart { PartNumber : Z; ETag : string }.

Record MultipartState := MkState {
  S3UploadId : string;
  S3Key : string;
  CompletedParts : list CompletedPart;
  NextPartNumber : Z;
  BytesUploaded : Z;
  StartedAt : string;
  ContentHash : string }.

Record ListPartResult := MkListPart {
  lp_PartNumber : Z;
  lp_ETag : string;
  lp_Size : Z }.

(** [UploadSession] of [uploads.go]. *)
Record UploadSession := MkSession {
  UUID : string;
  Repo : string;
  SessStartedAt : string;
  BytesReceived : Z;
  TempLocation : string;
  ExpiresAt : string }.

(** The metadata KV store. Its three key spaces ([uploads/], [multipart/]
    and [completed/]) are disjoint and each is read through one decoder,
    so every entry is kept as what that decoder returns for it:
    [json.Unmarshal] of a session or checkpoint document ([Err] for a
    document it rejects), and the raw text of a completed-content
    record. Keys are the full key strings of the source. A document the
    handlers write with [json.Marshal] is taken to decode to the value
    written, as it does when the strings of the value are valid UTF-8
    (other bytes would come back as U+FFFD), and reading an entry that
    was found is taken not to fail. *)
Record KV := MkKV {
  kv_sessions : gmap string (res UploadSession);
  kv_multipart : gmap string (res MultipartState);
  kv_completed : gmap string string }.

(** Where the body of a plain PUT comes from. *)
Inductive PutSource := FromClientBody | FromGetResponse.

(** The requests sent to the [ObjectStorage] backend. *)
Inductive S3Op :=
| OpHead (key : string)
| OpGet (key : string)
| OpDelete (key : string)
| OpPut (key contentType : string) (src : PutSource)
| OpCopy (destKey sourceKey : string)
| OpInitiate (key : string)
| OpListParts (key uploadId : string)
| OpUploadPart (key uploadId : string) (partNumber : Z) (data : list byte)
| OpComplete (key uploadId : string) (parts : list CompletedPart)
| OpAbort (key uploadId : string).

(** A backend response: status, the [ETag] header, and what
    [io.ReadAll(resp.Body)] returns. *)
Record Response := MkResponse {
  StatusCode : Z;
  resp_ETag : string;
  resp_body : string;
  resp_read_err : option string }.

(** What one invocation cannot control. [backend n op] answers the
    request [op] sent after [n] earlier ones ([Err] is a network-level
    failure of [Send]); the XML functions stand for [encoding/xml];
    [kv_open_err] is the result of [kvstore.Open]. Once the store is
    open, [Insert] and [Delete] are taken to succeed, but for the
    [Delete] of the upload session in the finalizer, whose error, if any,
    is [kv_delete_err]; a delete that fails removes nothing. *)
Record Env := MkEnv {
  senv : S3Auth.SignEnv;
  kv_open_err : option string;
  backend : nat -> S3Op -> res Response;
  xml_unmarshal_initiate : string -> res string;
  xml_unmarshal_list : string -> res (list ListPartResult);
  xml_marshal_complete : list CompletedPart -> res (list byte);
  now_rfc3339 : string;
  kv_delete_err : option string }.

(** The calls made on the opened KV store. *)
Inductive KVOp :=
| KvLookup (key : string)
| KvInsert (key : string)
| KvDelete (key : string).

(** What one invocation changes: the KV store, the log of backend
    requests and the log of KV calls, both oldest first. *)
Record St := MkSt { kv : KV; sent : list S3Op; kv_calls : list KVOp }.

(** [req.Send(ctx, ObjectStorage)] *)
Definition send (env : Env) (st : St) (op : S3Op) : res Response * St :=
  (backend env (List.length (sent st)) op,
   MkSt (kv st) (sent st ++ [op]) (kv_calls st)).

(** One call on the store, leaving it as [kv']. *)
Definition kv_call (st : St) (op : KVOp) (kv' : KV) : St :=
  MkSt kv' (sent st) (kv_calls st ++ [op]).

(** The object key a request writes to, for the requests that store an
    object. *)
Definition written_key (op : S3Op) : option string :=
  match op with
  | OpPut key _ _ => Some key
  | OpCopy destKey _ => Some destKey
  | _ => None
  end.

Definition is_upload_part (op : S3Op) : bool :=
  match op with
  | OpUploadPart _ _ _ _ => true
  | _ => false
  end.

Definition wrap64 (z : Z) : Z :=
  (z + 9223372036854775808) mod 18446744073709551616 - 9223372036854775808.

End World.

Import World.

(** [OCIError] of the entry point. *)
Record OCIError := MkOCIError {
  Code : string;
  Message : string;
  Detail : string;
  Status : Z }.

(** How a handler ends: it wrote a response and returned [nil], returned an
    error (which [handleRequest] turns into a response of status [Status]),
    or panicked. *)
Inductive Outcome :=
| Wrote (status : Z) (headers : S3Auth.Header)
| Failed (e : OCIError)
| Panic.

(** The HTTP status the client sees. A panic sends no status. *)
Definition client_status (o : Outcome) : option Z :=
  match o with
  | Wrote s _ => Some s
  | Failed e => Some (Status e)
  | Panic => None
  end.

(* ===================================================================== *)
(** ** [multipart.go]: checkpoint store and ingestion engine              *)
(* ===================================================================== *)

Module Multipart.

Import S3Auth.

Definition MinPartSize : Z := 5 * 1024 * 1024.
Definition PartSize : Z := 16 * 1024 * 1024.
Definition IdentifyChunkSize : Z := 1 * 1024 * 1024.
Definition MaxPartsPerRequest : Z := 28.
Definition MaxReliableBlobSize : Z := 300 * 1024 * 1024.

Record MultipartUploadResult := MkResult {
  r_BytesUploaded : Z;
  r_IsComplete : bool;
  r_State : option MultipartState;
  r_CompletedKey : string }.

(** The pair of a result pointer and an error the engine returns. One
    exit returns both a result and an error. *)
Definition EngineOut : Type := option MultipartUploadResult * option string.

(** *** Checkpoint store *)

Definition multipart_kv_key (s3Key : string) : string :=
  "multipart/" +:+ flatten_slashes s3Key.

Definition completed_kv_key (stateKey : string) : string :=
  "completed/" +:+ flatten_slashes stateKey.

Definition LoadMultipartState (env : Env) (st : St) (s3Key : string)
  : res (option MultipartState) * St :=
  match kv_open_err env with
  | Some msg => (Err ("KV store error: " +:+ msg), st)
  | None =>
      let key := multipart_kv_key s3Key in
      (match kv_multipart (kv st) !! key with
       | None => Ok None
       | Some (Err msg) => Err ("failed to parse multipart state: " +:+ msg)
       | Some (Ok state) => Ok (Some state)
       end,
       kv_call st (KvLookup key) (kv st))
  end.

Definition SaveMultipartState (env : Env) (st : St) (s3Key : string)
    (state : MultipartState) : St :=
  match kv_open_err env with
  | Some _ => st
  | None =>
      kv_call st (KvInsert (multipart_kv_key s3Key))
        (MkKV (kv_sessions (kv st))
              (<[multipart_kv_key s3Key := Ok state]> (kv_multipart (kv st)))
              (kv_completed (kv st)))
  end.

Definition DeleteMultipartState (env : Env) (st : St) (s3Key : string) : St :=
  match kv_open_err env with
  | Some _ => st
  | None =>
      kv_call st (KvDelete (multipart_kv_key s3Key))
        (MkKV (kv_sessions (kv st))
              (delete (multipart_kv_key s3Key) (kv_multipart (kv st)))
              (kv_completed (kv st)))
  end.

Definition LoadCompletedUpload (env : Env) (st : St) (stateKey : string)
  : res string * St :=
  match kv_open_err env with
  | Some msg => (Err ("KV store error: " +:+ msg), st)
  | None =>
      let key := completed_kv_key stateKey in
      (match kv_completed (kv st) !! key with
       | None => Ok EmptyString
       | Some body => Ok body
       end,
       kv_call st (KvLookup key) (kv st))
  end.

Definition SaveCompletedUpload (env : Env) (st : St) (stateKey finalKey : string)
  : St :=
  match kv_open_err env with
  | Some _ => st
  | None =>
      kv_call st (KvInsert (completed_kv_key stateKey))
        (MkKV (kv_sessions (kv st)) (kv_multipart (kv st))
              (<[completed_kv_key stateKey := finalKey]> (kv_completed (kv st))))
  end.

Definition DeleteCompletedUpload (env : Env) (st : St) (stateKey : string) : St :=
  match kv_open_err env with
  | Some _ => st
  | None =>
      kv_call st (KvDelete (completed_kv_key stateKey))
        (MkKV (kv_sessions (kv st)) (kv_multipart (kv st))
              (delete (completed_kv_key stateKey) (kv_completed (kv st))))
  end.

(** *** Pieces of [ResumableMultipartUpload] *)

(** [contentHash[:16]]; [contentHash] always has 64 characters. *)
Definition fingerprint (contentHash : string) : string :=
  String.substring 0 16 contentHash.

(** The ETag of an upload-part response, or the quoted hex SHA-256 of the
    part when the header is missing. *)
Definition etag_of (resp : Response) (partData : list byte) : string :=
  if String.eqb (resp_ETag resp) EmptyString
  then dquote +:+ sha256Hex partData +:+ dquote
  else resp_ETag resp.

(** The completed-content early exit: [Some completedKey] when the cached
    key is verified by HEAD; a record that fails the check is deleted. *)
Definition check_completed (env : Env) (st : St) (stateKey : string)
  : option string * St :=
  let '(loaded, st) := LoadCompletedUpload env st stateKey in
  match loaded with
  | Err _ => (None, st)
  | Ok completedKey =>
      if String.eqb completedKey EmptyString then (None, st)
      else
        match SignHeadRequest (senv env) completedKey with
        | Err _ => (None, DeleteCompletedUpload env st stateKey)
        | Ok _ =>
            let '(r, st1) := send env st (OpHead completedKey) in
            match r with
            | Ok headResp =>
                if StatusCode headResp =? 200 then (Some completedKey, st1)
                else (None, DeleteCompletedUpload env st1 stateKey)
            | Err _ => (None, DeleteCompletedUpload env st1 stateKey)
            end
        end
  end.

(** The checkpoint rebuilt from a list-parts answer. *)
Definition rebuild_from_list (state : MultipartState)
    (parts : list ListPartResult) : MultipartState :=
  let completed :=
    List.map (fun p => MkPart (lp_PartNumber p) (lp_ETag p)) parts in
  let actualBytes :=
    List.fold_left (fun acc p => wrap64 (acc + lp_Size p)) parts 0 in
  MkState (S3UploadId state) (S3Key state) completed
          (match List.last (List.map Some parts) None with
           | Some p => wrap64 (lp_PartNumber p + 1)
           | None => NextPartNumber state
           end)
          actualBytes (StartedAt state) (ContentHash state).

(** The locals after the resume probe: the object key and upload id in
    use, the checkpoint when the resume stands ([state] with
    [existingState] still non-nil), and [bytesAlreadyUploaded]. *)
Record Probe := MkProbe {
  p_key : string;
  p_uploadId : string;
  p_resumed : option MultipartState;
  p_bytes : Z }.

Definition resume_probe (env : Env) (st : St) (stateKey fp key : string)
  : Probe * St :=
  let '(loaded, st) := LoadMultipartState env st stateKey in
  let existingState :=
    match loaded with
    | Ok o => o
    | Err _ => None
    end in
  match existingState with
  | None => (MkProbe key EmptyString None 0, st)
  | Some state =>
      if negb (String.eqb (ContentHash state) fp)
      then (MkProbe key EmptyString None 0, st)
      else
        let uploadId := S3UploadId state in
        let key := S3Key state in
        match SignListParts (senv env) key uploadId with
        | Err _ => (MkProbe key uploadId None 0, st)
        | Ok _ =>
            let '(r, st1) := send env st (OpListParts key uploadId) in
            match r with
            | Err _ =>
                (MkProbe key uploadId None 0, DeleteMultipartState env st1 stateKey)
            | Ok listResp =>
                if negb (StatusCode listResp =? 200)
                then (MkProbe key uploadId None 0,
                      DeleteMultipartState env st1 stateKey)
                else
                  match xml_unmarshal_list env (resp_body listResp) with
                  | Err _ => (MkProbe key uploadId None 0, st1)
                  | Ok parts =>
                      let state' := rebuild_from_list state parts in
                      (MkProbe key uploadId (Some state') (BytesUploaded state'),
                       st1)
                  end
            end
        end
  end.

(** Initiate and first part. [inr] is the error return. *)
Definition fresh_start (env : Env) (st : St) (fp key : string)
    (identifyData : list byte) (body : Body)
  : (MultipartState + string) * St * Body :=
  match SignInitiateMultipartUpload (senv env) key with
  | Err msg => (inr ("failed to sign initiate request: " +:+ msg), st, body)
  | Ok _ =>
  let '(r, st) := send env st (OpInitiate key) in
  match r with
  | Err msg => (inr ("failed to initiate multipart upload: " +:+ msg), st, body)
  | Ok initResp =>
  if negb (StatusCode initResp =? 200)
  then (inr ("initiate multipart upload failed with status "
               +:+ itoa (StatusCode initResp) +:+ ": " +:+ resp_body initResp),
        st, body)
  else
  match resp_read_err initResp with
  | Some msg => (inr ("failed to read initiate response: " +:+ msg), st, body)
  | None =>
  match xml_unmarshal_initiate env (resp_body initResp) with
  | Err msg => (inr ("failed to parse initiate response: " +:+ msg), st, body)
  | Ok uploadId =>
  let identifyN := lenZ identifyData in
  let remainingForFirstPart := PartSize - identifyN in
  let '(more, err, body) :=
    if 0 <? remainingForFirstPart
    then ReadFull body (PartSize - identifyN)
    else ([], None, body) in
  match err with
  | Some (ErrOther msg) =>
      (inr ("failed to read rest of first part: " +:+ msg), st, body)
  | _ =>
  let remainingForFirstPart :=
    if 0 <? remainingForFirstPart then lenZ more else remainingForFirstPart in
  let firstPartSize := identifyN + remainingForFirstPart in
  (* buf[:firstPartSize]: the identification bytes followed by the bytes
     just read *)
  let firstPartData := identifyData ++ more in
  match SignUploadPart (senv env) key uploadId 1 firstPartSize with
  | Err msg => (inr ("failed to sign first part upload: " +:+ msg), st, body)
  | Ok _ =>
  let '(r, st) := send env st (OpUploadPart key uploadId 1 firstPartData) in
  match r with
  | Err msg => (inr ("failed to upload first part: " +:+ msg), st, body)
  | Ok partResp =>
  if negb (StatusCode partResp =? 200)
  then (inr ("first part upload failed with status "
               +:+ itoa (StatusCode partResp) +:+ ": " +:+ resp_body partResp),
        st, body)
  else
    let etag := etag_of partResp firstPartData in
    (inl (MkState uploadId key [MkPart 1 etag] 2 firstPartSize
                  (now_rfc3339 env) fp),
     st, body)
  end end end end end end end.

(** How the main loop ends: it left the loop ([Continue]) or returned
    from the function ([Return]). *)
Inductive LoopExit :=
| Continue (state : MultipartState)
| Return (out : EngineOut).

(** The main loop [for partsUploadedThisRequest < MaxPartsPerRequest];
    [fuel] is the number of iterations the loop condition still allows. *)
Fixpoint upload_loop (env : Env) (fuel : nat) (partsUploadedThisRequest : Z)
    (stateKey key uploadId : string) (state : MultipartState)
    (st : St) (body : Body) : LoopExit * St * Body :=
  match fuel with
  | O => (Continue state, st, body)
  | S fuel' =>
      let '(partData, err, body) := ReadFull body PartSize in
      match err with
      | Some EOF => (Continue state, st, body)
      | Some (ErrOther msg) =>
          (Return (None, Some ("failed to read body: " +:+ msg)),
           SaveMultipartState env st stateKey state, body)
      | _ =>
      let partSize := lenZ partData in
      let partNumber := NextPartNumber state in
      match SignUploadPart (senv env) key uploadId partNumber partSize with
      | Err msg =>
          (Return (None, Some ("failed to sign part upload: " +:+ msg)),
           SaveMultipartState env st stateKey state, body)
      | Ok _ =>
      let '(r, st) := send env st (OpUploadPart key uploadId partNumber partData) in
      match r with
      | Err msg =>
          (Return (Some (MkResult (BytesUploaded state) false (Some state)
                           EmptyString),
                   Some ("backend limit reached after "
                           +:+ itoa partsUploadedThisRequest +:+ " parts: " +:+ msg)),
           SaveMultipartState env st stateKey state, body)
      | Ok partResp =>
      if negb (StatusCode partResp =? 200)
      then (Return (None, Some ("part " +:+ itoa partNumber
                                  +:+ " upload failed with status "
                                  +:+ itoa (StatusCode partResp) +:+ ": "
                                  +:+ resp_body partResp)),
            SaveMultipartState env st stateKey state, body)
      else
        let etag := etag_of partResp partData in
        let state' :=
          MkState (S3UploadId state) (S3Key state)
                  (CompletedParts state ++ [MkPart partNumber etag])
                  (wrap64 (partNumber + 1))
                  (wrap64 (BytesUploaded state + partSize))
                  (StartedAt state) (ContentHash state) in
        upload_loop env fuel' (partsUploadedThisRequest + 1)
                    stateKey key uploadId state' st body
      end end end
  end.

(** [sort.Slice] by part number, as an insertion sort. *)
Fixpoint insert_part (p : CompletedPart) (l : list CompletedPart)
  : list CompletedPart :=
  match l with
  | [] => [p]
  | q :: r => if PartNumber p <? PartNumber q then p :: l
              else q :: insert_part p r
  end.

Definition sort_parts (l : list CompletedPart) : list CompletedPart :=
  List.fold_right insert_part [] l.

(** Everything after the main loop: the tail probe, the zero-data case
    and complete-multipart. *)
Definition finish (env : Env) (stateKey key uploadId : string)
    (state : MultipartState) (st : St) (body : Body)
  : EngineOut * St * Body :=
  let '(n, err, body) := Read1 body in
  let hasMoreData :=
    (0 <? n) || match err with Some (ErrOther _) | Some ErrUnexpectedEOF => true
                              | _ => false end in
  if hasMoreData
  then ((Some (MkResult (BytesUploaded state) false (Some state) EmptyString),
         None),
        SaveMultipartState env st stateKey state, body)
  else
  match CompletedParts state with
  | [] =>
      let st :=
        match SignAbortMultipartUpload (senv env) key uploadId with
        | Ok _ => snd (send env st (OpAbort key uploadId))
        | Err _ => st
        end in
      ((Some (MkResult 0 true None EmptyString), None),
       DeleteMultipartState env st stateKey, body)
  | _ =>
  let parts := sort_parts (CompletedParts state) in
  match xml_marshal_complete env parts with
  | Err msg =>
      ((None, Some ("failed to marshal complete request: " +:+ msg)), st, body)
  | Ok completeBody =>
  match SignCompleteMultipartUpload (senv env) key uploadId completeBody with
  | Err msg =>
      ((None, Some ("failed to sign complete request: " +:+ msg)), st, body)
  | Ok _ =>
  let '(r, st) := send env st (OpComplete key uploadId parts) in
  match r with
  | Err msg =>
      ((None, Some ("failed to complete multipart upload: " +:+ msg)), st, body)
  | Ok completeResp =>
  if negb (StatusCode completeResp =? 200)
  then ((None, Some ("complete multipart upload failed with status "
                       +:+ itoa (StatusCode completeResp) +:+ ": "
                       +:+ resp_body completeResp)),
        st, body)
  else
    let st := DeleteMultipartState env st stateKey in
    let st := SaveCompletedUpload env st stateKey key in
    ((Some (MkResult (BytesUploaded state) true None key), None), st, body)
  end end end end.

(** *** [ResumableMultipartUpload] *)

Definition ResumableMultipartUpload (env : Env) (st : St)
    (repoName key : string) (body : Body) : EngineOut * St * Body :=
  let '(identifyData, err, body) := ReadFull body IdentifyChunkSize in
  match err with
  | Some EOF => ((Some (MkResult 0 true None EmptyString), None), st, body)
  | Some (ErrOther msg) =>
      ((None, Some ("failed to read identification chunk: " +:+ msg)), st, body)
  | _ =>
  let contentHash := sha256Hex identifyData in
  let stateKey := repoName +:+ "/" +:+ fingerprint contentHash in
  match check_completed env st stateKey with
  | (Some completedKey, st) =>
      ((Some (MkResult 0 true None completedKey), None), st, body)
  | (None, st) =>
  let '(probe, st) := resume_probe env st stateKey (fingerprint contentHash) key in
  let key := p_key probe in
  match p_resumed probe with
  | Some state =>
      if 0 <? p_bytes probe
      then ((Some (MkResult (p_bytes probe) false (Some state) EmptyString), None),
            st, body)
      else
        (* resumed with nothing uploaded yet: partsUploadedThisRequest = 1 *)
        let '(exit, st, body) :=
          upload_loop env (Z.to_nat (MaxPartsPerRequest - 1)) 1
                      stateKey key (p_uploadId probe) state st body in
        match exit with
        | Return out => (out, st, body)
        | Continue state => finish env stateKey key (p_uploadId probe) state st body
        end
  | None =>
      let '(started, st, body) :=
        fresh_start env st (fingerprint contentHash) key identifyData body in
      match started with
      | inr msg => ((None, Some msg), st, body)
      | inl state =>
          let uploadId := S3UploadId state in
          let '(exit, st, body) :=
            upload_loop env (Z.to_nat (MaxPartsPerRequest - 1)) 1
                        stateKey key uploadId state st body in
          match exit with
          | Return out => (out, st, body)
          | Continue state => finish env stateKey key uploadId state st body
          end
      end
  end end end.

End Multipart.

(* ===================================================================== *)
(** ** [security.go]: input validation                                    *)
(* ===================================================================== *)

Module Security.

Definition code_of (c : ascii) : Z := Z.of_nat (nat_of_ascii c).

Definition byte_at (s : string) (i : nat) : option Z :=
  match String.get i s with
  | Some c => Some (code_of c)
  | None => None
  end.

Definition in_range (lo hi : Z) (o : option Z) : bool :=
  match o with
  | Some b => (lo <=? b) && (b <=? hi)
  | None => false
  end.

(** The width of the UTF-8 encoding at the start of [s], as
    [utf8.DecodeRuneInString] accepts it; [0] when the bytes are not a
    well-formed encoding and the rune decodes to [RuneError]. *)
Definition utf8_width (s : string) : nat :=
  let b1 := byte_at s 1 in
  let b2 := byte_at s 2 in
  let b3 := byte_at s 3 in
  let cont := in_range 128 191 in
  match byte_at s 0 with
  | None => 0%nat
  | Some b0 =>
      if b0 <? 128 then 1%nat
      else if (194 <=? b0) && (b0 <=? 223)
      then (if cont b1 then 2%nat else 0%nat)
      else if b0 =? 224
      then (if in_range 160 191 b1 && cont b2 then 3%nat else 0%nat)
      else if b0 =? 237
      then (if in_range 128 159 b1 && cont b2 then 3%nat else 0%nat)
      else if (225 <=? b0) && (b0 <=? 239)
      then (if cont b1 && cont b2 then 3%nat else 0%nat)
      else if b0 =? 240
      then (if in_range 144 191 b1 && cont b2 && cont b3 then 4%nat else 0%nat)
      else if (241 <=? b0) && (b0 <=? 243)
      then (if cont b1 && cont b2 && cont b3 then 4%nat else 0%nat)
      else if b0 =? 244
      then (if in_range 128 143 b1 && cont b2 && cont b3 then 4%nat else 0%nat)
      else 0%nat
  end.

(** [fmt.Sprintf("%c", c)] for the first rune [c] of [s]: its bytes, or
    the encoding of U+FFFD for [RuneError]. *)
Definition first_rune_text (s : string) : string :=
  match utf8_width s with
  | O => String (ascii_of_nat 239) (String (ascii_of_nat 191)
           (String (ascii_of_nat 189) EmptyString))
  | w => String.substring 0 w s
  end.

(** [for _, c := range s { if !ok(c) { return ... c ... } }] for a
    predicate [ok] that holds of ASCII characters only: the text of the
    first rune that fails it. A byte of 128 or more starts a rune of
    128 or more (or [RuneError]), which fails [ok]; so the loop never
    steps over a multi-byte rune. *)
Fixpoint first_bad_rune (ok : ascii -> bool) (s : string) : option string :=
  match s with
  | EmptyString => None
  | String c r =>
      if (code_of c <? 128) && ok c then first_bad_rune ok r
      else Some (first_rune_text s)
  end.

Definition between (lo hi c : ascii) : bool :=
  (code_of lo <=? code_of c) && (code_of c <=? code_of hi).

Definition isValidNameChar (c : ascii) : bool :=
  between "a" "z" c || between "0" "9" c
  || Ascii.eqb c "." || Ascii.eqb c "_" || Ascii.eqb c "-" || Ascii.eqb c "/".

Definition isHexChar (c : ascii) : bool :=
  between "0" "9" c || between "a" "f" c || between "A" "F" c.

Definition isValidTagChar (c : ascii) : bool :=
  between "a" "z" c || between "A" "Z" c || between "0" "9" c
  || Ascii.eqb c "." || Ascii.eqb c "_" || Ascii.eqb c "-".

(** [strings.Contains(s, sub)] *)
Fixpoint Contains (s sub : string) : bool :=
  String.prefix sub s
  || match s with
     | EmptyString => false
     | String _ r => Contains r sub
     end.

(** [strings.SplitN(s, ":", 2)]: [None] when there is no colon (one
    part), otherwise the text before and after the first colon. *)
Fixpoint cut_colon (s : string) : option (string * string) :=
  match s with
  | EmptyString => None
  | String c r =>
      if Ascii.eqb c ":" then Some (EmptyString, r)
      else match cut_colon r with
           | Some (a, b) => Some (String c a, b)
           | None => None
           end
  end.

Definition bad_request (code message detail : string) : OCIError :=
  MkOCIError code message detail 400.

Definition ValidateRepositoryName (name : string) : option OCIError :=
  if String.eqb name EmptyString
  then Some (bad_request "NAME_INVALID" "repository name cannot be empty" EmptyString)
  else if 256 <? len name
  then Some (bad_request "NAME_INVALID"
               "repository name exceeds maximum length of 256 characters" EmptyString)
  else if Contains name ".."
  then Some (bad_request "NAME_INVALID"
               "repository name contains invalid characters" EmptyString)
  else if Contains name (String (ascii_of_nat 0) EmptyString)
  then Some (bad_request "NAME_INVALID"
               "repository name contains invalid characters" EmptyString)
  else
    match first_bad_rune isValidNameChar name with
    | Some c =>
        Some (bad_request "NAME_INVALID"
                "repository name contains invalid characters (must be lowercase alphanumeric with . _ - / separators)"
                ("invalid character: " +:+ c))
    | None => None
    end.

Definition ValidateDigestFormat (digest : string) : option OCIError :=
  if String.eqb digest EmptyString
  then Some (bad_request "DIGEST_INVALID" "digest cannot be empty" EmptyString)
  else
    match cut_colon digest with
    | None =>
        Some (bad_request "DIGEST_INVALID"
                "digest must be in algorithm:hash format" digest)
    | Some (algorithm, hash) =>
        if negb (String.eqb algorithm "sha256")
        then Some (bad_request "DIGEST_INVALID"
                     "only sha256 digest algorithm is supported"
                     ("received: " +:+ algorithm))
        else if negb (len hash =? 64)
        then Some (bad_request "DIGEST_INVALID"
                     "sha256 hash must be 64 hexadecimal characters"
                     ("received " +:+ itoa (len hash) +:+ " characters"))
        else
          match first_bad_rune isHexChar hash with
          | Some _ =>
              Some (bad_request "DIGEST_INVALID"
                      "digest contains non-hexadecimal characters" EmptyString)
          | None => None
          end
    end.

Definition ValidateReference (reference : string) : option OCIError :=
  if String.eqb reference EmptyString
  then Some (bad_request "TAG_INVALID" "tag/reference cannot be empty" EmptyString)
  else if HasPrefix reference "sha256:" then ValidateDigestFormat reference
  else if 128 <? len reference
  then Some (bad_request "TAG_INVALID"
               "tag exceeds maximum length of 128 characters" EmptyString)
  else
    match first_bad_rune isValidTagChar reference with
    | Some c =>
        Some (bad_request "TAG_INVALID" "tag contains invalid characters"
                ("invalid character: " +:+ c))
    | None => None
    end.

End Security.

(* ===================================================================== *)
(** ** [uploads.go]: the PATCH and PUT handlers                           *)
(* ===================================================================== *)

Module Uploads.

Import S3Auth Multipart.

(** An incoming request as the handlers read it. *)
Record HttpReq := MkReq {
  req_headers : Header;
  req_body : Body }.

Definition StatusAccepted : Z := 202.
Definition StatusCreated : Z := 201.
Definition StatusBadRequest : Z := 400.
Definition StatusNotFound : Z := 404.
Definition StatusInternalServerError : Z := 500.

(** The three-byte UTF-8 encodings of the spaces [isSpace] of [fmt]
    knows: U+1680, U+2000 to U+200A, U+2028, U+2029, U+202F, U+205F and
    U+3000. *)
Definition is_space3 (b1 b2 b3 : Z) : bool :=
  (b1 =? 225) && (b2 =? 154) && (b3 =? 128)
  || (b1 =? 226) && (b2 =? 128)
     && ((128 <=? b3) && (b3 <=? 138) || (b3 =? 168) || (b3 =? 169) || (b3 =? 175))
  || (b1 =? 226) && (b2 =? 129) && (b3 =? 159)
  || (b1 =? 227) && (b2 =? 128) && (b3 =? 128).

(** [SkipSpace] of the scanner, as [Sscanf] runs it (a line feed is not a
    space there): the input after its leading spaces, and [None] for the
    error [unexpected newline]. The scanner decodes UTF-8, so the spaces
    are U+0009, U+000B to U+000D, U+0020, the two-byte U+0085 and U+00A0,
    and those of [is_space3]; a byte sequence that is not the encoding of
    one of them ends the run. *)
Fixpoint skip_space (s : string) : option string :=
  match s with
  | EmptyString => Some s
  | String c r =>
      let b1 := Security.code_of c in
      if b1 =? 10 then None
      else if (9 <=? b1) && (b1 <=? 13) || (b1 =? 32) then skip_space r
      else
        match r with
        | EmptyString => Some s
        | String d r2 =>
            let b2 := Security.code_of d in
            if (b1 =? 194) && ((b2 =? 133) || (b2 =? 160)) then skip_space r2
            else
              match r2 with
              | EmptyString => Some s
              | String e r3 =>
                  if is_space3 b1 b2 (Security.code_of e) then skip_space r3
                  else Some s
              end
        end
  end.

Fixpoint scan_digits (s : string) (acc : Z) (seen : bool) : option Z :=
  match s with
  | String c r =>
      let d := Z.of_nat (nat_of_ascii c) - 48 in
      if (0 <=? d) && (d <=? 9) then scan_digits r (acc * 10 + d) true
      else if seen then Some acc else None
  | EmptyString => if seen then Some acc else None
  end.

(** [fmt.Sscanf(s, "%d", &n)] on [n = 0]: the value of the optionally
    signed decimal numeral that follows the leading spaces of [s], and
    [0] when there is none, when a line feed comes first or when the
    numeral does not fit [int64] (the scan fails and leaves [n]). *)
Definition Sscanf_d (s : string) : Z :=
  match skip_space s with
  | None => 0
  | Some s =>
  let '(neg, s) :=
    match s with
    | String c r =>
        if Ascii.eqb c "-" then (true, r)
        else if Ascii.eqb c "+" then (false, r) else (false, s)
    | EmptyString => (false, s)
    end in
  match scan_digits s 0 false with
  | None => 0
  | Some v =>
      let v := if neg then - v else v in
      if (-9223372036854775808 <=? v) && (v <=? 9223372036854775807)
      then v else 0
  end
  end.

(** [max] of [uploads.go] *)
Definition max (a b : Z) : Z := if b <? a then a else b.

Definition session_kv_key (uploadUUID : string) : string :=
  "uploads/" +:+ uploadUUID.

(** [store.Insert(key, json.Marshal(session))] *)
Definition insert_session (st : St) (key : string) (session : UploadSession) : St :=
  kv_call st (KvInsert key)
    (MkKV (<[key := Ok session]> (kv_sessions (kv st)))
          (kv_multipart (kv st)) (kv_completed (kv st))).

(** [store.Delete(key)] *)
Definition delete_session (st : St) (key : string) : St :=
  kv_call st (KvDelete key)
    (MkKV (delete key (kv_sessions (kv st)))
          (kv_multipart (kv st)) (kv_completed (kv st))).

(** [store.Lookup(key)] of an upload session. *)
Definition lookup_session (st : St) (key : string)
  : option (res UploadSession) * St :=
  (kv_sessions (kv st) !! key, kv_call st (KvLookup key) (kv st)).

(** The 202 reply every exit of [handleUploadChunk] writes. *)
Definition accepted (name uploadUUID range : string) : Outcome :=
  Wrote StatusAccepted
    (set_headers [ ("Location", "/v2/" +:+ name +:+ "/blobs/uploads/" +:+ uploadUUID);
                   ("Docker-Upload-UUID", uploadUUID);
                   ("Range", range);
                   ("Content-Length", "0") ] []).

Definition unsupported (message : string) : Outcome :=
  Failed (MkOCIError "UNSUPPORTED" message EmptyString StatusInternalServerError).

Definition with_TempLocation (s : UploadSession) (t : string) : UploadSession :=
  MkSession (UUID s) (Repo s) (SessStartedAt s) (BytesReceived s) t (ExpiresAt s).

Definition with_BytesReceived (s : UploadSession) (n : Z) : UploadSession :=
  MkSession (UUID s) (Repo s) (SessStartedAt s) n (TempLocation s) (ExpiresAt s).

Definition is_2xx (status : Z) : bool := (200 <=? status) && (status <? 300).

(** *** [handleUploadChunk]: PATCH /v2/<name>/blobs/uploads/<uuid> *)

Definition handleUploadChunk (env : Env) (st : St) (r : HttpReq)
    (name uploadUUID : string) : Outcome * St * Body :=
  let body := req_body r in
  match kv_open_err env with
  | Some msg => (unsupported ("KV store error: " +:+ msg), st, body)
  | None =>
  let key := session_kv_key uploadUUID in
  let '(entry, st) := lookup_session st key in
  match entry with
  | None =>
      (Failed (MkOCIError "BLOB_UPLOAD_UNKNOWN" "blob upload unknown to registry"
                          uploadUUID StatusNotFound), st, body)
  | Some (Err msg) => (unsupported ("Invalid session data: " +:+ msg), st, body)
  | Some (Ok session) =>
  let contentLength := hget "Content-Length" (req_headers r) in
  let transferEncoding := hget "Transfer-Encoding" (req_headers r) in
  let contentLengthInt := Sscanf_d contentLength in
  if (0 <? BytesReceived session) && String.eqb transferEncoding "chunked"
  then
    (accepted name uploadUUID
       ("0-" +:+ itoa (BytesReceived session - 1)), st, body)
  else
  if (contentLengthInt =? 0) && String.eqb transferEncoding "chunked"
  then
    let chunkKey := TempLocation session +:+ "/data" in
    let '(out, st, body) := ResumableMultipartUpload env st name chunkKey body in
    match out with
    | (_, Some err) => (unsupported ("Multipart upload failed: " +:+ err), st, body)
    | (None, None) => (Panic, st, body)
    | (Some result, None) =>
        if negb (String.eqb (r_CompletedKey result) EmptyString)
           && r_IsComplete result
        then
          let session := with_TempLocation session
                           (TrimSuffix (r_CompletedKey result) "/data") in
          let session := with_BytesReceived session 1 in
          (accepted name uploadUUID "0-0", insert_session st key session, body)
        else
        if 0 <? r_BytesUploaded result
        then
          let session := with_BytesReceived session (r_BytesUploaded result) in
          let session :=
            match r_State result with
            | Some state =>
                if negb (String.eqb (S3Key state) EmptyString)
                then with_TempLocation session (TrimSuffix (S3Key state) "/data")
                else if negb (String.eqb (r_CompletedKey result) EmptyString)
                then with_TempLocation session
                       (TrimSuffix (r_CompletedKey result) "/data")
                else session
            | None =>
                if negb (String.eqb (r_CompletedKey result) EmptyString)
                then with_TempLocation session
                       (TrimSuffix (r_CompletedKey result) "/data")
                else session
            end in
          let st := insert_session st key session in
          if negb (r_IsComplete result)
          then (accepted name uploadUUID
                  ("0-" +:+ itoa (r_BytesUploaded result - 1)), st, body)
          else (accepted name uploadUUID
                  ("0-" +:+ itoa (max 0 (wrap64 (BytesReceived session - 1)))),
                st, body)
        else
          (accepted name uploadUUID
             ("0-" +:+ itoa (max 0 (wrap64 (BytesReceived session - 1)))), st, body)
    end
  else
  if 0 <? contentLengthInt
  then
    let chunkKey := TempLocation session +:+ "/data" in
    match SignPutRequest (senv env) chunkKey "application/octet-stream" with
    | Err msg => (unsupported ("S3 auth error: " +:+ msg), st, body)
    | Ok _ =>
    let '(resp, st) :=
      send env st (OpPut chunkKey "application/octet-stream" FromClientBody) in
    (* the body is handed to the backend request and streamed by [Send] *)
    let body := MkBody [] (b_end body) in
    match resp with
    | Err msg => (unsupported ("S3 request failed: " +:+ msg), st, body)
    | Ok resp =>
    if negb (is_2xx (StatusCode resp))
    then (unsupported ("Chunk upload failed: " +:+ itoa (StatusCode resp)), st, body)
    else
      let session :=
        with_BytesReceived session (wrap64 (BytesReceived session + contentLengthInt)) in
      let st := insert_session st key session in
      (accepted name uploadUUID
         ("0-" +:+ itoa (max 0 (wrap64 (BytesReceived session - 1)))), st, body)
    end end
  else
    (accepted name uploadUUID
       ("0-" +:+ itoa (max 0 (wrap64 (BytesReceived session - 1)))), st, body)
  end end.

(** *** [handleCompleteUpload]: PUT /v2/<name>/blobs/uploads/<uuid>?digest= *)

(** The key computation of lines 261-262; [None] is the slice-bounds
    panic. *)
Definition finalKey_of (expectedDigest : string) : option string :=
  digestHash ← slice_from expectedDigest 7;
  h02 ← slice digestHash 0 2;
  h24 ← slice digestHash 2 4;
  Some ("blobs/sha256/" +:+ h02 +:+ "/" +:+ h24 +:+ "/" +:+ digestHash).

(** The chunked-upload branch: server-side COPY, the GET-then-PUT
    fallback, and the best-effort delete of the temp object. [inr] is
    the error return. *)
Definition copy_to_final (env : Env) (st : St) (finalKey sourceKey : string)
  : (unit + Outcome) * St :=
  let '(copyWorked, st) :=
    match SignCopyRequest (senv env) finalKey sourceKey with
    | Err _ => (false, st)
    | Ok _ =>
        let '(r, st) := send env st (OpCopy finalKey sourceKey) in
        match r with
        | Ok copyResp => (is_2xx (StatusCode copyResp), st)
        | Err _ => (false, st)
        end
    end in
  let '(fallback, st) :=
    if copyWorked then (inl tt, st)
    else
      match SignGetRequest (senv env) sourceKey with
      | Err msg => (inr (unsupported ("S3 auth error: " +:+ msg)), st)
      | Ok _ =>
      let '(r, st) := send env st (OpGet sourceKey) in
      match r with
      | Err msg => (inr (unsupported ("Object Storage GET failed: " +:+ msg)), st)
      | Ok getResp =>
      if negb (is_2xx (StatusCode getResp))
      then (inr (unsupported ("Failed to fetch temp blob: "
                                +:+ itoa (StatusCode getResp))), st)
      else
      match SignPutRequest (senv env) finalKey "application/octet-stream" with
      | Err msg => (inr (unsupported ("S3 auth error: " +:+ msg)), st)
      | Ok _ =>
      let '(r, st) :=
        send env st (OpPut finalKey "application/octet-stream" FromGetResponse) in
      match r with
      | Err msg => (inr (unsupported ("Object Storage PUT failed: " +:+ msg)), st)
      | Ok putResp =>
      if negb (is_2xx (StatusCode putResp))
      then (inr (unsupported ("Failed to copy blob to final location: "
                                +:+ itoa (StatusCode putResp))), st)
      else (inl tt, st)
      end end end end
  in
  match fallback with
  | inr o => (inr o, st)
  | inl _ =>
      match SignDeleteRequest (senv env) sourceKey with
      | Ok _ => (inl tt, snd (send env st (OpDelete sourceKey)))
      | Err _ => (inl tt, st)
      end
  end.

Definition handleCompleteUpload (env : Env) (st : St) (r : HttpReq)
    (name uploadUUID expectedDigest : string) : Outcome * St :=
  match kv_open_err env with
  | Some msg => (unsupported ("KV store error: " +:+ msg), st)
  | None =>
  let key := session_kv_key uploadUUID in
  let '(entry, st) := lookup_session st key in
  match entry with
  | None =>
      (Failed (MkOCIError "BLOB_UPLOAD_UNKNOWN" "blob upload unknown to registry"
                          uploadUUID StatusNotFound), st)
  | Some (Err msg) => (unsupported ("Invalid session data: " +:+ msg), st)
  | Some (Ok session) =>
  if negb (HasPrefix expectedDigest "sha256:")
  then (Failed (MkOCIError "DIGEST_INVALID" "Invalid digest format"
                           expectedDigest StatusBadRequest), st)
  else
  match finalKey_of expectedDigest with
  | None => (Panic, st)
  | Some finalKey =>
  let contentLength := hget "Content-Length" (req_headers r) in
  let contentLengthInt := Sscanf_d contentLength in
  let '(stored, st) :=
    if 0 <? contentLengthInt
    then
      match SignPutRequest (senv env) finalKey "application/octet-stream" with
      | Err msg => (inr (unsupported ("S3 auth error: " +:+ msg)), st)
      | Ok _ =>
      let '(resp, st) :=
        send env st (OpPut finalKey "application/octet-stream" FromClientBody) in
      match resp with
      | Err msg =>
          (inr (unsupported ("Object Storage request failed: " +:+ msg)), st)
      | Ok resp =>
          if negb (is_2xx (StatusCode resp))
          then (inr (unsupported ("Object Storage upload failed: "
                                    +:+ itoa (StatusCode resp))), st)
          else (inl tt, st)
      end end
    else if 0 <? BytesReceived session
    then copy_to_final env st finalKey (TempLocation session +:+ "/data")
    else (inl tt, st) in
  match stored with
  | inr o => (o, st)
  | inl _ =>
      match kv_delete_err env with
      | Some msg =>
          (unsupported ("KV delete error: " +:+ msg),
           kv_call st (KvDelete key) (kv st))
      | None =>
      let st := delete_session st key in
      let sourceKey := TempLocation session +:+ "/data" in
      let st := DeleteMultipartState env st sourceKey in
      (Wrote StatusCreated
         (set_headers [ ("Location", "/v2/" +:+ name +:+ "/blobs/" +:+ expectedDigest);
                        ("Docker-Content-Digest", expectedDigest);
                        ("Content-Length", "0") ] []),
       st)
      end
  end end end end.

End Uploads.

(* ===================================================================== *)
(** ** The entry point: [handleRoute]                                     *)
(* ===================================================================== *)

Module Router.

Import Uploads.

Record Route := MkRoute {
  Type_ : string;
  Name : string;
  Reference : string;
  Digest : string;
  RouteUUID : string;
  MountFrom : string;
  Query : string }.

(** [handleRoute], from the validation of the route on. [gate] is the
    answer of what runs before it (the TRACE and OPTIONS replies, the
    rate limiter, authentication and authorization) when one of them
    answers the request; [others] stands for the handlers of the routes
    other than the two upload routes. The response headers are those the
    handler itself sets. *)
Definition handleRoute (env : Env) (st : St) (gate : option Outcome)
    (others : Route -> St -> Outcome * St) (r : HttpReq) (route : Route)
  : Outcome * St :=
  match gate with
  | Some o => (o, st)
  | None =>
  match (if negb (String.eqb (Name route) EmptyString)
         then Security.ValidateRepositoryName (Name route) else None) with
  | Some e => (Failed e, st)
  | None =>
  match (if negb (String.eqb (Reference route) EmptyString)
         then Security.ValidateReference (Reference route) else None) with
  | Some e => (Failed e, st)
  | None =>
  match (if negb (String.eqb (Digest route) EmptyString)
         then Security.ValidateDigestFormat (Digest route) else None) with
  | Some e => (Failed e, st)
  | None =>
      if String.eqb (Type_ route) "upload_chunk"
      then
        let '(o, st, _) :=
          handleUploadChunk env st r (Name route) (RouteUUID route) in
        (o, st)
      else if String.eqb (Type_ route) "complete_upload"
      then handleCompleteUpload env st r (Name route) (RouteUUID route)
             (Digest route)
      else others route st
  end end end end.

End Router.

(* ===================================================================== *)
(** ** [uploads.go]: session creation, mount and status                   *)
(* ===================================================================== *)

Module Lifecycle.

Import S3Auth Multipart Uploads.

Definition StatusNoContent : Z := 204.

(** What [handleInitiateUpload] draws besides the environment: the text
    of [uuid.New()] and the rendering of [time.Now().Add(time.Hour)]. *)
Record Fresh := MkFresh { new_uuid : string; expires_rfc3339 : string }.

(** *** [handleInitiateUpload]: POST /v2/<name>/blobs/uploads/

    [store.Insert] on an opened store succeeds (see [Env]), so the exit
    on an insert error has no counterpart here. *)

Definition handleInitiateUpload (env : Env) (st : St) (f : Fresh) (name : string)
  : Outcome * St :=
  let uploadUUID := new_uuid f in
  let session :=
    MkSession uploadUUID name (now_rfc3339 env) 0
              ("uploads/" +:+ name +:+ "/" +:+ uploadUUID) (expires_rfc3339 f) in
  match kv_open_err env with
  | Some msg => (unsupported ("KV store error: " +:+ msg), st)
  | None =>
      let key := session_kv_key uploadUUID in
      let st := insert_session st key session in
      (Wrote StatusAccepted
         (set_headers [ ("Location", "/v2/" +:+ name +:+ "/blobs/uploads/" +:+ uploadUUID);
                        ("Docker-Upload-UUID", uploadUUID);
                        ("Range", "0-0");
                        ("Content-Length", "0") ] []),
       st)
  end.

(** *** [handleMountBlob]: POST ...?mount=<digest>&from=<repo> *)

Definition handleMountBlob (env : Env) (st : St) (f : Fresh)
    (name mountDigest fromRepo : string) : Outcome * St :=
  if negb (HasPrefix mountDigest "sha256:")
  then (Failed (MkOCIError "DIGEST_INVALID" "Invalid digest format"
                           mountDigest StatusBadRequest), st)
  else
  match BlobKey mountDigest with
  | None => (Panic, st)
  | Some blobKey =>
  match SignHeadRequest (senv env) blobKey with
  | Err msg => (unsupported ("S3 auth error: " +:+ msg), st)
  | Ok _ =>
  let '(resp, st) := send env st (OpHead blobKey) in
  match resp with
  | Err msg => (unsupported ("Object Storage request failed: " +:+ msg), st)
  | Ok resp =>
      if is_2xx (StatusCode resp)
      then (Wrote StatusCreated
              (set_headers [ ("Location", "/v2/" +:+ name +:+ "/blobs/" +:+ mountDigest);
                             ("Docker-Content-Digest", mountDigest);
                             ("Content-Length", "0") ] []),
            st)
      else handleInitiateUpload env st f name
  end end end.

(** *** [handleGetUploadStatus]: GET /v2/<name>/blobs/uploads/<uuid> *)

Definition handleGetUploadStatus (env : Env) (st : St) (name uploadUUID : string)
  : Outcome * St :=
  match kv_open_err env with
  | Some msg => (unsupported ("KV store error: " +:+ msg), st)
  | None =>
  let key := session_kv_key uploadUUID in
  let '(entry, st) := lookup_session st key in
  match entry with
  | None =>
      (Failed (MkOCIError "BLOB_UPLOAD_UNKNOWN" "blob upload unknown to registry"
                          uploadUUID StatusNotFound), st)
  | Some (Err msg) => (unsupported ("Invalid session data: " +:+ msg), st)
  | Some (Ok session) =>
      (Wrote StatusNoContent
         (set_headers [ ("Location", "/v2/" +:+ name +:+ "/blobs/uploads/" +:+ uploadUUID);
                        ("Docker-Upload-UUID", uploadUUID);
                        ("Range", "0-" +:+ itoa (max 0 (wrap64 (BytesReceived session - 1)))) ]
                      []),
       st)
  end end.

(** *** [MultipartUpload] of [multipart.go]: the compatibility wrapper

    [None] is the nil dereference of [result.BytesUploaded]. *)
Definition MultipartUpload (env : Env) (st : St) (key : string) (body : Body)
  : option (Z * option string) * St * Body :=
  let '(out, st, body) := ResumableMultipartUpload env st "default" key body in
  match out with
  | (_, Some err) => (Some (0, Some err), st, body)
  | (Some result, None) => (Some (r_BytesUploaded result, None), st, body)
  | (None, None) => (None, st, body)
  end.

End Lifecycle.

(* ===================================================================== *)
(** ** [blobs.go]: blob deletion                                          *)
(* ===================================================================== *)

Module Blobs.

Import S3Auth Uploads.

(** *** [handleDeleteBlob]: DELETE /v2/<name>/blobs/<digest> *)

Definition handleDeleteBlob (env : Env) (st : St) (name digest : string)
  : Outcome * St :=
  if negb (HasPrefix digest "sha256:")
  then (Failed (MkOCIError "DIGEST_INVALID" "Invalid digest format"
                           digest StatusBadRequest), st)
  else
  match BlobKey digest with
  | None => (Panic, st)
  | Some blobKey =>
  match SignDeleteRequest (senv env) blobKey with
  | Err msg => (unsupported ("S3 auth error: " +:+ msg), st)
  | Ok _ =>
  let '(resp, st) := send env st (OpDelete blobKey) in
  match resp with
  | Err msg => (unsupported ("Object Storage request failed: " +:+ msg), st)
  | Ok resp =>
      if StatusCode resp =? StatusNotFound
      then (Failed (MkOCIError "BLOB_UNKNOWN" "blob unknown to registry"
                               digest StatusNotFound), st)
      else (Wrote StatusAccepted [], st)
  end end end.

End Blobs.

(* ===================================================================== *)
(** ** The entry point: [parseRoute] and [extractQueryParam]              *)
(* ===================================================================== *)

Module Routes.

Import Router.

(** [strings.Index(s, sub)] *)
Fixpoint Index (s sub : string) : Z :=
  if String.prefix sub s then 0
  else match s with
       | EmptyString => -1
       | String _ r => let i := Index r sub in if i <? 0 then -1 else i + 1
       end.

(** [strings.HasSuffix(s, suffix)] *)
Definition HasSuffix (s suffix : string) : bool :=
  let n := String.length s in
  let k := String.length suffix in
  (k <=? n)%nat && String.eqb (String.substring (n - k) k s) suffix.

(** [strings.Split(s, sep)] for a one-byte separator. *)
Fixpoint Split (s : string) (sep : ascii) : list string :=
  match s with
  | EmptyString => [EmptyString]
  | String c r =>
      if Ascii.eqb c sep then EmptyString :: Split r sep
      else match Split r sep with
           | h :: t => String c h :: t
           | [] => [String c EmptyString]
           end
  end.

(** [strings.SplitN(s, sep, 2)] for a one-byte separator: [None] when
    [sep] does not occur (one part), otherwise the two parts. *)
Fixpoint SplitN2 (s : string) (sep : ascii) : option (string * string) :=
  match s with
  | EmptyString => None
  | String c r =>
      if Ascii.eqb c sep then Some (EmptyString, r)
      else match SplitN2 r sep with
           | Some (a, b) => Some (String c a, b)
           | None => None
           end
  end.

(** [strings.ReplaceAll(s, old, new)] for a non-empty [old]: occurrences
    are replaced from the left and do not overlap; [skip] counts the
    bytes of the occurrence just replaced that are still to be passed. *)
Fixpoint replace_from (skip : nat) (s old new : string) : string :=
  match s with
  | EmptyString => EmptyString
  | String c r =>
      match skip with
      | S k => replace_from k r old new
      | O =>
          if String.prefix old s
          then new +:+ replace_from (String.length old - 1) r old new
          else String c (replace_from 0 r old new)
      end
  end.

Definition ReplaceAll (s old new : string) : string := replace_from 0 s old new.

(** The loop of [extractQueryParam] over the pairs. *)
Fixpoint first_param (pairs : list string) (key : string) : string :=
  match pairs with
  | [] => EmptyString
  | kv_pair :: rest =>
      match SplitN2 kv_pair "=" with
      | Some (k, v) =>
          if String.eqb k key
          then ReplaceAll (ReplaceAll v "%3A" ":") "%2F" "/"
          else first_param rest key
      | None => first_param rest key
      end
  end.

Definition extractQueryParam (query key : string) : string :=
  first_param (Split query "&") key.

(** [Route{Type: t}] *)
Definition only_type (t : string) : Route :=
  MkRoute t EmptyString EmptyString EmptyString EmptyString EmptyString EmptyString.

(** How one [if] block of [parseRoute] ends: it returned a route, fell
    through to the next block, or panicked on a slice. *)
Inductive Block := Returned (r : Route) | Fell | Panicked.

Definition nonempty (s : string) : bool := negb (String.eqb s EmptyString).

(** Manifest routes: [<name>/manifests/<reference>] *)
Definition manifest_routes (pathWithoutV2 method : string) : Block :=
  let idx := Index pathWithoutV2 "/manifests/" in
  if negb (idx =? -1)
  then
    match slice_to pathWithoutV2 idx, slice_from pathWithoutV2 (idx + 11) with
    | Some name, Some reference =>
        if nonempty name && nonempty reference
        then
          let route t :=
            MkRoute t name reference EmptyString EmptyString EmptyString EmptyString in
          if String.eqb method "GET" then Returned (route "get_manifest")
          else if String.eqb method "HEAD" then Returned (route "head_manifest")
          else if String.eqb method "PUT" then Returned (route "put_manifest")
          else if String.eqb method "DELETE" then Returned (route "delete_manifest")
          else Fell
        else Fell
    | _, _ => Panicked
    end
  else Fell.

(** Upload routes: [<name>/blobs/uploads/<uuid>] *)
Definition upload_routes (pathWithoutV2 method query : string) : Block :=
  let idx := Index pathWithoutV2 "/blobs/uploads/" in
  if negb (idx =? -1)
  then
    match slice_to pathWithoutV2 idx, slice_from pathWithoutV2 (idx + 15) with
    | Some name, Some uuid =>
        if nonempty name && nonempty uuid
        then
          let route t digest :=
            MkRoute t name EmptyString digest uuid EmptyString EmptyString in
          if String.eqb method "PUT" && nonempty (extractQueryParam query "digest")
          then Returned (route "complete_upload" (extractQueryParam query "digest"))
          else if String.eqb method "PATCH"
          then Returned (route "upload_chunk" EmptyString)
          else if String.eqb method "GET"
          then Returned (route "get_upload_status" EmptyString)
          else if String.eqb method "PUT"
          then Returned (route "upload_chunk" EmptyString)
          else Fell
        else Fell
    | _, _ => Panicked
    end
  else Fell.

(** Initiate upload: POST [<name>/blobs/uploads/] or [<name>/blobs/uploads] *)
Definition initiate_routes (pathWithoutV2 method query : string) : Block :=
  if HasSuffix pathWithoutV2 "/blobs/uploads/"
     || HasSuffix pathWithoutV2 "/blobs/uploads"
  then
    let suffixLen := if HasSuffix pathWithoutV2 "/" then 15 else 14 in
    match slice_to pathWithoutV2 (len pathWithoutV2 - suffixLen) with
    | Some name =>
        if nonempty name && String.eqb method "POST"
        then
          let mountDigest := extractQueryParam query "mount" in
          let fromRepo := extractQueryParam query "from" in
          if nonempty mountDigest && nonempty fromRepo
          then Returned (MkRoute "mount_blob" name EmptyString mountDigest
                                 EmptyString fromRepo EmptyString)
          else Returned (MkRoute "initiate_upload" name EmptyString EmptyString
                                 EmptyString EmptyString EmptyString)
        else Fell
    | None => Panicked
    end
  else Fell.

(** Blob routes: [<name>/blobs/<digest>] (but not uploads) *)
Definition blob_routes (pathWithoutV2 method : string) : Block :=
  if negb (Security.Contains pathWithoutV2 "/blobs/uploads")
  then
    let idx := Index pathWithoutV2 "/blobs/" in
    if negb (idx =? -1)
    then
      match slice_to pathWithoutV2 idx, slice_from pathWithoutV2 (idx + 7) with
      | Some name, Some digest =>
          if nonempty name && nonempty digest
          then
            let route t :=
              MkRoute t name EmptyString digest EmptyString EmptyString EmptyString in
            if String.eqb method "GET" then Returned (route "get_blob")
            else if String.eqb method "HEAD" then Returned (route "head_blob")
            else if String.eqb method "DELETE" then Returned (route "delete_blob")
            else Fell
          else Fell
      | _, _ => Panicked
      end
    else Fell
  else Fell.

(** Tags list: GET [<name>/tags/list] *)
Definition tags_routes (pathWithoutV2 method query : string) : Block :=
  if HasSuffix pathWithoutV2 "/tags/list" && String.eqb method "GET"
  then
    match slice_to pathWithoutV2 (len pathWithoutV2 - 10) with
    | Some name =>
        if nonempty name
        then Returned (MkRoute "list_tags" name EmptyString EmptyString
                               EmptyString EmptyString query)
        else Fell
    | None => Panicked
    end
  else Fell.

(** Referrers: GET [<name>/referrers/<digest>] *)
Definition referrers_routes (pathWithoutV2 method query : string) : Block :=
  let idx := Index pathWithoutV2 "/referrers/" in
  if negb (idx =? -1)
  then
    match slice_to pathWithoutV2 idx, slice_from pathWithoutV2 (idx + 11) with
    | Some name, Some digest =>
        if nonempty name && nonempty digest && String.eqb method "GET"
        then Returned (MkRoute "referrers" name EmptyString digest
                               EmptyString EmptyString query)
        else Fell
    | _, _ => Panicked
    end
  else Fell.

(** The blocks in the order of the source; the first that returns
    decides. *)
Fixpoint first_returned (blocks : list Block) : option Route :=
  match blocks with
  | [] => Some (only_type "not_found")
  | Returned r :: _ => Some r
  | Panicked :: _ => None
  | Fell :: rest => first_returned rest
  end.

(** [parseRoute]; [None] is a slice-bounds panic. *)
Definition parseRoute (path method query : string) : option Route :=
  if String.eqb path "/health" || String.eqb path "/"
  then Some (only_type "health")
  else if String.eqb path "/v2/auth" || String.eqb path "/token"
  then Some (only_type "token_auth")
  else if String.eqb path "/v2/" || String.eqb path "/v2"
  then Some (only_type "api_version")
  else if negb (HasPrefix path "/v2/")
  then Some (only_type "not_found")
  else
    match slice_from path 4 with
    | None => None
    | Some pathWithoutV2 =>
        if String.eqb pathWithoutV2 "_catalog" && String.eqb method "GET"
        then Some (only_type "catalog")
        else
          first_returned
            [ manifest_routes pathWithoutV2 method;
              upload_routes pathWithoutV2 method query;
              initiate_routes pathWithoutV2 method query;
              blob_routes pathWithoutV2 method;
              tags_routes pathWithoutV2 method query;
              referrers_routes pathWithoutV2 method query ]
    end.

(** The [switch] of [handleRoute] for the upload and blob-delete routes
    and the unknown endpoint; [rest] stands for the handlers of the
    remaining route types. *)
Definition dispatch (env : Env) (f : Lifecycle.Fresh)
    (rest : Route -> St -> Outcome * St) (route : Route) (st : St)
  : Outcome * St :=
  if String.eqb (Type_ route) "delete_blob"
  then Blobs.handleDeleteBlob env st (Name route) (Digest route)
  else if String.eqb (Type_ route) "initiate_upload"
  then Lifecycle.handleInitiateUpload env st f (Name route)
  else if String.eqb (Type_ route) "mount_blob"
  then Lifecycle.handleMountBlob env st f (Name route) (Digest route)
         (MountFrom route)
  else if String.eqb (Type_ route) "get_upload_status"
  then Lifecycle.handleGetUploadStatus env st (Name route) (RouteUUID route)
  else if String.eqb (Type_ route) "not_found"
  then (Failed (MkOCIError "NAME_UNKNOWN" "Endpoint not found" EmptyString
                           Uploads.StatusNotFound), st)
  else rest route st.

End Routes.

(* ===================================================================== *)
(** ** [security.go]: rate limiting and required actions                  *)
(* ===================================================================== *)

Module Guards.

Definition RateLimitWindow : Z := 60.
Definition RateLimitMaxRequests : Z := 100.

(** [rateLimitEntry]; a [time.Time] is kept as its nanosecond count. *)
Record rateLimitEntry := MkEntry { Count : Z; ResetTime : Z }.

(** [time.Second] *)
Definition Second : Z := 1000000000.

(** [CheckRateLimit], from [clientIP := getClientIP(r)] on, with
    [rateLimitStore] passed explicitly and [now] the reading of
    [time.Now()]. The results are [allowed], [count] and [remaining].
    The constant [RateLimitEnabled] is [true], so the guard that precedes
    is never taken. *)
Definition CheckRateLimit (rateLimitStore : gmap string rateLimitEntry)
    (clientIP : string) (now : Z)
  : (bool * Z * Z) * gmap string rateLimitEntry :=
  let new_window :=
    ((true, 1, RateLimitMaxRequests),
     <[clientIP := MkEntry 1 (now + RateLimitWindow * Second)]> rateLimitStore) in
  match rateLimitStore !! clientIP with
  | None => new_window
  | Some entry =>
      if ResetTime entry <? now then new_window
      else
        let count := wrap64 (Count entry + 1) in
        let store := <[clientIP := MkEntry count (ResetTime entry)]> rateLimitStore in
        let remaining := wrap64 (RateLimitMaxRequests - count) in
        if RateLimitMaxRequests <? count
        then ((false, count, 0), store)
        else ((true, count, remaining), store)
  end.

(** [getRequiredAction] *)
Definition getRequiredAction (routeType : string) : string :=
  if List.existsb (String.eqb routeType)
       [ "get_manifest"; "head_manifest"; "get_blob"; "head_blob";
         "list_tags"; "catalog"; "referrers" ]
  then "pull"
  else if List.existsb (String.eqb routeType)
            [ "put_manifest"; "initiate_upload"; "upload_chunk";
              "complete_upload"; "mount_blob" ]
  then "push"
  else if List.existsb (String.eqb routeType) [ "delete_manifest"; "delete_blob" ]
  then "delete"
  else "pull".

End Guards.

(* ===================================================================== *)
(** ** [token_auth.go]: authorization of a token for an action            *)
(* ===================================================================== *)

Module TokenAuth.

Record AccessEntry := MkAccess {
  Type_ : string;
  Name : string;
  Actions : list string }.

Record TokenClaims := MkClaims {
  Issuer : string;
  Subject : string;
  Audience : string;
  ExpiresAt : Z;
  IssuedAt : Z;
  JWTID : string;
  Access : list AccessEntry }.

(** The inner loop over [access.Actions]. *)
Fixpoint permitted_in (actions : list string) (action : string) : bool :=
  match actions with
  | [] => false
  | permitted :: rest =>
      if String.eqb permitted action || String.eqb permitted "*" then true
      else permitted_in rest action
  end.

(** The outer loop over [claims.Access]. *)
Fixpoint granted_by (access : list AccessEntry) (repoName action : string) : bool :=
  match access with
  | [] => false
  | a :: rest =>
      if negb (String.eqb (Type_ a) "repository") then granted_by rest repoName action
      else if negb (String.eqb (Name a) repoName) && negb (String.eqb (Name a) "*")
      then granted_by rest repoName action
      else if permitted_in (Actions a) action then true
      else granted_by rest repoName action
  end.

(** [CheckAuthorization]; [None] is the nil [claims]. *)
Definition CheckAuthorization (claims : option TokenClaims)
    (repoName action : string) : bool :=
  match claims with
  | None => true
  | Some c => granted_by (Access c) repoName action
  end.

End TokenAuth.

(* ===================================================================== *)
(** ** [cosmetics.go]: pagination of tag and catalog listings             *)
(* ===================================================================== *)

Module Pagination.

(** The loop that looks for [last]: the index after its first
    occurrence, [0] when it does not occur; [i] is the index of the head
    of [items]. *)
Fixpoint start_after (items : list string) (last : string) (i : Z) : Z :=
  match items with
  | [] => 0
  | item :: rest =>
      if String.eqb item last then i + 1 else start_after rest last (i + 1)
  end.

(** [PaginateStringSlice]; [None] is the panic of [items[startIdx:endIdx]]
    with [endIdx < startIdx]. *)
Definition PaginateStringSlice (items : list string) (n : Z) (last : string)
  : option (list string * string * bool) :=
  let startIdx :=
    if negb (String.eqb last EmptyString) then start_after items last 0 else 0 in
  let endIdx := wrap64 (startIdx + n) in
  let endIdx := if lenZ items <? endIdx then lenZ items else endIdx in
  if (0 <=? startIdx) && (startIdx <=? endIdx)
  then
    let page := takeZ (dropZ items startIdx) (endIdx - startIdx) in
    let hasMore := endIdx <? lenZ items in
    let nextLast :=
      if hasMore && (0 <? lenZ page) then List.last page EmptyString
      else EmptyString in
    Some (page, nextLast, hasMore)
  else None.

End Pagination.

(* ===================================================================== *)
(** ** The specification's reading of SigV4                               *)
(* ===================================================================== *)

Module Spec.

(** [HMAC(key, data)] of the specification. *)
Definition HMAC (key data : list byte) : list byte :=
  Crypto.hmac_sha256 key data.

(** [K = HMAC(HMAC(HMAC(HMAC("AWS4"+secret, date), region), "s3"),
    "aws4_request")] *)
Definition signing_key (secret date region : string) : list byte :=
  HMAC (HMAC (HMAC (HMAC (bytes_of ("AWS4" +:+ secret)) (bytes_of date))
                   (bytes_of region))
             (bytes_of "s3"))
       (bytes_of "aws4_request").

(** [signature = lowercase hex HMAC(K, string-to-sign)] *)
Definition signature (secret date region stringToSign : string) : string :=
  Crypto.hex_encode (HMAC (signing_key secret date region) (bytes_of stringToSign)).

(** A string of lowercase hexadecimal digits. *)
Fixpoint lower_hex (s : string) : bool :=
  match s with
  | EmptyString => true
  | String c r =>
      (Security.between "0" "9" c || Security.between "a" "f" c) && lower_hex r
  end.

(** A digest [sha256:<h>] with [h] of 64 hexadecimal characters. *)
Fixpoint all_hex (s : string) : bool :=
  match s with
  | EmptyString => true
  | String c r => Security.isHexChar c && all_hex r
  end.

Definition hex64 (h : string) : Prop :=
  String.length h = 64%nat /\ all_hex h = true.

Definition digest_form (d : string) : Prop :=
  exists h, d = "sha256:" +:+ h /\ hex64 h.

(** The upload-part requests of [n] consecutive full parts cut from
    [data], numbered from [first]. *)
Fixpoint part_ops (key uploadId : string) (n : nat) (first : Z)
    (data : list byte) : list S3Op :=
  match n with
  | O => []
  | S n' =>
      OpUploadPart key uploadId first (takeZ data Multipart.PartSize)
        :: part_ops key uploadId n' (first + 1) (dropZ data Multipart.PartSize)
  end.

(** The part numbers [first, first + 1, ...] of [n] parts. *)
Definition numbers_from (first : Z) (n : nat) : list Z :=
  List.map (fun i => first + Z.of_nat i) (List.seq 0 n).

(** [blobs/sha256/<h[0:2]>/<h[2:4]>/<h>] *)
Definition final_key (h : string) : string :=
  "blobs/sha256/" +:+ String.substring 0 2 h +:+ "/"
    +:+ String.substring 2 2 h +:+ "/" +:+ h.

End Spec.

(* ===================================================================== *)
(** ** Sample inputs                                                      *)
(* ===================================================================== *)

Module Samples.

Import S3Auth.

(** A signer with credentials, the configuration of the source and a
    fixed clock reading. *)
Definition signer : SignEnv :=
  MkSignEnv default_config (Ok (MkCreds "AKIDEXAMPLE" "secret"))
            (MkClock "20240115" "20240115T103000Z") (fun _ => None).

Definition digest_hex : string :=
  "e3b0c44298fc1c149afbf4c8996fb92427ae41e4649b934ca495991b7852b855".

Definition final_blob : string :=
  "blobs/sha256/e3/b0/e3b0c44298fc1c149afbf4c8996fb92427ae41e4649b934ca495991b7852b855".

Definition temp_object : string := "uploads/library/app/0b2f/data".

(** The COPY request the signer builds for these keys. *)
Definition copy_request : Request :=
  Eval vm_compute in
    match SignCopyRequest signer final_blob temp_object with
    | Ok req => req
    | Err _ => MkRequest EmptyString EmptyString []
    end.

(** A backend that answers every request with an empty 200 response. *)
Definition quiet_backend : nat -> S3Op -> res Response :=
  fun _ _ => Ok (MkResponse 200 EmptyString EmptyString None).

Definition env : Env :=
  MkEnv signer None quiet_backend
        (fun _ => Ok "upload-1") (fun _ => Ok []) (fun _ => Ok [])
        "2024-01-15T10:30:00Z" None.

Definition empty_kv : KV := MkKV ∅ ∅ ∅.

Definition session (received : Z) : UploadSession :=
  MkSession "0b2f" "library/app" "2024-01-15T10:30:00Z" received
            "uploads/library/app/0b2f" "2024-01-15T11:30:00Z".

(** A store that holds the upload session [0b2f] with [received] bytes. *)
Definition st_with_session (received : Z) : St :=
  MkSt (MkKV {[ "uploads/0b2f" := Ok (session received) ]} ∅ ∅) [] [].

Definition layer : list byte := bytes_of "layer bytes".

(** The KV key of the completed-content record of [layer] in the
    repository [library/app]. *)
Definition layer_completed_key : string :=
  Eval vm_compute in
    Multipart.completed_kv_key
      ("library/app" +:+ "/"
         +:+ Multipart.fingerprint (S3Auth.sha256Hex layer)).

(** A store with a fresh session and a completed-content record for
    [layer], assembled by an earlier session [77aa]. *)
Definition st_completed : St :=
  MkSt (MkKV {[ "uploads/0b2f" := Ok (session 0) ]} ∅
             {[ layer_completed_key := "uploads/library/app/77aa/data" ]})
       [] [].

(** The fingerprint of [layer] and the KV key of its checkpoint. *)
Definition layer_fingerprint : string :=
  Eval vm_compute in Multipart.fingerprint (S3Auth.sha256Hex layer).

Definition layer_multipart_key : string :=
  Eval vm_compute in
    Multipart.multipart_kv_key ("library/app" +:+ "/" +:+ layer_fingerprint).

(** The checkpoint an earlier session [77aa] left for [layer]. *)
Definition checkpoint : MultipartState :=
  MkState "upload-7" "uploads/library/app/77aa/data"
          [MkPart 1 "etag-1"] 2 16777216 "2024-01-15T10:00:00Z"
          layer_fingerprint.

(** A store with a fresh session and that checkpoint. *)
Definition st_checkpoint : St :=
  MkSt (MkKV {[ "uploads/0b2f" := Ok (session 0) ]}
             {[ layer_multipart_key := Ok checkpoint ]} ∅)
       [] [].

(** What the object store lists for the upload: two parts of 16 MiB. *)
Definition listed_parts : list ListPartResult :=
  [ MkListPart 1 "etag-1" 16777216; MkListPart 2 "etag-2" 16777216 ].

Definition env_listing : Env :=
  MkEnv signer None quiet_backend
        (fun _ => Ok "upload-1") (fun _ => Ok listed_parts) (fun _ => Ok [])
        "2024-01-15T10:30:00Z" None.

(** A stream of 448 MiB, and one of 16 MiB and one byte. *)
Definition layer_448MiB : list byte := List.repeat x00 (Z.to_nat 469762048).
Definition layer_16MiB_1 : list byte := List.repeat x00 (Z.to_nat 16777217).

(** A backend that answers the first two requests of an invocation and
    then fails at the network level. *)
Definition flaky_backend : nat -> S3Op -> res Response :=
  fun n _ =>
    if (n <? 2)%nat then Ok (MkResponse 200 "etag-1" EmptyString None)
    else Err "connection reset".

Definition env_flaky : Env :=
  MkEnv signer None flaky_backend
        (fun _ => Ok "upload-1") (fun _ => Ok []) (fun _ => Ok [])
        "2024-01-15T10:30:00Z" None.

Definition chunked_request (data : list byte) : Uploads.HttpReq :=
  Uploads.MkReq [("Transfer-Encoding", "chunked")] (MkBody data EndEOF).

Definition no_headers_request : Uploads.HttpReq :=
  Uploads.MkReq [] (MkBody [] EndEOF).


Definition no_other_routes : Router.Route -> St -> Outcome * St :=
  fun _ st => (Wrote 404 [], st).

End Samples.

(* ===================================================================== *)
(** ** Vocabulary of the statements                                       *)
(* ===================================================================== *)

(** A string ending in a line feed followed by [t]. *)
Definition last_line_is (s t : string) : Prop :=
  exists pre, s = pre +:+ nl +:+ t.

(** The requests [new] added to the log all store to [k], when they
    store anything. *)
Definition writes_only_to (k : string) (st st' : St) : Prop :=
  exists new : list S3Op, sent st' = sent st ++ new /\
    Forall (fun op => forall t, written_key op = Some t -> t = k) new.

(** The headers of the 202 reply with a given [Range]. *)
Definition accepted_headers (name uploadUUID range : string) : S3Auth.Header :=
  [ ("Location", "/v2/" +:+ name +:+ "/blobs/uploads/" +:+ uploadUUID);
    ("Docker-Upload-UUID", uploadUUID);
    ("Range", range);
    ("Content-Length", "0") ].

(** The identification read succeeded: it returned [idata] (a full window,
    or a shorter one at the clean end of the stream) and left [rest]. *)
Definition identified (body : Body) (idata : list byte) (rest : Body) : Prop :=
  exists err,
    ReadFull body Multipart.IdentifyChunkSize = (idata, err, rest)
    /\ (err = None \/ err = Some ErrUnexpectedEOF).

(** The checkpoint key [<repo>/<h[0:16]>] of an identification window. *)
Definition checkpoint_key (repoName : string) (idata : list byte) : string :=
  repoName +:+ "/" +:+ Multipart.fingerprint (S3Auth.sha256Hex idata).

(** Total size of the listed parts, as the loop of the source adds it
    up. *)
Definition listed_bytes (parts : list ListPartResult) : Z :=
  List.fold_left (fun acc p => wrap64 (acc + lp_Size p)) parts 0.

(** The store holds no completed-content record and no checkpoint with
    the fingerprint of this content. *)
Definition fresh_for (st : St) (repoName : string) (idata : list byte) : Prop :=
  kv_completed (kv st) !! Multipart.completed_kv_key (checkpoint_key repoName idata) = None
  /\ forall cp,
       kv_multipart (kv st) !! Multipart.multipart_kv_key (checkpoint_key repoName idata)
       = Some (Ok cp) ->
       ContentHash cp <> Multipart.fingerprint (S3Auth.sha256Hex idata).

(** The next [n] requests of the invocation are answered 200 with a
    readable body. *)
Definition answers_ok (env : Env) (st : St) (n : nat) : Prop :=
  forall k op, (k < n)%nat ->
    exists resp,
      backend env (List.length (sent st) + k) op = Ok resp
      /\ StatusCode resp = 200 /\ resp_read_err resp = None.

(** The engine's exit with both a result and an error: an upload-part
    request [op] of the main loop failed at the network level, the result
    carries the checkpoint [state], and that checkpoint was saved. *)
Definition failed_part_exit (env : Env) (stateKey : string)
    (res : Multipart.MultipartUploadResult) (err : string) (st' : St) : Prop :=
  exists (state : MultipartState) (pre : list S3Op) (op : S3Op)
         (msg : string) (k : Z),
    res = Multipart.MkResult (BytesUploaded state) false (Some state) EmptyString
    /\ sent st' = pre ++ [op]
    /\ is_upload_part op = true
    /\ backend env (List.length pre) op = Err msg
    /\ err = "backend limit reached after " +:+ itoa k +:+ " parts: " +:+ msg
    /\ (kv_open_err env = None ->
        kv_multipart (kv st') !! Multipart.multipart_kv_key stateKey = Some (Ok state)).

(** Every character of [s] satisfies [ok]. *)
Fixpoint all_chars (ok : ascii -> bool) (s : string) : bool :=
  match s with
  | EmptyString => true
  | String c r => ok c && all_chars ok r
  end.

(** A result reports completion exactly when it carries no checkpoint;
    an incomplete result carries the checkpoint whose byte count it
    reports, and no completed key. *)
Definition well_shaped (res : Multipart.MultipartUploadResult) : Prop :=
  if Multipart.r_IsComplete res
  then Multipart.r_State res = None
  else exists state,
         Multipart.r_State res = Some state
         /\ Multipart.r_BytesUploaded res = BytesUploaded state
         /\ Multipart.r_CompletedKey res = EmptyString.

(** What the engine may return: never a nil result without an error, and
    only well-shaped results. *)
Definition sound_out (out : Multipart.EngineOut) : Prop :=
  out <> (None, None)
  /\ forall res, fst out = Some res -> well_shaped res.

(** The invocation that led from [st] to [st'] sent at most [n] backend
    requests, of which at most [parts] upload a part. *)
Definition sends_at_most (n parts : nat) (st st' : St) : Prop :=
  exists new : list S3Op,
    sent st' = sent st ++ new
    /\ (List.length new <= n)%nat
    /\ (List.length (List.filter is_upload_part new) <= parts)%nat.

(** From [st] to [st'] no upload session changed, no checkpoint other
    than the one under [mk] and no completed-content record other than
    the one under [ck]. *)
Definition kv_frame (mk ck : string) (st st' : St) : Prop :=
  kv_sessions (kv st') = kv_sessions (kv st)
  /\ (forall k, k <> mk ->
        kv_multipart (kv st') !! k = kv_multipart (kv st) !! k)
  /\ (forall k, k <> ck ->
        kv_completed (kv st') !! k = kv_completed (kv st) !! k).

(** The headers of the 204 reply of the status route. *)
Definition status_headers (name uploadUUID range : string) : S3Auth.Header :=
  [ ("Location", "/v2/" +:+ name +:+ "/blobs/uploads/" +:+ uploadUUID);
    ("Docker-Upload-UUID", uploadUUID);
    ("Range", range) ].

(** The headers of the 201 reply of the finalizer and of a mount. *)
Definition created_headers (name digest : string) : S3Auth.Header :=
  [ ("Location", "/v2/" +:+ name +:+ "/blobs/" +:+ digest);
    ("Docker-Content-Digest", digest);
    ("Content-Length", "0") ].

(** The error of a session that is not in the store. *)
Definition upload_unknown (uploadUUID : string) : Outcome :=
  Failed (MkOCIError "BLOB_UPLOAD_UNKNOWN" "blob upload unknown to registry"
                     uploadUUID 404).

(** The fields each type of route carries: which of the name, reference,
    digest, upload id, source repository and query are set. Only the
    nineteen types [parseRoute] knows have a shape. *)
Definition route_shape (r : Router.Route) : bool :=
  let among ts := List.existsb (String.eqb (Router.Type_ r)) ts in
  let has f := Routes.nonempty (f r) in
  let lacks f := String.eqb (f r) EmptyString in
  if among ["health"; "token_auth"; "api_version"; "catalog"; "not_found"]
  then lacks Router.Name && lacks Router.Reference && lacks Router.Digest
       && lacks Router.RouteUUID && lacks Router.MountFrom && lacks Router.Query
  else if among ["get_manifest"; "head_manifest"; "put_manifest"; "delete_manifest"]
  then has Router.Name && has Router.Reference && lacks Router.Digest
       && lacks Router.RouteUUID && lacks Router.MountFrom && lacks Router.Query
  else if among ["upload_chunk"; "get_upload_status"]
  then has Router.Name && lacks Router.Reference && lacks Router.Digest
       && has Router.RouteUUID && lacks Router.MountFrom && lacks Router.Query
  else if among ["complete_upload"]
  then has Router.Name && lacks Router.Reference && has Router.Digest
       && has Router.RouteUUID && lacks Router.MountFrom && lacks Router.Query
  else if among ["initiate_upload"]
  then has Router.Name && lacks Router.Reference && lacks Router.Digest
       && lacks Router.RouteUUID && lacks Router.MountFrom && lacks Router.Query
  else if among ["mount_blob"]
  then has Router.Name && lacks Router.Reference && has Router.Digest
       && lacks Router.RouteUUID && has Router.MountFrom && lacks Router.Query
  else if among ["get_blob"; "head_blob"; "delete_blob"]
  then has Router.Name && lacks Router.Reference && has Router.Digest
       && lacks Router.RouteUUID && lacks Router.MountFrom && lacks Router.Query
  else if among ["list_tags"]
  then has Router.Name && lacks Router.Reference && lacks Router.Digest
       && lacks Router.RouteUUID && lacks Router.MountFrom
  else if among ["referrers"]
  then has Router.Name && lacks Router.Reference && has Router.Digest
       && lacks Router.RouteUUID && lacks Router.MountFrom
  else false.

(** The last character of a string. *)
Fixpoint last_char (s : string) : option ascii :=
  match s with
  | EmptyString => None
  | String c EmptyString => Some c
  | String _ r => last_char r
  end.

(** What a block may do: fall through, or return a well-shaped route of
    one of the types [ts]; it never panics. *)
Definition block_ok (ts : list string) (b : Routes.Block) : Prop :=
  match b with
  | Routes.Returned r => route_shape r = true /\ In (Router.Type_ r) ts
  | Routes.Fell => True
  | Routes.Panicked => False
  end.

(** The route types of [parseRoute]. *)
Definition route_types : list string :=
  [ "health"; "token_auth"; "api_version"; "catalog"; "not_found";
    "get_manifest"; "head_manifest"; "put_manifest"; "delete_manifest";
    "upload_chunk"; "get_upload_status"; "complete_upload"; "initiate_upload";
    "mount_blob"; "get_blob"; "head_blob"; "delete_blob"; "list_tags";
    "referrers" ].

(** The verdicts ([allowed], [count], [remaining]) of [CheckRateLimit]
    for one client on requests made at the times [times], oldest first,
    and the store afterwards. *)
Fixpoint serve (store : gmap string Guards.rateLimitEntry) (clientIP : string)
    (times : list Z) : list (bool * Z * Z) :=
  match times with
  | [] => []
  | now :: rest =>
      let '(verdict, store') := Guards.CheckRateLimit store clientIP now in
      verdict :: serve store' clientIP rest
  end.

(** The verdicts on the requests of a window from the [count]-th on,
    for a [count] after the first: requests up to the hundredth are
    allowed. *)
Fixpoint later_verdicts (count : Z) (n : nat) : list (bool * Z * Z) :=
  match n with
  | O => []
  | S n' =>
      (count <=? 100, count, if count <=? 100 then 100 - count else 0)
        :: later_verdicts (count + 1) n'
  end.

(** The part number and the payload of the upload-part requests among
    [ops], in the order they were sent. *)
Fixpoint uploaded_parts (ops : list S3Op) : list (Z * list byte) :=
  match ops with
  | [] => []
  | OpUploadPart _ _ partNumber data :: rest =>
      (partNumber, data) :: uploaded_parts rest
  | _ :: rest => uploaded_parts rest
  end.

(** The store holds no checkpoint with the fingerprint of this
    content. *)
Definition no_checkpoint_for (st : St) (repoName : string) (idata : list byte)
  : Prop :=
  forall cp,
    kv_multipart (kv st) !! Multipart.multipart_kv_key (checkpoint_key repoName idata)
    = Some (Ok cp) ->
    ContentHash cp <> Multipart.fingerprint (S3Auth.sha256Hex idata).

(** From [st] to [st'] the upload-part requests sent are numbered
    [first], [first + 1], ... and their payloads, one after the other,
    are the beginning of [data]. *)
Definition streams (first : Z) (data : list byte) (st st' : St) : Prop :=
  exists (new : list S3Op) (tail : list byte),
    sent st' = sent st ++ new
    /\ List.map fst (uploaded_parts new)
       = Spec.numbers_from first (List.length (uploaded_parts new))
    /\ data = List.concat (List.map snd (uploaded_parts new)) ++ tail.

(** Every part but the last holds exactly [PartSize] bytes. *)
Definition full_but_last (parts : list (Z * list byte)) : Prop :=
  forall p, In p (List.removelast parts) -> lenZ (snd p) = Multipart.PartSize.

(* ===================================================================== *)
(** * Properties                                                          *)
(* ===================================================================== *)

(** ** Test vectors for the library models *)

Example sha256_abc :
  Crypto.hex_encode (Crypto.sha256 (bytes_of "abc"))
  = "ba7816bf8f01cfea414140de5dae2223b00361a396177a9cb410ff61f20015ad".
Proof. vm_compute. reflexivity. Qed.

Example sha256_two_blocks :
  Crypto.hex_encode (Crypto.sha256
    (bytes_of "abcdbcdecdefdefgefghfghighijhijkijkljklmklmnlmnomnopnopq"))
  = "248d6a61d20638b8e5c026930c3e6039a33ce45964ff2167f6ecedd419db06c1".
Proof. vm_compute. reflexivity. Qed.

Example hmac_rfc4231_case2 :
  Crypto.hex_encode (Crypto.hmac_sha256 (bytes_of "Jefe")
                       (bytes_of "what do ya want for nothing?"))
  = "5bdcc146bf60754e6a042426089575c75a003f089d2739839dec58b964ec3843".
Proof. vm_compute. reflexivity. Qed.

Example itoa_examples :
  itoa 0 = "0" /\ itoa 16777215 = "16777215" /\ itoa (-1) = "-1" /\ itoa 10 = "10".
Proof. vm_compute. auto. Qed.

(** [Sscanf] with [%d]: leading spaces of every kind [fmt] knows are
    skipped (here a tab, a vertical tab, U+00A0 and U+2003), a line feed
    or a lone byte of a multi-byte space is not, and a numeral that does
    not fit [int64] leaves the [0]. *)
Example Sscanf_d_examples :
  Uploads.Sscanf_d "42" = 42
  /\ Uploads.Sscanf_d " -7" = -7
  /\ Uploads.Sscanf_d "+12abc" = 12
  /\ Uploads.Sscanf_d (String (ascii_of_nat 9) "42") = 42
  /\ Uploads.Sscanf_d (String (ascii_of_nat 11) "42") = 42
  /\ Uploads.Sscanf_d (String (ascii_of_nat 194) (String (ascii_of_nat 160) "42"))
     = 42
  /\ Uploads.Sscanf_d
       (String (ascii_of_nat 226)
          (String (ascii_of_nat 128) (String (ascii_of_nat 131) "42"))) = 42
  /\ Uploads.Sscanf_d (String (ascii_of_nat 10) "42") = 0
  /\ Uploads.Sscanf_d (String (ascii_of_nat 194) "42") = 0
  /\ Uploads.Sscanf_d EmptyString = 0
  /\ Uploads.Sscanf_d "abc" = 0
  /\ Uploads.Sscanf_d "9223372036854775807" = 9223372036854775807
  /\ Uploads.Sscanf_d "9223372036854775808" = 0.
Proof. vm_compute. repeat split. Qed.

(** The published SigV4 example for an S3 GET (secret key
    [wJalrXUtnFEMI/K7MDENG/bPxRfiCYEXAMPLEKEY], 2013-05-24, us-east-1). *)
Example calculateSignature_aws_example :
  S3Auth.calculateSignature
    (S3Auth.MkConfig "examplebucket.s3.amazonaws.com" "us-east-1" "examplebucket")
    "wJalrXUtnFEMI/K7MDENG/bPxRfiCYEXAMPLEKEY" "20130524"
    ("AWS4-HMAC-SHA256" +:+ nl +:+ "20130524T000000Z" +:+ nl
       +:+ "20130524/us-east-1/s3/aws4_request" +:+ nl
       +:+ "7344ae5b7ee6c3e7e6b0fe0640412a37625d1fbfff95c48bbb2dc43964946972")
  = "f0e8bdb87c964420e857bd35b5d6ed310bd44f0170aba48dd91039c6036bdb41".
Proof. vm_compute. reflexivity. Qed.

(** ** Strings *)

Section StringFacts.

Lemma append_cons (x : ascii) (a b : string) :
  String x a +:+ b = String x (a +:+ b).
Proof. reflexivity. Qed.

Lemma append_nil (b : string) : EmptyString +:+ b = b.
Proof. reflexivity. Qed.

Lemma append_assoc (a b c : string) : (a +:+ b) +:+ c = a +:+ (b +:+ c).
Proof.
  induction a as [|x a IH]; [reflexivity |].
  now rewrite !append_cons, IH.
Qed.

Lemma length_append (a b : string) :
  String.length (a +:+ b) = (String.length a + String.length b)%nat.
Proof.
  induction a as [|x a IH]; [reflexivity |].
  rewrite append_cons. simpl. now rewrite IH.
Qed.

Lemma substring_whole (s : string) : String.substring 0 (String.length s) s = s.
Proof. induction s as [|x s IH]; simpl; [reflexivity | now rewrite IH]. Qed.

Lemma substring_skip (a b : string) (n : nat) :
  String.substring (String.length a) n (a +:+ b) = String.substring 0 n b.
Proof.
  induction a as [|x a IH]; [reflexivity |].
  rewrite append_cons. simpl. exact IH.
Qed.

Lemma prefix_append (a b : string) : String.prefix a (a +:+ b) = true.
Proof.
  induction a as [|x a IH]; [now destruct b |].
  rewrite append_cons. simpl.
  destruct (ascii_dec x x); [exact IH | congruence].
Qed.

Lemma slice_in_range (s : string) (i j : Z) :
  0 <= i -> i <= j -> j <= len s ->
  slice s i j = Some (String.substring (Z.to_nat i) (Z.to_nat (j - i)) s).
Proof.
  intros Hi Hij Hj. unfold slice.
  destruct (Z.leb_spec 0 i); [|lia].
  destruct (Z.leb_spec i j); [|lia].
  destruct (Z.leb_spec j (len s)); [reflexivity | lia].
Qed.

Lemma slice_out_of_range (s : string) (i j : Z) :
  len s < j -> slice s i j = None.
Proof.
  intros Hj. unfold slice.
  destruct (Z.leb_spec j (len s)); [lia |].
  now rewrite andb_false_r.
Qed.

Lemma slice_from_prefix (a b : string) :
  slice_from (a +:+ b) (len a) = Some b.
Proof.
  unfold slice_from. rewrite slice_in_range.
  - unfold len. rewrite length_append, Nat2Z.id.
    replace (Z.to_nat _) with (String.length b) by lia.
    now rewrite substring_skip, substring_whole.
  - unfold len; lia.
  - unfold len. rewrite length_append. lia.
  - lia.
Qed.

End StringFacts.

(** ** C6: the SigV4 signature *)

Lemma hex_digit_lower (b : byte) :
  Spec.lower_hex
    (String (Crypto.hex_digit (Z.shiftr (Crypto.byteZ b) 4))
       (String (Crypto.hex_digit (Z.land (Crypto.byteZ b) 15)) EmptyString)) = true.
Proof. destruct b; vm_compute; reflexivity. Qed.

Lemma hex_encode_lower (bs : list byte) :
  Spec.lower_hex (Crypto.hex_encode bs) = true.
Proof.
  induction bs as [|b bs IH]; [reflexivity |].
  pose proof (hex_digit_lower b) as Hb.
  cbn [Crypto.hex_encode Spec.lower_hex] in *.
  rewrite IH. rewrite !andb_true_r in Hb.
  apply andb_prop in Hb as [H1 H2]. now rewrite H1, H2.
Qed.

(** C6. For every secret key, date, region and string-to-sign, the
    signature [calculateSignature] computes is the lowercase hexadecimal
    encoding of [HMAC-SHA256(K, string-to-sign)], where [K] is the chained
    key [HMAC(HMAC(HMAC(HMAC("AWS4"+secret, date), region), "s3"),
    "aws4_request")]; the region is the configured [FastlyOSRegion]. *)
Theorem calculateSignature_is_sigv4 :
  forall (c : S3Auth.Config) (secret date stringToSign : string),
    S3Auth.calculateSignature c secret date stringToSign
    = Spec.signature secret date (S3Auth.FastlyOSRegion c) stringToSign
    /\ S3Auth.calculateSignature c secret date stringToSign
       = Crypto.hex_encode
           (Crypto.hmac_sha256
              (Crypto.hmac_sha256
                 (Crypto.hmac_sha256
                    (Crypto.hmac_sha256
                       (Crypto.hmac_sha256 (bytes_of ("AWS4" +:+ secret))
                                           (bytes_of date))
                       (bytes_of (S3Auth.FastlyOSRegion c)))
                    (bytes_of "s3"))
                 (bytes_of "aws4_request"))
              (bytes_of stringToSign))
    /\ Spec.lower_hex (S3Auth.calculateSignature c secret date stringToSign) = true.
Proof.
  intros c secret date sts.
  cbv beta zeta delta [S3Auth.calculateSignature Spec.signature Spec.signing_key
                       Spec.HMAC S3Auth.hmacSHA256 S3Auth.S3Service].
  split; [reflexivity | split; [reflexivity | apply hex_encode_lower]].
Qed.

(** ** C5: the payload hash of COPY, upload-part and presigned PUT *)

Lemma sha256Hex_empty :
  S3Auth.sha256Hex []
  = "e3b0c44298fc1c149afbf4c8996fb92427ae41e4649b934ca495991b7852b855".
Proof. vm_compute. reflexivity. Qed.

Lemma last_line_base (x t : string) : last_line_is (x +:+ nl +:+ t) t.
Proof. now exists x. Qed.

Lemma last_line_step (a b t : string) :
  last_line_is b t -> last_line_is (a +:+ b) t.
Proof.
  intros [pre ->]. exists (a +:+ pre). now rewrite append_assoc.
Qed.

Ltac last_line := repeat first [ apply last_line_base | apply last_line_step ].

Lemma copy_canonical_last_line (c : S3Auth.Config) (k : S3Auth.Clock)
    (destKey sourceKey : string) :
  last_line_is (S3Auth.copy_canonicalRequest c k destKey sourceKey)
               S3Auth.copy_payloadHash.
Proof.
  unfold S3Auth.copy_canonicalRequest. cbv zeta.
  generalize S3Auth.copy_payloadHash. intros ph. last_line.
Qed.

Lemma part_canonical_last_line (c : S3Auth.Config) (k : S3Auth.Clock)
    (key uploadId : string) (partNumber contentLength : Z) :
  last_line_is
    (S3Auth.part_canonicalRequest c k key uploadId partNumber contentLength)
    "UNSIGNED-PAYLOAD".
Proof.
  unfold S3Auth.part_canonicalRequest, S3Auth.part_payloadHash. cbv zeta.
  last_line.
Qed.

Lemma presigned_canonical_last_line (c : S3Auth.Config) (cr : S3Auth.Credentials)
    (k : S3Auth.Clock) (key : string) (expiresInSeconds : Z) :
  last_line_is (S3Auth.presigned_canonicalRequest c cr k key expiresInSeconds)
               "UNSIGNED-PAYLOAD".
Proof.
  unfold S3Auth.presigned_canonicalRequest. cbv zeta. last_line.
Qed.

Lemma SignCopyRequest_inv (e : S3Auth.SignEnv) (destKey sourceKey : string)
    (req : S3Auth.Request) :
  S3Auth.SignCopyRequest e destKey sourceKey = Ok req ->
  exists cr,
    S3Auth.creds e = Ok cr /\
    S3Auth.Hdr req =
      S3Auth.set_headers
        [ ("Host", S3Auth.FastlyOSHost (S3Auth.cfg e));
          ("x-amz-date", S3Auth.datetime (S3Auth.clock e));
          ("x-amz-content-sha256", S3Auth.copy_payloadHash);
          ("x-amz-copy-source", S3Auth.uri_of (S3Auth.cfg e) sourceKey);
          ("Authorization",
           S3Auth.authHeader_of (S3Auth.cfg e) cr (S3Auth.clock e)
             "host;x-amz-content-sha256;x-amz-copy-source;x-amz-date"
             (S3Auth.copy_canonicalRequest (S3Auth.cfg e) (S3Auth.clock e)
                destKey sourceKey)) ] [].
Proof.
  unfold S3Auth.SignCopyRequest, S3Auth.with_credentials, S3Auth.NewRequest.
  destruct (S3Auth.creds e) as [cr|]; [|discriminate].
  cbv zeta. destruct (S3Auth.url_err e _); [discriminate |].
  intros H. injection H as <-. exists cr. split; reflexivity.
Qed.

Lemma SignUploadPart_inv (e : S3Auth.SignEnv) (key uploadId : string)
    (partNumber contentLength : Z) (req : S3Auth.Request) :
  S3Auth.SignUploadPart e key uploadId partNumber contentLength = Ok req ->
  exists cr,
    S3Auth.creds e = Ok cr /\
    S3Auth.Hdr req =
      S3Auth.set_headers
        [ ("Host", S3Auth.FastlyOSHost (S3Auth.cfg e));
          ("x-amz-date", S3Auth.datetime (S3Auth.clock e));
          ("x-amz-content-sha256", "UNSIGNED-PAYLOAD");
          ("Content-Length", itoa contentLength);
          ("Authorization",
           S3Auth.authHeader_of (S3Auth.cfg e) cr (S3Auth.clock e)
             "content-length;host;x-amz-content-sha256;x-amz-date"
             (S3Auth.part_canonicalRequest (S3Auth.cfg e) (S3Auth.clock e)
                key uploadId partNumber contentLength)) ] [].
Proof.
  unfold S3Auth.SignUploadPart, S3Auth.with_credentials, S3Auth.NewRequest.
  destruct (S3Auth.creds e) as [cr|]; [|discriminate].
  cbv zeta. destruct (S3Auth.url_err e _); [discriminate |].
  intros H. injection H as <-. exists cr. split; reflexivity.
Qed.

(** C5, as the code has it. For every COPY request the signer produces,
    the payload hash placed in [x-amz-content-sha256] and on the last line
    of the signed canonical request is the lowercase hexadecimal SHA-256 of
    the empty body ([e3b0c442...b855]), not [UNSIGNED-PAYLOAD]; the literal
    [UNSIGNED-PAYLOAD] is what upload-part and presigned PUT use. *)
Theorem copy_signs_the_empty_body_hash :
  forall (e : S3Auth.SignEnv) (destKey sourceKey : string) (req : S3Auth.Request),
    S3Auth.SignCopyRequest e destKey sourceKey = Ok req ->
    let empty_hash :=
      "e3b0c44298fc1c149afbf4c8996fb92427ae41e4649b934ca495991b7852b855" in
    S3Auth.sha256Hex [] = empty_hash
    /\ S3Auth.hget "x-amz-content-sha256" (S3Auth.Hdr req) = empty_hash
    /\ (exists cr,
          S3Auth.creds e = Ok cr /\
          S3Auth.hget "Authorization" (S3Auth.Hdr req)
          = S3Auth.authHeader_of (S3Auth.cfg e) cr (S3Auth.clock e)
              "host;x-amz-content-sha256;x-amz-copy-source;x-amz-date"
              (S3Auth.copy_canonicalRequest (S3Auth.cfg e) (S3Auth.clock e)
                 destKey sourceKey))
    /\ last_line_is
         (S3Auth.copy_canonicalRequest (S3Auth.cfg e) (S3Auth.clock e)
            destKey sourceKey) empty_hash
    /\ (forall key uploadId partNumber contentLength req',
          S3Auth.SignUploadPart e key uploadId partNumber contentLength = Ok req' ->
          S3Auth.hget "x-amz-content-sha256" (S3Auth.Hdr req') = "UNSIGNED-PAYLOAD"
          /\ last_line_is
               (S3Auth.part_canonicalRequest (S3Auth.cfg e) (S3Auth.clock e)
                  key uploadId partNumber contentLength) "UNSIGNED-PAYLOAD")
    /\ (forall cr key expiresInSeconds,
          last_line_is
            (S3Auth.presigned_canonicalRequest (S3Auth.cfg e) cr (S3Auth.clock e)
               key expiresInSeconds) "UNSIGNED-PAYLOAD").
Proof.
  intros e destKey sourceKey req Hsign empty_hash.
  pose proof sha256Hex_empty as Hempty. fold empty_hash in Hempty.
  apply SignCopyRequest_inv in Hsign as (cr & Hcr & Hhdr).
  pose proof (copy_canonical_last_line (S3Auth.cfg e) (S3Auth.clock e)
                destKey sourceKey) as Hlast.
  unfold S3Auth.copy_payloadHash in *. rewrite Hempty in *.
  split; [exact Hempty |].
  split; [rewrite Hhdr; reflexivity |].
  split; [exists cr; split; [exact Hcr | rewrite Hhdr; reflexivity] |].
  split; [exact Hlast |].
  split.
  - intros key uploadId partNumber contentLength req' H.
    split; [| apply part_canonical_last_line].
    apply SignUploadPart_inv in H as (cr' & _ & Hhdr'). rewrite Hhdr'. reflexivity.
  - intros cr' key expiresInSeconds. apply presigned_canonical_last_line.
Qed.

Lemma copy_signs_the_empty_body_hash_witness :
  S3Auth.SignCopyRequest Samples.signer Samples.final_blob Samples.temp_object
  = Ok Samples.copy_request
  /\ S3Auth.hget "x-amz-content-sha256" (S3Auth.Hdr Samples.copy_request)
     = "e3b0c44298fc1c149afbf4c8996fb92427ae41e4649b934ca495991b7852b855".
Proof.
  assert (H : S3Auth.SignCopyRequest Samples.signer Samples.final_blob
                Samples.temp_object = Ok Samples.copy_request)
    by (vm_compute; reflexivity).
  split; [exact H |].
  exact (proj1 (proj2 (copy_signs_the_empty_body_hash Samples.signer
                         Samples.final_blob Samples.temp_object
                         Samples.copy_request H))).
Defined.

(** C5 as stated fails: not every COPY request the signer produces carries
    [UNSIGNED-PAYLOAD] in [x-amz-content-sha256]. *)
Lemma copy_payload_hash_is_not_UNSIGNED_PAYLOAD :
  ~ (forall (e : S3Auth.SignEnv) (destKey sourceKey : string) (req : S3Auth.Request),
       S3Auth.SignCopyRequest e destKey sourceKey = Ok req ->
       S3Auth.hget "x-amz-content-sha256" (S3Auth.Hdr req) = "UNSIGNED-PAYLOAD").
Proof.
  intros Hall.
  specialize (Hall Samples.signer Samples.final_blob Samples.temp_object
                Samples.copy_request).
  assert (H : S3Auth.SignCopyRequest Samples.signer Samples.final_blob
                Samples.temp_object = Ok Samples.copy_request)
    by (vm_compute; reflexivity).
  specialize (Hall H). vm_compute in Hall. discriminate Hall.
Qed.

(** ** C7: the final object-store key *)

(** Case analysis on the next [match] or [if] of the goal. *)
Ltac next_case :=
  match goal with
  | |- context [match ?x with _ => _ end] =>
      lazymatch x with
      | context [match _ with _ => _ end] => fail
      | _ => destruct x eqn:?
      end
  end.

Section FinalKey.

Import Uploads.

Lemma sent_kv_call st op kv' : sent (kv_call st op kv') = sent st.
Proof. reflexivity. Qed.

Lemma sent_DeleteMultipartState env st k :
  sent (Multipart.DeleteMultipartState env st k) = sent st.
Proof. unfold Multipart.DeleteMultipartState. now destruct (kv_open_err env). Qed.

Lemma sent_SaveMultipartState env st k s :
  sent (Multipart.SaveMultipartState env st k s) = sent st.
Proof. unfold Multipart.SaveMultipartState. now destruct (kv_open_err env). Qed.

Lemma sent_SaveCompletedUpload env st k v :
  sent (Multipart.SaveCompletedUpload env st k v) = sent st.
Proof. unfold Multipart.SaveCompletedUpload. now destruct (kv_open_err env). Qed.

Lemma sent_DeleteCompletedUpload env st k :
  sent (Multipart.DeleteCompletedUpload env st k) = sent st.
Proof. unfold Multipart.DeleteCompletedUpload. now destruct (kv_open_err env). Qed.

Lemma sent_send env st op r st' :
  send env st op = (r, st') -> sent st' = sent st ++ [op] /\ kv st' = kv st.
Proof. unfold send. intros [= _ <-]. now split. Qed.

Lemma sent_LoadMultipartState env st k x st' :
  Multipart.LoadMultipartState env st k = (x, st') -> sent st' = sent st.
Proof.
  unfold Multipart.LoadMultipartState.
  destruct (kv_open_err env); now intros [= _ <-].
Qed.

Lemma sent_LoadCompletedUpload env st k x st' :
  Multipart.LoadCompletedUpload env st k = (x, st') -> sent st' = sent st.
Proof.
  unfold Multipart.LoadCompletedUpload.
  destruct (kv_open_err env); now intros [= _ <-].
Qed.

Lemma hex64_len (h : string) : Spec.hex64 h -> len h = 64.
Proof. intros [Hl _]. unfold len. now rewrite Hl. Qed.

Lemma sharded_slices (h : string) :
  len h = 64 ->
  slice h 0 2 = Some (String.substring 0 2 h)
  /\ slice h 2 4 = Some (String.substring 2 2 h).
Proof.
  intros Hl. split; rewrite slice_in_range; try lia; reflexivity.
Qed.

Lemma BlobKey_sha256 (h : string) :
  len h = 64 -> S3Auth.BlobKey ("sha256:" +:+ h) = Some (Spec.final_key h).
Proof.
  intros Hl. unfold S3Auth.BlobKey, HasPrefix.
  rewrite prefix_append. cbn [negb].
  change 7 with (len "sha256:"). rewrite slice_from_prefix.
  cbn [mbind option_bind].
  destruct (sharded_slices h Hl) as [-> ->]. reflexivity.
Qed.

Lemma finalKey_of_sha256 (h : string) :
  len h = 64 -> finalKey_of ("sha256:" +:+ h) = Some (Spec.final_key h).
Proof.
  intros Hl. unfold finalKey_of.
  change 7 with (len "sha256:"). rewrite slice_from_prefix.
  cbn [mbind option_bind].
  destruct (sharded_slices h Hl) as [-> ->]. reflexivity.
Qed.

Lemma writes_refl k st st' : sent st' = sent st -> writes_only_to k st st'.
Proof. intros H. exists []. rewrite H, app_nil_r. now split. Qed.

Lemma writes_step k st st1 st' op :
  sent st1 = sent st ++ [op] ->
  (forall t, written_key op = Some t -> t = k) ->
  writes_only_to k st1 st' -> writes_only_to k st st'.
Proof.
  intros H1 Hop (new & H2 & Hall). exists (op :: new). split.
  - rewrite H2, H1, <- app_assoc. reflexivity.
  - now constructor.
Qed.

End FinalKey.

Section FinalizerWrites.

Import Uploads.

(** Close a goal whose final log is spelled out. *)
Ltac writes_done :=
  unfold writes_only_to;
  rewrite ?sent_DeleteMultipartState; unfold delete_session, kv_call;
  cbn [sent]; rewrite <- ?app_assoc;
  first
    [ exists []; split; [now rewrite app_nil_r | constructor]
    | eexists; split;
      [ reflexivity
      | repeat constructor; cbn; intros; simplify_eq; reflexivity ] ].

Lemma copy_to_final_writes env st finalKey sourceKey x st' :
  copy_to_final env st finalKey sourceKey = (x, st') ->
  writes_only_to finalKey st st'.
Proof.
  unfold copy_to_final.
  repeat (next_case; simplify_eq/=); intros; simplify_eq/=; writes_done.
Qed.

Lemma handleCompleteUpload_writes env st r name uploadUUID h o st' :
  len h = 64 ->
  handleCompleteUpload env st r name uploadUUID ("sha256:" +:+ h) = (o, st') ->
  writes_only_to (Spec.final_key h) st st'.
Proof.
  intros Hl. unfold handleCompleteUpload.
  rewrite (finalKey_of_sha256 h Hl).
  unfold HasPrefix. rewrite prefix_append. cbn [negb].
  destruct (kv_open_err env); [intros; simplify_eq; writes_done |].
  unfold lookup_session. cbv beta iota.
  destruct (kv_sessions (kv st) !! _) as [[session|]|];
    [| intros; simplify_eq; writes_done ..].
  destruct (0 <? Sscanf_d _).
  - repeat (next_case; simplify_eq/=); intros; simplify_eq/=; writes_done.
  - destruct (0 <? BytesReceived session).
    + destruct (copy_to_final _ _ _ _) as [stored st1] eqn:Hcopy.
      apply copy_to_final_writes in Hcopy as (new & Hnew & Hall).
      destruct stored; [destruct (kv_delete_err env) |];
        intros; simplify_eq/=;
        exists new; rewrite ?sent_DeleteMultipartState; now split.
    + destruct (kv_delete_err env); intros; simplify_eq/=; writes_done.
Qed.

End FinalizerWrites.

(** C7. For every digest [sha256:<h>] with [h] a string of 64 hexadecimal
    characters, the final object-store key computed by [BlobKey] and the
    one computed by the finalizer are both
    [blobs/sha256/<h[0:2]>/<h[2:4]>/<h>]; the key depends on the digest
    alone: whatever the store, the session and the request are, every
    object the finalizer stores for that digest is stored under that key. *)
Theorem final_key_is_sharded_and_depends_on_digest_only :
  forall h : string,
    Spec.hex64 h ->
    S3Auth.BlobKey ("sha256:" +:+ h) = Some (Spec.final_key h)
    /\ Uploads.finalKey_of ("sha256:" +:+ h) = Some (Spec.final_key h)
    /\ (forall env st r name uploadUUID o st',
          Uploads.handleCompleteUpload env st r name uploadUUID ("sha256:" +:+ h)
          = (o, st') ->
          writes_only_to (Spec.final_key h) st st').
Proof.
  intros h Hh. pose proof (hex64_len h Hh) as Hl.
  split; [now apply BlobKey_sha256 |].
  split; [now apply finalKey_of_sha256 |].
  intros env st r name uploadUUID o st' H.
  now apply (handleCompleteUpload_writes env st r name uploadUUID h o st').
Qed.

Lemma final_key_is_sharded_and_depends_on_digest_only_witness :
  Spec.hex64 Samples.digest_hex
  /\ S3Auth.BlobKey ("sha256:" +:+ Samples.digest_hex) = Some Samples.final_blob
  /\ Uploads.finalKey_of ("sha256:" +:+ Samples.digest_hex) = Some Samples.final_blob.
Proof.
  assert (H : Spec.hex64 Samples.digest_hex) by (split; reflexivity).
  split; [exact H |].
  pose proof (final_key_is_sharded_and_depends_on_digest_only
                Samples.digest_hex H) as (H1 & H2 & _).
  split; [exact H1 | exact H2].
Defined.

(** ** The route parser *)

Section Parsing.

Import Router Routes.

Lemma prefix_split (p s : string) :
  String.prefix p s = true -> exists b, s = p +:+ b.
Proof.
  revert s. induction p as [|c p IH]; intros s H.
  - exists s. reflexivity.
  - destruct s as [|x s]; [discriminate |]. cbn [String.prefix] in H.
    destruct (ascii_dec c x) as [-> |]; [| discriminate].
    destruct (IH s H) as [b ->]. exists b. reflexivity.
Qed.

Lemma substring_prefix (a x : string) :
  String.substring 0 (String.length a) (a +:+ x) = a.
Proof.
  induction a as [|c a IH]; [now destruct x |].
  rewrite append_cons. cbn [String.length String.substring]. now rewrite IH.
Qed.

Lemma slice_to_prefix (a x : string) : slice_to (a +:+ x) (len a) = Some a.
Proof.
  unfold slice_to. rewrite slice_in_range.
  - unfold len. rewrite Z.sub_0_r, Nat2Z.id. cbn [Z.to_nat].
    now rewrite substring_prefix.
  - lia.
  - unfold len. lia.
  - unfold len. rewrite length_append. lia.
Qed.

(** [strings.Index] finds an occurrence: the text before it has the
    length it returns. *)
Lemma Index_found (s sub : string) :
  forall i, Index s sub = i -> 0 <= i ->
    exists a b, s = a +:+ sub +:+ b /\ len a = i.
Proof.
  induction s as [|c s IH]; intros i.
  - cbn [Index]. destruct (String.prefix sub EmptyString) eqn:Hp.
    + intros <- _. destruct (prefix_split _ _ Hp) as [b Hb].
      exists EmptyString, b. split; [exact Hb | reflexivity].
    + intros <-. lia.
  - cbn [Index]. destruct (String.prefix sub (String c s)) eqn:Hp.
    + intros <- _. destruct (prefix_split _ _ Hp) as [b Hb].
      exists EmptyString, b. split; [exact Hb | reflexivity].
    + cbv zeta. destruct (Z.ltb_spec (Index s sub) 0) as [|Hi]; [intros <-; lia |].
      intros <- _. destruct (IH _ eq_refl Hi) as (a & b & -> & Ha).
      exists (String c a), b. split; [reflexivity |].
      unfold len in *. cbn [String.length]. lia.
Qed.

(** The two slices around an occurrence found by [strings.Index]. *)
Lemma Index_slices (s sub : string) (i : Z) :
  Index s sub = i -> negb (i =? -1) = true ->
  exists a b,
    s = a +:+ sub +:+ b
    /\ slice_to s i = Some a
    /\ slice_from s (i + len sub) = Some b.
Proof.
  intros Hi Hne.
  assert (Hpos : 0 <= i).
  { destruct (Z.eqb_spec i (-1)); [discriminate |].
    clear Hne. revert i Hi n. induction s as [|c s IH]; intros i; cbn [Index].
    - destruct (String.prefix sub EmptyString); intros <-; lia.
    - destruct (String.prefix sub (String c s)); [intros <-; lia |].
      cbv zeta. destruct (Z.ltb_spec (Index s sub) 0); intros <-; lia. }
  destruct (Index_found s sub i Hi Hpos) as (a & b & -> & <-).
  exists a, b. split; [reflexivity |]. split; [apply slice_to_prefix |].
  rewrite <- append_assoc.
  replace (len a + len sub) with (len (a +:+ sub))
    by (unfold len; rewrite length_append; lia).
  apply slice_from_prefix.
Qed.

Lemma HasSuffix_split (s suffix : string) :
  HasSuffix s suffix = true ->
  exists a, s = a +:+ suffix /\ slice_to s (len s - len suffix) = Some a.
Proof.
  unfold HasSuffix. cbv zeta. intros H. apply andb_prop in H as [Hle Heq].
  apply Nat.leb_le in Hle. apply String.eqb_eq in Heq.
  assert (Hs : forall (t : string) (n : nat), (n <= String.length t)%nat ->
             t = String.substring 0 n t
                   +:+ String.substring n (String.length t - n) t).
  { induction t as [|c t IHt]; intros n Hn.
    - cbn in Hn. assert (n = 0%nat) as -> by lia. reflexivity.
    - destruct n as [|n].
      + cbn [String.substring]. rewrite append_nil.
        cbn [String.length Nat.sub]. now rewrite substring_whole.
      + cbn [String.length] in *. cbn [String.substring Nat.sub].
        rewrite append_cons. f_equal. apply IHt. lia. }
  pose proof (Hs s (String.length s - String.length suffix)%nat ltac:(lia)) as Hsplit.
  replace (String.length s - (String.length s - String.length suffix))%nat
    with (String.length suffix) in Hsplit by lia.
  rewrite Heq in Hsplit.
  set (a := String.substring 0 _ s) in Hsplit.
  exists a. split; [exact Hsplit |].
  rewrite Hsplit at 1 2.
  replace (len (a +:+ suffix) - len suffix) with (len a)
    by (unfold len; rewrite length_append; lia).
  apply slice_to_prefix.
Qed.

Lemma last_char_append (a : string) (c : ascii) (b : string) :
  last_char (a +:+ String c b) = last_char (String c b).
Proof.
  induction a as [|x a IH]; [reflexivity |].
  rewrite append_cons. cbn [last_char].
  destruct (a +:+ String c b) eqn:E; [| exact IH].
  destruct a; discriminate.
Qed.

Lemma suffixes_end_alike (s a b : string) (x y : ascii) :
  HasSuffix s (a +:+ String x EmptyString) = true ->
  HasSuffix s (b +:+ String y EmptyString) = true -> x = y.
Proof.
  intros Ha Hb.
  destruct (HasSuffix_split _ _ Ha) as (pa & Hpa & _).
  destruct (HasSuffix_split _ _ Hb) as (pb & Hpb & _).
  assert (H : last_char s = Some x).
  { rewrite Hpa, <- append_assoc. apply last_char_append. }
  rewrite Hpb, <- append_assoc, last_char_append in H. now injection H.
Qed.

End Parsing.

Section Blocks.

Import Router Routes.

Lemma nonempty_inv (s : string) :
  nonempty s = true -> exists c r, s = String c r.
Proof. destruct s as [|c r]; [discriminate | eauto]. Qed.

Lemma nonempty_false (s : string) : nonempty s = false -> s = EmptyString.
Proof. destruct s; [reflexivity | discriminate]. Qed.

Ltac name_nonempty :=
  repeat match goal with
         | H : nonempty ?s = true |- _ =>
             let c := fresh "c" in let r := fresh "r" in
             destruct (nonempty_inv s H) as (c & r & ->); clear H
         | H : _ && _ = true |- _ => apply andb_prop in H as [? ?]
         end.

Ltac by_method :=
  repeat match goal with
         | |- context [if String.eqb ?method ?m then _ else _] =>
             destruct (String.eqb method m)
         end;
  try exact I; cbn; intuition.

Lemma manifest_routes_ok (p method : string) :
  block_ok ["get_manifest"; "head_manifest"; "put_manifest"; "delete_manifest"]
           (manifest_routes p method).
Proof.
  unfold manifest_routes. cbv zeta.
  destruct (negb (Index p "/manifests/" =? -1)) eqn:Hidx; [| exact I].
  destruct (Index_slices p _ _ eq_refl Hidx) as (a & b & _ & Ha & Hb).
  change (len "/manifests/") with 11 in Hb. rewrite Ha, Hb.
  destruct (nonempty a && nonempty b) eqn:Hne; [| exact I]. name_nonempty.
  by_method.
Qed.

Lemma upload_routes_ok (p method query : string) :
  block_ok ["upload_chunk"; "complete_upload"; "get_upload_status"]
           (upload_routes p method query).
Proof.
  unfold upload_routes. cbv zeta.
  destruct (negb (Index p "/blobs/uploads/" =? -1)) eqn:Hidx; [| exact I].
  destruct (Index_slices p _ _ eq_refl Hidx) as (a & b & _ & Ha & Hb).
  change (len "/blobs/uploads/") with 15 in Hb. rewrite Ha, Hb.
  destruct (nonempty a && nonempty b) eqn:Hne; [| exact I]. name_nonempty.
  destruct (String.eqb method "PUT" && _) eqn:Hput.
  - name_nonempty. cbn. intuition.
  - by_method.
Qed.

Lemma initiate_routes_ok (p method query : string) :
  block_ok ["mount_blob"; "initiate_upload"] (initiate_routes p method query).
Proof.
  unfold initiate_routes. cbv zeta.
  destruct (HasSuffix p "/blobs/uploads/" || HasSuffix p "/blobs/uploads") eqn:Hs;
    [| exact I].
  assert (Hslice : exists name,
            slice_to p (len p - (if HasSuffix p "/" then 15 else 14)) = Some name).
  { destruct (HasSuffix p "/blobs/uploads/") eqn:H15.
    - assert (HasSuffix p "/" = true) as ->.
      { destruct (HasSuffix_split _ _ H15) as (a & -> & _).
        change "/blobs/uploads/" with ("/blobs/uploads" +:+ "/").
        rewrite <- append_assoc. unfold HasSuffix.
        rewrite length_append. cbn [String.length].
        replace (String.length (a +:+ "/blobs/uploads") + 1 - 1)%nat
          with (String.length (a +:+ "/blobs/uploads")) by lia.
        rewrite substring_skip. cbn [String.substring String.eqb].
        rewrite andb_true_r. apply Nat.leb_le. lia. }
      destruct (HasSuffix_split _ _ H15) as (a & _ & Ha). eauto.
    - cbn [orb] in Hs. destruct (HasSuffix p "/") eqn:H1.
      + pose proof (suffixes_end_alike p "/blobs/upload" EmptyString "s" "/"
                      Hs H1) as Hc. discriminate.
      + destruct (HasSuffix_split _ _ Hs) as (a & _ & Ha). eauto. }
  destruct Hslice as [name ->].
  destruct (nonempty name && String.eqb method "POST") eqn:Hne; [| exact I].
  name_nonempty.
  destruct (nonempty _ && nonempty _) eqn:Hm.
  - name_nonempty. cbn. intuition.
  - cbn. intuition.
Qed.

Lemma blob_routes_ok (p method : string) :
  block_ok ["get_blob"; "head_blob"; "delete_blob"] (blob_routes p method).
Proof.
  unfold blob_routes. cbv zeta.
  destruct (negb (Security.Contains p "/blobs/uploads")); [| exact I].
  destruct (negb (Index p "/blobs/" =? -1)) eqn:Hidx; [| exact I].
  destruct (Index_slices p _ _ eq_refl Hidx) as (a & b & _ & Ha & Hb).
  change (len "/blobs/") with 7 in Hb. rewrite Ha, Hb.
  destruct (nonempty a && nonempty b) eqn:Hne; [| exact I]. name_nonempty.
  by_method.
Qed.

Lemma tags_routes_ok (p method query : string) :
  block_ok ["list_tags"] (tags_routes p method query).
Proof.
  unfold tags_routes.
  destruct (HasSuffix p "/tags/list" && String.eqb method "GET") eqn:Hs;
    [| exact I].
  apply andb_prop in Hs as [Hs _].
  destruct (HasSuffix_split _ _ Hs) as (a & _ & Ha).
  change (len "/tags/list") with 10 in Ha. rewrite Ha.
  destruct (nonempty a) eqn:Hne; [| exact I]. name_nonempty.
  cbn. intuition.
Qed.

Lemma referrers_routes_ok (p method query : string) :
  block_ok ["referrers"] (referrers_routes p method query).
Proof.
  unfold referrers_routes. cbv zeta.
  destruct (negb (Index p "/referrers/" =? -1)) eqn:Hidx; [| exact I].
  destruct (Index_slices p _ _ eq_refl Hidx) as (a & b & _ & Ha & Hb).
  change (len "/referrers/") with 11 in Hb. rewrite Ha, Hb.
  destruct (nonempty a && nonempty b && String.eqb method "GET") eqn:Hne;
    [| exact I].
  name_nonempty. cbn. intuition.
Qed.

End Blocks.

Section RouterFacts.

Import Router Routes.

Lemma first_returned_ok (blocks : list Block) :
  Forall (fun b => exists ts, block_ok ts b) blocks ->
  exists r, first_returned blocks = Some r /\ route_shape r = true.
Proof.
  induction 1 as [|b blocks [ts Hb] _ IH]; [now eexists |].
  destruct b as [r| |]; cbn [first_returned block_ok] in *;
    [exists r; now split | exact IH | contradiction].
Qed.

Lemma v2_path (path : string) :
  negb (HasPrefix path "/v2/") = false ->
  exists p, path = "/v2/" +:+ p /\ slice_from path 4 = Some p.
Proof.
  intros H. apply negb_false_iff in H. destruct (prefix_split _ _ H) as [p ->].
  exists p. split; [reflexivity |]. exact (slice_from_prefix "/v2/" p).
Qed.

Lemma parseRoute_shape (path method query : string) :
  exists route,
    parseRoute path method query = Some route /\ route_shape route = true.
Proof.
  unfold parseRoute.
  destruct (_ || _); [now eexists |].
  destruct (_ || _); [now eexists |].
  destruct (_ || _); [now eexists |].
  destruct (negb (HasPrefix path "/v2/")) eqn:Hv2; [now eexists |].
  destruct (v2_path path Hv2) as (p & _ & ->).
  destruct (_ && _); [now eexists |].
  apply first_returned_ok.
  repeat constructor;
    eauto using manifest_routes_ok, upload_routes_ok, initiate_routes_ok,
      blob_routes_ok, tags_routes_ok, referrers_routes_ok.
Qed.

Lemma upload_routes_sound (p method query : string) (r : Route) :
  upload_routes p method query = Returned r ->
  p = Name r +:+ "/blobs/uploads/" +:+ RouteUUID r
  /\ (Type_ r = "complete_upload" ->
      method = "PUT" /\ Digest r = extractQueryParam query "digest")
  /\ (Type_ r = "get_upload_status" -> method = "GET")
  /\ (Type_ r = "upload_chunk" ->
      method = "PATCH"
      \/ (method = "PUT" /\ extractQueryParam query "digest" = EmptyString)).
Proof.
  unfold upload_routes. cbv zeta.
  destruct (negb (Index p "/blobs/uploads/" =? -1)) eqn:Hidx; [| discriminate].
  destruct (Index_slices p _ _ eq_refl Hidx) as (a & b & Hp & Ha & Hb).
  change (len "/blobs/uploads/") with 15 in Hb. rewrite Ha, Hb.
  destruct (nonempty a && nonempty b); [| discriminate].
  destruct (String.eqb_spec method "PUT") as [-> | Hput]; cbn [andb].
  - destruct (nonempty (extractQueryParam query "digest")) eqn:Hd.
    + intros [= <-]. cbn. intuition discriminate.
    + apply nonempty_false in Hd. cbn. intros [= <-]. cbn.
      intuition discriminate.
  - destruct (String.eqb_spec method "PATCH") as [-> |];
      [intros [= <-]; cbn; intuition discriminate |].
    destruct (String.eqb_spec method "GET") as [-> |];
      [intros [= <-]; cbn; intuition discriminate | discriminate].
Qed.

End RouterFacts.

(** ** C8: malformed digests on complete-upload *)

Section DigestGate.

Import Security.

Lemma cut_colon_spec (s a b : string) :
  cut_colon s = Some (a, b) -> s = a +:+ ":" +:+ b.
Proof.
  revert a. induction s as [|c s IH]; intros a; [discriminate |].
  cbn [cut_colon]. destruct (Ascii.eqb_spec c ":") as [-> | _].
  - intros [= <- <-]. reflexivity.
  - destruct (cut_colon s) as [[a' b']|]; [|discriminate].
    intros [= <- <-]. rewrite append_cons. f_equal. now apply IH.
Qed.

Lemma cut_colon_sha256 (h : string) :
  cut_colon ("sha256:" +:+ h) = Some ("sha256", h).
Proof. reflexivity. Qed.

Lemma first_bad_rune_none (s : string) :
  first_bad_rune isHexChar s = None -> Spec.all_hex s = true.
Proof.
  induction s as [|c s IH]; [reflexivity |].
  cbn [first_bad_rune Spec.all_hex].
  destruct (code_of c <? 128); cbn [andb]; [|discriminate].
  destruct (isHexChar c); [exact IH | discriminate].
Qed.

Lemma isHexChar_ascii (c : ascii) :
  isHexChar c = true -> (code_of c <? 128) = true.
Proof.
  destruct c as [b0 b1 b2 b3 b4 b5 b6 b7].
  destruct b0, b1, b2, b3, b4, b5, b6, b7; vm_compute; congruence.
Qed.

Lemma all_hex_no_bad_rune (s : string) :
  Spec.all_hex s = true -> first_bad_rune isHexChar s = None.
Proof.
  induction s as [|c s IH]; [reflexivity |].
  cbn [first_bad_rune Spec.all_hex]. intros H.
  apply andb_prop in H as [Hc Hs].
  rewrite (isHexChar_ascii c Hc), Hc. cbn [andb]. now apply IH.
Qed.

(** [ValidateDigestFormat] accepts exactly the digests of the form
    [sha256:<64 hexadecimal characters>]. *)
Lemma ValidateDigestFormat_accepts (d : string) :
  ValidateDigestFormat d = None <-> Spec.digest_form d.
Proof.
  unfold ValidateDigestFormat, Spec.digest_form, Spec.hex64. split.
  - destruct (String.eqb d EmptyString); [discriminate |].
    destruct (cut_colon d) as [[algorithm hash]|] eqn:Hcut; [|discriminate].
    destruct (String.eqb_spec algorithm "sha256") as [-> | _];
      cbn [negb]; [|discriminate].
    destruct (Z.eqb_spec (len hash) 64) as [Hl | _]; cbn [negb]; [|discriminate].
    destruct (first_bad_rune isHexChar hash) eqn:Hbad; [discriminate |].
    intros _. exists hash. split; [exact (cut_colon_spec _ _ _ Hcut) |].
    split; [unfold len in Hl; lia | now apply first_bad_rune_none].
  - intros (h & -> & Hl & Hhex).
    rewrite cut_colon_sha256. cbn [String.eqb negb].
    replace (String.eqb ("sha256:" +:+ h) EmptyString) with false by reflexivity.
    replace (String.eqb "sha256" "sha256") with true by reflexivity.
    cbn [negb]. unfold len. rewrite Hl. cbn [Z.eqb Z.of_nat negb].
    replace (Z.of_nat 64 =? 64) with true by reflexivity. cbn [negb].
    now rewrite all_hex_no_bad_rune.
Qed.



End DigestGate.

Section RouterGate.

Import Uploads Router.

Lemma copy_to_final_no_panic env st finalKey sourceKey o st' :
  copy_to_final env st finalKey sourceKey = (inr o, st') -> o <> Panic.
Proof.
  unfold copy_to_final, unsupported.
  repeat (next_case; simplify_eq/=); intros; simplify_eq/=; discriminate.
Qed.

(** On a digest of the accepted form the finalizer's slices are in
    range. *)
Lemma handleCompleteUpload_no_panic env st r name uploadUUID d :
  Spec.digest_form d ->
  fst (handleCompleteUpload env st r name uploadUUID d) <> Panic.
Proof.
  intros (h & -> & Hh). pose proof (hex64_len h Hh) as Hl.
  unfold handleCompleteUpload.
  rewrite (finalKey_of_sha256 h Hl).
  unfold HasPrefix. rewrite prefix_append. cbn [negb]. unfold unsupported.
  destruct (kv_open_err env); [discriminate |].
  unfold lookup_session. cbv beta iota.
  destruct (kv_sessions (kv st) !! _) as [[session|]|]; [| discriminate ..].
  destruct (0 <? Sscanf_d _).
  - repeat (next_case; simplify_eq/=); discriminate.
  - destruct (0 <? BytesReceived session).
    + destruct (copy_to_final _ _ _ _) as [[[]|o] st1] eqn:Hcopy;
        [destruct (kv_delete_err env); discriminate |].
      cbn. now apply copy_to_final_no_panic in Hcopy.
    + destruct (kv_delete_err env); discriminate.
Qed.

(** Called on its own, the finalizer checks the prefix only: the
    router's gate is what keeps a short digest away from the slices. *)
Example handleCompleteUpload_alone_on_short_digest :
  handleCompleteUpload Samples.env (Samples.st_with_session 0)
    Samples.no_headers_request "library/app" "0b2f" "sha256:ab"
  = (Panic, kv_call (Samples.st_with_session 0) (KvLookup "uploads/0b2f")
              (kv (Samples.st_with_session 0))).
Proof. vm_compute. reflexivity. Qed.

End RouterGate.





(** ** Reading a body *)

Section Reading.

Lemma lenZ_nonneg {A} (l : list A) : 0 <= lenZ l.
Proof. unfold lenZ. lia. Qed.

Lemma lenZ_nil {A} : lenZ (@nil A) = 0.
Proof. reflexivity. Qed.

Lemma lenZ_cons {A} (x : A) (l : list A) : lenZ (x :: l) = 1 + lenZ l.
Proof. unfold lenZ. cbn [List.length]. lia. Qed.

Lemma lenZ_app {A} (l m : list A) : lenZ (l ++ m) = lenZ l + lenZ m.
Proof. unfold lenZ. rewrite List.length_app. lia. Qed.

Lemma lenZ_takeZ {A} (l : list A) (n : Z) :
  0 <= n -> n <= lenZ l -> lenZ (takeZ l n) = n.
Proof.
  revert n. induction l as [|x l IH]; intros n Hn Hl.
  - unfold lenZ in *. cbn in *. lia.
  - cbn [takeZ]. rewrite lenZ_cons in Hl.
    destruct (Z.leb_spec n 0).
    + rewrite lenZ_nil. lia.
    + rewrite lenZ_cons, IH; lia.
Qed.

Lemma lenZ_dropZ {A} (l : list A) (n : Z) :
  0 <= n -> n <= lenZ l -> lenZ (dropZ l n) = lenZ l - n.
Proof.
  revert n. induction l as [|x l IH]; intros n Hn Hl.
  - unfold lenZ in *. cbn in *. lia.
  - cbn [dropZ]. rewrite lenZ_cons in Hl.
    destruct (Z.leb_spec n 0).
    + rewrite lenZ_cons. lia.
    + rewrite lenZ_cons, IH; lia.
Qed.

Lemma takeZ_dropZ {A} (l : list A) (n : Z) : takeZ l n ++ dropZ l n = l.
Proof.
  revert n. induction l as [|x l IH]; intros n; [reflexivity |].
  cbn [takeZ dropZ]. destruct (n <=? 0); [reflexivity |].
  cbn [app]. now rewrite IH.
Qed.

Lemma lenZ_zero_nil {A} (l : list A) : lenZ l = 0 -> l = [].
Proof. destruct l; [reflexivity |]. rewrite lenZ_cons. pose proof (lenZ_nonneg l). lia. Qed.

(** A full read. *)
Lemma ReadFull_full (b : Body) (n : Z) :
  n <= lenZ (b_data b) ->
  ReadFull b n = (takeZ (b_data b) n, None, MkBody (dropZ (b_data b) n) (b_end b)).
Proof.
  intros H. unfold ReadFull. destruct (Z.leb_spec n (lenZ (b_data b))); [reflexivity | lia].
Qed.

(** A read at the clean end of the stream. *)
Lemma ReadFull_at_end (n : Z) :
  0 < n -> ReadFull (MkBody [] EndEOF) n = ([], Some EOF, MkBody [] EndEOF).
Proof.
  intros H. unfold ReadFull. cbn [b_data b_end]. rewrite lenZ_nil.
  destruct (Z.leb_spec n 0); [lia | reflexivity].
Qed.

End Reading.

(** ** C3 and C9: the exits of [handleUploadChunk] that upload nothing *)

Lemma accepted_is (name uploadUUID range : string) :
  Uploads.accepted name uploadUUID range
  = Wrote 202 (accepted_headers name uploadUUID range).
Proof. reflexivity. Qed.

(** C3. For every PATCH request whose session record has
    [bytes_received > 0] and whose [Transfer-Encoding] header equals
    [chunked], the handler returns HTTP 202 with
    [Range: 0-<bytes_received-1>] at once: no byte of the body is read, no
    request goes to the object store, the only KV call is the lookup of the
    session, and the store (the session record included) is unchanged. *)
Theorem fast_path_answers_without_reading :
  forall (env : Env) (st : St) (r : Uploads.HttpReq) (name uploadUUID : string)
         (session : UploadSession),
    kv_open_err env = None ->
    kv_sessions (kv st) !! Uploads.session_kv_key uploadUUID = Some (Ok session) ->
    0 < BytesReceived session ->
    S3Auth.hget "Transfer-Encoding" (Uploads.req_headers r) = "chunked" ->
    exists st',
      Uploads.handleUploadChunk env st r name uploadUUID
      = (Wrote 202
           (accepted_headers name uploadUUID
              ("0-" +:+ itoa (BytesReceived session - 1))),
         st', Uploads.req_body r)
      /\ sent st' = sent st
      /\ kv st' = kv st
      /\ kv_calls st' = kv_calls st ++ [KvLookup (Uploads.session_kv_key uploadUUID)].
Proof.
  intros env st r name uploadUUID session Hopen Hsess Hpos Hte.
  unfold Uploads.handleUploadChunk, Uploads.lookup_session.
  rewrite Hopen, Hsess, Hte. cbv beta iota.
  destruct (Z.ltb_spec 0 (BytesReceived session)); [|lia].
  replace (String.eqb "chunked" "chunked") with true by reflexivity.
  cbn [andb]. eexists. split; [reflexivity |].
  repeat split; reflexivity.
Qed.

Lemma fast_path_answers_without_reading_witness :
  exists st',
    Uploads.handleUploadChunk Samples.env (Samples.st_with_session 117440512)
      (Uploads.MkReq [("Transfer-Encoding", "chunked")]
         (MkBody (bytes_of "layer bytes") EndEOF))
      "library/app" "0b2f"
    = (Wrote 202 (accepted_headers "library/app" "0b2f" "0-117440511"),
       st', MkBody (bytes_of "layer bytes") EndEOF)
    /\ sent st' = [] /\ kv st' = kv (Samples.st_with_session 117440512).
Proof.
  destruct (fast_path_answers_without_reading Samples.env
              (Samples.st_with_session 117440512)
              (Uploads.MkReq [("Transfer-Encoding", "chunked")]
                 (MkBody (bytes_of "layer bytes") EndEOF))
              "library/app" "0b2f" (Samples.session 117440512))
    as (st' & Hrun & Hsent & Hkv & _).
  - reflexivity.
  - vm_compute. reflexivity.
  - reflexivity.
  - reflexivity.
  - exists st'. split; [exact Hrun | split; [exact Hsent | exact Hkv]].
Defined.

(** C9, as the code has it. For every PATCH request whose body is empty
    (the stream ends cleanly after zero bytes), whose session has
    [bytes_received = 0] and whose [Content-Length] header is absent or
    does not read as a positive number, the handler returns HTTP 202 with
    [Range: 0-0] and sends no request to the object store (no initiate, no
    upload-part, no PUT); the store is left as it was. The handler takes
    the size of the body from the header, not from the stream. *)
Theorem empty_patch_is_accepted_without_s3 :
  forall (env : Env) (st : St) (r : Uploads.HttpReq) (name uploadUUID : string)
         (session : UploadSession),
    kv_open_err env = None ->
    kv_sessions (kv st) !! Uploads.session_kv_key uploadUUID = Some (Ok session) ->
    BytesReceived session = 0 ->
    Uploads.req_body r = MkBody [] EndEOF ->
    Uploads.Sscanf_d (S3Auth.hget "Content-Length" (Uploads.req_headers r)) <= 0 ->
    exists st',
      Uploads.handleUploadChunk env st r name uploadUUID
      = (Wrote 202 (accepted_headers name uploadUUID "0-0"), st', MkBody [] EndEOF)
      /\ sent st' = sent st
      /\ kv st' = kv st.
Proof.
  intros env st r name uploadUUID session Hopen Hsess Hzero Hbody Hlen.
  unfold Uploads.handleUploadChunk, Uploads.lookup_session.
  rewrite Hopen, Hsess, Hbody, Hzero. cbv beta iota.
  cbn [Z.ltb Z.compare andb].
  set (n := Uploads.Sscanf_d _) in *.
  assert (Hmax : "0-" +:+ itoa (Uploads.max 0 (wrap64 (0 - 1))) = "0-0")
    by (vm_compute; reflexivity).
  destruct ((n =? 0) && String.eqb _ "chunked").
  - unfold Multipart.ResumableMultipartUpload.
    rewrite ReadFull_at_end by (vm_compute; reflexivity).
    cbn -[Uploads.max wrap64 itoa]. rewrite Hmax.
    eexists. split; [reflexivity | split; reflexivity].
  - destruct (Z.ltb_spec 0 n) as [Hn | _]; [lia |].
    rewrite Hmax. eexists. split; [reflexivity | split; reflexivity].
Qed.

Lemma empty_patch_is_accepted_without_s3_witness :
  exists st',
    Uploads.handleUploadChunk Samples.env (Samples.st_with_session 0)
      (Uploads.MkReq [("Transfer-Encoding", "chunked")] (MkBody [] EndEOF))
      "library/app" "0b2f"
    = (Wrote 202 (accepted_headers "library/app" "0b2f" "0-0"),
       st', MkBody [] EndEOF)
    /\ sent st' = [] /\ kv st' = kv (Samples.st_with_session 0).
Proof.
  apply (empty_patch_is_accepted_without_s3 Samples.env (Samples.st_with_session 0)
           (Uploads.MkReq [("Transfer-Encoding", "chunked")] (MkBody [] EndEOF))
           "library/app" "0b2f" (Samples.session 0)).
  - reflexivity.
  - vm_compute. reflexivity.
  - reflexivity.
  - reflexivity.
  - vm_compute. discriminate.
Defined.

(** C9 as stated fails: not every PATCH with an empty body and
    [bytes_received = 0] is answered [Range: 0-0] without a request to the
    object store. With [Content-Length: 42] and an empty stream the
    handler PUTs the body to the temp object and answers [Range: 0-41]. *)
Lemma empty_patch_with_a_content_length_is_stored :
  ~ (forall (env : Env) (st : St) (r : Uploads.HttpReq)
            (name uploadUUID : string) (session : UploadSession),
       kv_open_err env = None ->
       kv_sessions (kv st) !! Uploads.session_kv_key uploadUUID
       = Some (Ok session) ->
       BytesReceived session = 0 ->
       Uploads.req_body r = MkBody [] EndEOF ->
       exists st',
         Uploads.handleUploadChunk env st r name uploadUUID
         = (Wrote 202 (accepted_headers name uploadUUID "0-0"), st',
            MkBody [] EndEOF)
         /\ sent st' = sent st).
Proof.
  intros Hall.
  destruct (Hall Samples.env (Samples.st_with_session 0)
              (Uploads.MkReq [("Content-Length", "42")] (MkBody [] EndEOF))
              "library/app" "0b2f" (Samples.session 0))
    as (st' & Hrun & _).
  - reflexivity.
  - vm_compute. reflexivity.
  - reflexivity.
  - reflexivity.
  - vm_compute in Hrun. discriminate Hrun.
Qed.

(** ** C10: the completed-content early exit *)

Lemma eqb_empty_false (s : string) :
  s <> EmptyString -> String.eqb s EmptyString = false.
Proof. intros H. now destruct (String.eqb_spec s EmptyString). Qed.

Lemma engine_early_exit (env : Env) (st : St) (repoName key : string)
    (body rest : Body) (idata : list byte) (completedKey : string)
    (req : S3Auth.Request) (headResp : Response) :
  identified body idata rest ->
  kv_open_err env = None ->
  kv_completed (kv st) !! Multipart.completed_kv_key (checkpoint_key repoName idata)
  = Some completedKey ->
  completedKey <> EmptyString ->
  S3Auth.SignHeadRequest (senv env) completedKey = Ok req ->
  backend env (List.length (sent st)) (OpHead completedKey) = Ok headResp ->
  StatusCode headResp = 200 ->
  Multipart.ResumableMultipartUpload env st repoName key body
  = ((Some (Multipart.MkResult 0 true None completedKey), None),
     MkSt (kv st) (sent st ++ [OpHead completedKey])
          (kv_calls st
             ++ [KvLookup (Multipart.completed_kv_key (checkpoint_key repoName idata))]),
     rest).
Proof.
  intros (err & Hread & Herr) Hopen Hrec Hne Hsign Hhead H200.
  unfold Multipart.ResumableMultipartUpload. rewrite Hread.
  unfold Multipart.check_completed, Multipart.LoadCompletedUpload.
  fold (checkpoint_key repoName idata).
  rewrite Hopen. cbv beta iota zeta. rewrite Hrec.
  rewrite (eqb_empty_false _ Hne), Hsign.
  unfold send, kv_call. cbn [sent kv kv_calls]. rewrite Hhead, H200.
  cbn [Z.eqb Pos.eqb].
  destruct Herr as [-> | ->]; reflexivity.
Qed.

(** C10. On the completed-content early exit (the cached key is verified
    by HEAD), [handleUploadChunk] overwrites the session record with
    [TempLocation] set to the verified key stripped of its [/data] suffix
    and [BytesReceived] set to the constant 1, whatever the size of the
    blob, and answers 202 with [Range: 0-0]; the only backend request is
    the HEAD. *)
Theorem early_exit_stores_a_one_byte_sentinel :
  forall (env : Env) (st : St) (r : Uploads.HttpReq) (name uploadUUID : string)
         (session : UploadSession) (idata : list byte) (rest : Body)
         (completedKey : string) (req : S3Auth.Request) (headResp : Response),
    kv_open_err env = None ->
    kv_sessions (kv st) !! Uploads.session_kv_key uploadUUID = Some (Ok session) ->
    BytesReceived session <= 0 ->
    S3Auth.hget "Transfer-Encoding" (Uploads.req_headers r) = "chunked" ->
    Uploads.Sscanf_d (S3Auth.hget "Content-Length" (Uploads.req_headers r)) = 0 ->
    identified (Uploads.req_body r) idata rest ->
    kv_completed (kv st) !! Multipart.completed_kv_key (checkpoint_key name idata)
    = Some completedKey ->
    completedKey <> EmptyString ->
    S3Auth.SignHeadRequest (senv env) completedKey = Ok req ->
    backend env (List.length (sent st)) (OpHead completedKey) = Ok headResp ->
    StatusCode headResp = 200 ->
    exists st',
      Uploads.handleUploadChunk env st r name uploadUUID
      = (Wrote 202 (accepted_headers name uploadUUID "0-0"), st', rest)
      /\ kv_sessions (kv st') !! Uploads.session_kv_key uploadUUID
         = Some (Ok (MkSession (UUID session) (Repo session) (SessStartedAt session)
                       1 (TrimSuffix completedKey "/data") (ExpiresAt session)))
      /\ sent st' = sent st ++ [OpHead completedKey].
Proof.
  intros env st r name uploadUUID session idata rest completedKey req headResp
         Hopen Hsess Hzero Hte Hcl Hid Hrec Hne Hsign Hhead H200.
  unfold Uploads.handleUploadChunk, Uploads.lookup_session.
  rewrite Hopen, Hsess, Hte, Hcl. cbv beta iota.
  destruct (Z.ltb_spec 0 (BytesReceived session)); [lia |].
  replace (String.eqb "chunked" "chunked") with true by reflexivity.
  cbn [andb Z.eqb].
  erewrite engine_early_exit; try eassumption.
  cbv beta iota. cbn [Multipart.r_CompletedKey Multipart.r_IsComplete].
  rewrite (eqb_empty_false _ Hne). cbn [negb andb].
  eexists. split; [reflexivity |]. split; [| reflexivity].
  unfold Uploads.insert_session, kv_call. cbn [kv kv_sessions].
  apply lookup_insert_eq.
Qed.

Lemma early_exit_stores_a_one_byte_sentinel_witness :
  exists st',
    Uploads.handleUploadChunk Samples.env Samples.st_completed
      (Samples.chunked_request Samples.layer) "library/app" "0b2f"
    = (Wrote 202 (accepted_headers "library/app" "0b2f" "0-0"),
       st', MkBody [] EndEOF)
    /\ kv_sessions (kv st') !! "uploads/0b2f"
       = Some (Ok (MkSession "0b2f" "library/app" "2024-01-15T10:30:00Z" 1
                     "uploads/library/app/77aa" "2024-01-15T11:30:00Z"))
    /\ sent st' = [OpHead "uploads/library/app/77aa/data"].
Proof.
  eapply (early_exit_stores_a_one_byte_sentinel Samples.env Samples.st_completed
            (Samples.chunked_request Samples.layer) "library/app" "0b2f"
            (Samples.session 0) Samples.layer (MkBody [] EndEOF)
            "uploads/library/app/77aa/data").
  - reflexivity.
  - vm_compute. reflexivity.
  - vm_compute. discriminate.
  - reflexivity.
  - reflexivity.
  - exists (Some ErrUnexpectedEOF). split; [vm_compute; reflexivity | now right].
  - vm_compute. reflexivity.
  - discriminate.
  - vm_compute. reflexivity.
  - reflexivity.
  - reflexivity.
Defined.

(** ** C2: resuming from a checkpoint *)

Section Resume.

Import Multipart.

(** The completed-content check sends at most a HEAD and leaves the
    sessions and the checkpoints alone. *)
Lemma check_completed_frame env st stateKey o st1 :
  check_completed env st stateKey = (o, st1) ->
  kv_multipart (kv st1) = kv_multipart (kv st)
  /\ kv_sessions (kv st1) = kv_sessions (kv st)
  /\ (sent st1 = sent st \/ exists k, sent st1 = sent st ++ [OpHead k]).
Proof.
  unfold check_completed, LoadCompletedUpload, DeleteCompletedUpload, send, kv_call.
  destruct (kv_open_err env).
  - intros [= <- <-]. auto.
  - cbv beta iota zeta.
    repeat (match goal with
            | |- context [match ?x with _ => _ end] => destruct x
            end); intros [= <- <-]; cbn; eauto.
Qed.

Lemma rebuild_fields state parts :
  S3UploadId (rebuild_from_list state parts) = S3UploadId state
  /\ S3Key (rebuild_from_list state parts) = S3Key state
  /\ CompletedParts (rebuild_from_list state parts)
     = List.map (fun p => MkPart (lp_PartNumber p) (lp_ETag p)) parts
  /\ BytesUploaded (rebuild_from_list state parts) = listed_bytes parts
  /\ ContentHash (rebuild_from_list state parts) = ContentHash state.
Proof. repeat split; reflexivity. Qed.

Lemma last_of_somes {A} (l : list A) (d : A) :
  l <> [] -> List.last (List.map Some l) None = Some (List.last l d).
Proof.
  induction l as [|x l IH]; [congruence |]. intros _.
  destruct l as [|y l]; [reflexivity |].
  change (List.last (List.map Some (x :: y :: l)) None)
    with (List.last (List.map Some (y :: l)) None).
  change (List.last (x :: y :: l) d) with (List.last (y :: l) d).
  apply IH. discriminate.
Qed.

Lemma rebuild_next state parts d :
  parts <> [] ->
  NextPartNumber (rebuild_from_list state parts)
  = wrap64 (lp_PartNumber (List.last parts d) + 1).
Proof.
  intros H. unfold rebuild_from_list. cbn [NextPartNumber].
  now rewrite (last_of_somes parts d H).
Qed.

Lemma engine_resume (env : Env) (st st1 : St) (repoName key : string)
    (body rest : Body) (idata : list byte) (checkpoint : MultipartState)
    (req : S3Auth.Request) (listResp : Response) (parts : list ListPartResult) :
  identified body idata rest ->
  check_completed env st (checkpoint_key repoName idata) = (None, st1) ->
  kv_open_err env = None ->
  kv_multipart (kv st1) !! multipart_kv_key (checkpoint_key repoName idata)
  = Some (Ok checkpoint) ->
  ContentHash checkpoint = fingerprint (S3Auth.sha256Hex idata) ->
  S3Auth.SignListParts (senv env) (S3Key checkpoint) (S3UploadId checkpoint)
  = Ok req ->
  backend env (List.length (sent st1))
    (OpListParts (S3Key checkpoint) (S3UploadId checkpoint)) = Ok listResp ->
  StatusCode listResp = 200 ->
  xml_unmarshal_list env (resp_body listResp) = Ok parts ->
  0 < listed_bytes parts ->
  ResumableMultipartUpload env st repoName key body
  = ((Some (MkResult (listed_bytes parts) false
              (Some (rebuild_from_list checkpoint parts)) EmptyString), None),
     MkSt (kv st1)
          (sent st1 ++ [OpListParts (S3Key checkpoint) (S3UploadId checkpoint)])
          (kv_calls st1
             ++ [KvLookup (multipart_kv_key (checkpoint_key repoName idata))]),
     rest).
Proof.
  intros (err & Hread & Herr) Hcheck Hopen Hcp Hfp Hsign Hlist H200 Hxml Hpos.
  unfold ResumableMultipartUpload. rewrite Hread.
  fold (checkpoint_key repoName idata). rewrite Hcheck.
  unfold resume_probe, LoadMultipartState. rewrite Hopen.
  cbv beta iota zeta. unfold kv_call at 1. cbn [kv]. rewrite Hcp, Hfp.
  rewrite String.eqb_refl. cbn [negb]. rewrite Hsign.
  unfold send, kv_call. cbn [sent kv kv_calls]. rewrite Hlist, H200.
  cbn [Z.eqb Pos.eqb negb]. rewrite Hxml.
  cbn [p_resumed p_bytes p_key].
  change (BytesUploaded (rebuild_from_list checkpoint parts))
    with (listed_bytes parts).
  destruct (Z.ltb_spec 0 (listed_bytes parts)); [|lia].
  destruct Herr as [-> | ->]; reflexivity.
Qed.

End Resume.

(** C2. For every ingestion invocation that (after the completed-content
    check) finds a multipart checkpoint whose stored fingerprint equals the
    first 16 hex characters of the SHA-256 of the identification window,
    and whose list-parts probe succeeds with bytes already uploaded > 0
    (hence with at least one part): the probe is sent for the checkpoint's
    stored object key, not for the key of the new session; the parts list,
    the byte count and the next part number of the in-memory checkpoint are
    those derived from the list-parts response; and the engine returns an
    incomplete result with the S3-derived byte count without sending any
    upload-part request. *)
Theorem resume_reuses_the_checkpoint_and_uploads_nothing :
  forall (env : Env) (st st1 : St) (repoName key : string)
         (body rest : Body) (idata : list byte) (checkpoint : MultipartState)
         (req : S3Auth.Request) (listResp : Response)
         (parts : list ListPartResult) (p0 : ListPartResult),
    identified body idata rest ->
    Multipart.check_completed env st (checkpoint_key repoName idata) = (None, st1) ->
    kv_open_err env = None ->
    kv_multipart (kv st1)
      !! Multipart.multipart_kv_key (checkpoint_key repoName idata)
    = Some (Ok checkpoint) ->
    ContentHash checkpoint = Multipart.fingerprint (S3Auth.sha256Hex idata) ->
    S3Auth.SignListParts (senv env) (S3Key checkpoint) (S3UploadId checkpoint)
    = Ok req ->
    backend env (List.length (sent st1))
      (OpListParts (S3Key checkpoint) (S3UploadId checkpoint)) = Ok listResp ->
    StatusCode listResp = 200 ->
    xml_unmarshal_list env (resp_body listResp) = Ok parts ->
    0 < listed_bytes parts ->
    exists (state : MultipartState) (st' : St) (new : list S3Op),
      Multipart.ResumableMultipartUpload env st repoName key body
      = ((Some (Multipart.MkResult (listed_bytes parts) false (Some state)
                  EmptyString), None), st', rest)
      /\ parts <> []
      /\ S3Key state = S3Key checkpoint
      /\ S3UploadId state = S3UploadId checkpoint
      /\ CompletedParts state
         = List.map (fun p => MkPart (lp_PartNumber p) (lp_ETag p)) parts
      /\ BytesUploaded state = listed_bytes parts
      /\ NextPartNumber state = wrap64 (lp_PartNumber (List.last parts p0) + 1)
      /\ sent st' = sent st ++ new
      /\ List.last new (OpHead EmptyString)
         = OpListParts (S3Key checkpoint) (S3UploadId checkpoint)
      /\ List.forallb (fun op => negb (is_upload_part op)) new = true.
Proof.
  intros env st st1 repoName key body rest idata checkpoint req listResp parts p0
         Hid Hcheck Hopen Hcp Hfp Hsign Hlist H200 Hxml Hpos.
  assert (Hne : parts <> []) by (intros ->; cbn in Hpos; lia).
  pose proof (engine_resume env st st1 repoName key body rest idata checkpoint
                req listResp parts Hid Hcheck Hopen Hcp Hfp Hsign Hlist H200
                Hxml Hpos) as Hrun.
  destruct (rebuild_fields checkpoint parts) as (F1 & F2 & F3 & F4 & _).
  destruct (check_completed_frame _ _ _ _ _ Hcheck) as (_ & _ & [Hs | [k Hs]]).
  - exists (Multipart.rebuild_from_list checkpoint parts). eexists.
    exists [OpListParts (S3Key checkpoint) (S3UploadId checkpoint)].
    split; [exact Hrun |].
    repeat (split; [first [assumption | now apply rebuild_next | reflexivity] |]).
    cbn [sent]. rewrite Hs. split; [reflexivity | split; reflexivity].
  - exists (Multipart.rebuild_from_list checkpoint parts). eexists.
    exists [OpHead k; OpListParts (S3Key checkpoint) (S3UploadId checkpoint)].
    split; [exact Hrun |].
    repeat (split; [first [assumption | now apply rebuild_next | reflexivity] |]).
    cbn [sent]. rewrite Hs, <- app_assoc. split; [reflexivity | split; reflexivity].
Qed.

Lemma resume_reuses_the_checkpoint_and_uploads_nothing_witness :
  exists (state : MultipartState) (st' : St),
    Multipart.ResumableMultipartUpload Samples.env_listing Samples.st_checkpoint
      "library/app" "uploads/library/app/0b2f/data" (MkBody Samples.layer EndEOF)
    = ((Some (Multipart.MkResult 33554432 false (Some state) EmptyString), None),
       st', MkBody [] EndEOF)
    /\ S3Key state = "uploads/library/app/77aa/data"
    /\ NextPartNumber state = 3
    /\ sent st' = [OpListParts "uploads/library/app/77aa/data" "upload-7"].
Proof.
  edestruct (resume_reuses_the_checkpoint_and_uploads_nothing
               Samples.env_listing Samples.st_checkpoint
               (MkSt (kv Samples.st_checkpoint) []
                     [KvLookup Samples.layer_completed_key])
               "library/app" "uploads/library/app/0b2f/data"
               (MkBody Samples.layer EndEOF) (MkBody [] EndEOF) Samples.layer
               Samples.checkpoint)
    with (parts := Samples.listed_parts) (p0 := MkListPart 0 EmptyString 0)
    as (state & st' & new & Hrun & _ & Hkey & _ & _ & _ & Hnext & Hsent & Hlast & _).
  - exists (Some ErrUnexpectedEOF). split; [vm_compute; reflexivity | now right].
  - vm_compute. reflexivity.
  - reflexivity.
  - vm_compute. reflexivity.
  - vm_compute. reflexivity.
  - vm_compute. reflexivity.
  - reflexivity.
  - reflexivity.
  - reflexivity.
  - vm_compute. reflexivity.
  - exists state, st'. split; [exact Hrun |]. split; [exact Hkey |].
    split; [exact Hnext |].
    pose proof Hrun as Hrun'. vm_compute in Hrun'.
    injection Hrun' as _ <-. reflexivity.
Defined.

(** ** Running the engine against a cooperative backend *)

Section Run.

Import Multipart.

Variable env : Env.
Variable cr : S3Auth.Credentials.
Hypothesis Hcreds : S3Auth.creds (senv env) = Ok cr.
Hypothesis Hurl : forall u, S3Auth.url_err (senv env) u = None.

Lemma SignUploadPart_ok key uploadId partNumber contentLength :
  exists req,
    S3Auth.SignUploadPart (senv env) key uploadId partNumber contentLength = Ok req.
Proof.
  unfold S3Auth.SignUploadPart, S3Auth.with_credentials, S3Auth.NewRequest.
  rewrite Hcreds. cbv zeta. rewrite Hurl. eexists. reflexivity.
Qed.

Lemma sign3_ok method key queryString urlQuery :
  exists req, S3Auth.sign3 (senv env) method key queryString urlQuery = Ok req.
Proof.
  unfold S3Auth.sign3, S3Auth.with_credentials, S3Auth.NewRequest.
  rewrite Hcreds. cbv zeta. rewrite Hurl. eexists. reflexivity.
Qed.

Lemma SignCompleteMultipartUpload_ok key uploadId body :
  exists req,
    S3Auth.SignCompleteMultipartUpload (senv env) key uploadId body = Ok req.
Proof.
  unfold S3Auth.SignCompleteMultipartUpload, S3Auth.with_credentials,
    S3Auth.NewRequest.
  rewrite Hcreds. cbv zeta. rewrite Hurl. eexists. reflexivity.
Qed.

Lemma wrap64_small (z : Z) :
  -9223372036854775808 <= z < 9223372036854775808 -> wrap64 z = z.
Proof. intros H. unfold wrap64. rewrite Z.mod_small; lia. Qed.

Lemma PartSize_value : PartSize = 16777216.
Proof. reflexivity. Qed.

Lemma IdentifyChunkSize_value : IdentifyChunkSize = 1048576.
Proof. reflexivity. Qed.

Lemma dropZ_dropZ {A} (l : list A) (n m : Z) :
  0 <= n -> 0 <= m -> dropZ (dropZ l n) m = dropZ l (n + m).
Proof.
  revert n. induction l as [|x l IH]; intros n Hn Hm; [reflexivity |].
  cbn [dropZ]. destruct (Z.leb_spec n 0).
  - assert (n = 0) as -> by lia. cbn [Z.add]. reflexivity.
  - destruct (Z.leb_spec (n + m) 0); [lia |].
    rewrite IH by lia. f_equal. lia.
Qed.

Lemma dropZ_all {A} (l : list A) (n : Z) : lenZ l <= n -> dropZ l n = [].
Proof.
  revert n. induction l as [|x l IH]; intros n Hn; [reflexivity |].
  rewrite lenZ_cons in Hn. pose proof (lenZ_nonneg l).
  cbn [dropZ]. destruct (Z.leb_spec n 0); [lia |]. apply IH. lia.
Qed.

(** A short read that ends at the clean end of the stream. *)
Lemma ReadFull_short (data : list byte) (n : Z) :
  0 < lenZ data -> lenZ data < n ->
  ReadFull (MkBody data EndEOF) n
  = (data, Some ErrUnexpectedEOF, MkBody [] EndEOF).
Proof.
  intros H0 Hn. unfold ReadFull. cbn [b_data b_end].
  destruct (Z.leb_spec n (lenZ data)); [lia |].
  destruct (Z.eqb_spec (lenZ data) 0); [lia | reflexivity].
Qed.

Lemma dropZ_0 {A} (l : list A) : dropZ l 0 = l.
Proof. now destruct l. Qed.

Lemma numbers_from_S (first : Z) (n : nat) :
  Spec.numbers_from first (S n) = first :: Spec.numbers_from (first + 1) n.
Proof.
  unfold Spec.numbers_from. cbn [List.seq List.map]. f_equal; [lia |].
  rewrite <- List.seq_shift, List.map_map. apply List.map_ext. intros i. lia.
Qed.

Variables stateKey key uploadId : string.

(** Initiate and the first part, when both requests are answered 200. *)
Lemma fresh_start_ok (st : St) (fp : string) (idata rest : list byte)
    (e : ReadEnd) (initResp partResp : Response) :
  0 < PartSize - lenZ idata ->
  PartSize - lenZ idata <= lenZ rest ->
  backend env (List.length (sent st)) (OpInitiate key) = Ok initResp ->
  StatusCode initResp = 200 ->
  resp_read_err initResp = None ->
  xml_unmarshal_initiate env (resp_body initResp) = Ok uploadId ->
  backend env (S (List.length (sent st)))
    (OpUploadPart key uploadId 1 (idata ++ takeZ rest (PartSize - lenZ idata)))
  = Ok partResp ->
  StatusCode partResp = 200 ->
  fresh_start env st fp key idata (MkBody rest e)
  = (inl (MkState uploadId key
            [MkPart 1 (etag_of partResp
                         (idata ++ takeZ rest (PartSize - lenZ idata)))]
            2 PartSize (now_rfc3339 env) fp),
     MkSt (kv st)
          (sent st ++ [OpInitiate key;
                       OpUploadPart key uploadId 1
                         (idata ++ takeZ rest (PartSize - lenZ idata))])
          (kv_calls st),
     MkBody (dropZ rest (PartSize - lenZ idata)) e).
Proof.
  intros Hrem Hrest Hinit H200 Hread Hxml Hpart Hp200.
  unfold fresh_start, S3Auth.SignInitiateMultipartUpload.
  destruct (sign3_ok "POST" key "uploads=" "uploads") as [req ->].
  unfold send at 1. cbn [sent kv kv_calls]. rewrite Hinit, H200.
  cbn [Z.eqb Pos.eqb negb]. rewrite Hread, Hxml.
  destruct (Z.ltb_spec 0 (PartSize - lenZ idata)); [|lia].
  rewrite ReadFull_full by (cbn [b_data]; lia). cbn [b_data b_end].
  rewrite lenZ_takeZ by lia.
  replace (lenZ idata + (PartSize - lenZ idata)) with PartSize by lia.
  destruct (SignUploadPart_ok key uploadId 1 PartSize) as [req' ->].
  unfold send. cbn [sent kv kv_calls].
  rewrite List.length_app. cbn [List.length]. rewrite Nat.add_1_r.
  rewrite Hpart, Hp200. cbn [Z.eqb Pos.eqb negb].
  rewrite <- List.app_assoc. reflexivity.
Qed.

(** [f] iterations of the main loop over a stream that still holds [f]
    full parts, each answered 200. *)
Lemma loop_full_parts (f : nat) :
  forall (n : Z) (state : MultipartState) (st : St) (data : list byte)
         (e : ReadEnd),
    Z.of_nat f * PartSize <= lenZ data ->
    0 <= NextPartNumber state ->
    NextPartNumber state + Z.of_nat f < 4611686018427387904 ->
    0 <= BytesUploaded state ->
    BytesUploaded state + Z.of_nat f * PartSize < 4611686018427387904 ->
    (forall k op, (k < f)%nat -> is_upload_part op = true ->
       exists resp,
         backend env (List.length (sent st) + k) op = Ok resp
         /\ StatusCode resp = 200) ->
    exists new : list CompletedPart,
      upload_loop env f n stateKey key uploadId state st (MkBody data e)
      = (Continue
           (MkState (S3UploadId state) (S3Key state)
                    (CompletedParts state ++ new)
                    (NextPartNumber state + Z.of_nat f)
                    (BytesUploaded state + Z.of_nat f * PartSize)
                    (StartedAt state) (ContentHash state)),
         MkSt (kv st)
              (sent st ++ Spec.part_ops key uploadId f (NextPartNumber state) data)
              (kv_calls st),
         MkBody (dropZ data (Z.of_nat f * PartSize)) e)
      /\ List.map PartNumber new = Spec.numbers_from (NextPartNumber state) f.
Proof.
  induction f as [|f IH]; intros n state st data e Hlen Hn0 Hn1 Hb0 Hb1 Hback.
  - exists []. split; [| reflexivity].
    cbn [upload_loop Spec.part_ops Z.of_nat Z.mul].
    rewrite dropZ_0, !app_nil_r, !Z.add_0_r.
    destruct state, st. reflexivity.
  - pose proof PartSize_value as HP.
    assert (Hfull : PartSize <= lenZ data) by lia.
    destruct (Hback 0%nat
                (OpUploadPart key uploadId (NextPartNumber state)
                   (takeZ data PartSize)))
      as (resp & Hresp & H200); [lia | reflexivity |].
    rewrite Nat.add_0_r in Hresp.
    set (state1 :=
           MkState (S3UploadId state) (S3Key state)
                   (CompletedParts state
                      ++ [MkPart (NextPartNumber state)
                            (etag_of resp (takeZ data PartSize))])
                   (NextPartNumber state + 1)
                   (BytesUploaded state + PartSize)
                   (StartedAt state) (ContentHash state)).
    set (st1 :=
           MkSt (kv st)
                (sent st ++ [OpUploadPart key uploadId (NextPartNumber state)
                               (takeZ data PartSize)])
                (kv_calls st)).
    destruct (IH (n + 1) state1 st1 (dropZ data PartSize) e)
      as (new & Hrun & Hnums).
    + rewrite lenZ_dropZ by lia. lia.
    + cbn [state1 NextPartNumber]. lia.
    + cbn [state1 NextPartNumber]. lia.
    + cbn [state1 BytesUploaded]. lia.
    + cbn [state1 BytesUploaded]. lia.
    + intros k op Hk Hop. cbn [st1 sent].
      rewrite List.length_app. cbn [List.length].
      replace (List.length (sent st) + 1 + k)%nat
        with (List.length (sent st) + S k)%nat by lia.
      apply Hback; [lia | exact Hop].
    + exists (MkPart (NextPartNumber state) (etag_of resp (takeZ data PartSize))
                :: new).
      split.
      * cbn [upload_loop]. rewrite ReadFull_full by (cbn [b_data]; lia).
        cbn [b_data b_end]. rewrite lenZ_takeZ by lia.
        destruct (SignUploadPart_ok key uploadId (NextPartNumber state) PartSize)
          as [req ->].
        unfold send. cbn [sent kv kv_calls]. rewrite Hresp, H200.
        cbn [Z.eqb Pos.eqb negb].
        rewrite !wrap64_small by lia.
        fold state1. fold st1. rewrite Hrun.
        cbn [state1 st1 S3UploadId S3Key CompletedParts NextPartNumber
               BytesUploaded StartedAt ContentHash sent kv kv_calls
               Spec.part_ops].
        rewrite <- !List.app_assoc. cbn [List.app].
        rewrite dropZ_dropZ by lia.
        replace (NextPartNumber state + Z.of_nat (S f))
          with (NextPartNumber state + 1 + Z.of_nat f) by lia.
        replace (BytesUploaded state + Z.of_nat (S f) * PartSize)
          with (BytesUploaded state + PartSize + Z.of_nat f * PartSize) by lia.
        replace (Z.of_nat (S f) * PartSize)
          with (PartSize + Z.of_nat f * PartSize) by lia.
        reflexivity.
      * cbn [List.map PartNumber]. rewrite numbers_from_S. f_equal.
        exact Hnums.
Qed.

Lemma sort_parts_sorted (l : list CompletedPart) :
  forall a, List.map PartNumber l = Spec.numbers_from a (List.length l) ->
            sort_parts l = l.
Proof.
  induction l as [|x l IH]; intros a Hl; [reflexivity |].
  cbn [List.length] in Hl. rewrite numbers_from_S in Hl.
  cbn [List.map] in Hl. injection Hl as Hx Hl.
  unfold sort_parts in *. cbn [List.fold_right]. rewrite (IH _ Hl).
  destruct l as [|q r]; [reflexivity |].
  cbn [List.length] in Hl. rewrite numbers_from_S in Hl.
  cbn [List.map] in Hl. injection Hl as Hq _.
  cbn [insert_part]. destruct (Z.ltb_spec (PartNumber x) (PartNumber q));
    [reflexivity | lia].
Qed.

(** The end of a run whose stream is exhausted: complete-multipart,
    checkpoint deleted, completed-content record written. *)
Lemma finish_ok (state : MultipartState) (st : St) (a : Z)
    (completeBody : list byte) (completeResp : Response) :
  CompletedParts state <> [] ->
  List.map PartNumber (CompletedParts state)
  = Spec.numbers_from a (List.length (CompletedParts state)) ->
  xml_marshal_complete env (CompletedParts state) = Ok completeBody ->
  backend env (List.length (sent st))
    (OpComplete key uploadId (CompletedParts state)) = Ok completeResp ->
  StatusCode completeResp = 200 ->
  finish env stateKey key uploadId state st (MkBody [] EndEOF)
  = ((Some (MkResult (BytesUploaded state) true None key), None),
     SaveCompletedUpload env
       (DeleteMultipartState env
          (MkSt (kv st)
                (sent st ++ [OpComplete key uploadId (CompletedParts state)])
                (kv_calls st))
          stateKey)
       stateKey key,
     MkBody [] EndEOF).
Proof.
  intros Hne Hsorted Hmarshal Hcomplete H200.
  unfold finish. cbn [Read1 b_data b_end end_err Z.ltb Z.compare orb].
  rewrite (sort_parts_sorted _ a Hsorted).
  destruct (CompletedParts state) as [|p ps] eqn:Hparts; [congruence |].
  rewrite Hmarshal.
  destruct (SignCompleteMultipartUpload_ok key uploadId completeBody) as [req ->].
  unfold send. cbn [sent kv kv_calls]. rewrite Hcomplete, H200.
  reflexivity.
Qed.

End Run.

(** ** C4: a payload of exactly 28 parts *)

Section FullBudget.

Import Multipart.

Lemma part_ops_length key uploadId n first data :
  List.length (Spec.part_ops key uploadId n first data) = n.
Proof.
  revert first data. induction n as [|n IH]; intros first data;
    [reflexivity |].
  cbn [Spec.part_ops List.length]. now rewrite IH.
Qed.

Lemma part_ops_full key uploadId n :
  forall first data,
    Z.of_nat n * PartSize <= lenZ data ->
    Forall (fun op => exists pn d,
              op = OpUploadPart key uploadId pn d /\ lenZ d = PartSize)
           (Spec.part_ops key uploadId n first data).
Proof.
  pose proof PartSize_value as HP.
  induction n as [|n IH]; intros first data Hlen; [constructor |].
  cbn [Spec.part_ops]. constructor.
  - eexists _, _. split; [reflexivity |]. apply lenZ_takeZ; lia.
  - apply IH. rewrite lenZ_dropZ by lia. lia.
Qed.

Lemma probe_fresh env st repoName key idata :
  kv_open_err env = None ->
  fresh_for st repoName idata ->
  check_completed env st (checkpoint_key repoName idata)
  = (None,
     kv_call st (KvLookup (completed_kv_key (checkpoint_key repoName idata)))
       (kv st))
  /\ resume_probe env
       (kv_call st (KvLookup (completed_kv_key (checkpoint_key repoName idata)))
          (kv st))
       (checkpoint_key repoName idata)
       (fingerprint (S3Auth.sha256Hex idata)) key
     = (MkProbe key EmptyString None 0,
        MkSt (kv st) (sent st)
             (kv_calls st
                ++ [KvLookup (completed_kv_key (checkpoint_key repoName idata));
                    KvLookup (multipart_kv_key (checkpoint_key repoName idata))])).
Proof.
  intros Hopen [Hc Hm]. split.
  - unfold check_completed, LoadCompletedUpload. rewrite Hopen.
    cbv beta iota zeta. rewrite Hc. reflexivity.
  - unfold resume_probe, LoadMultipartState. rewrite Hopen.
    cbv beta iota zeta. unfold kv_call. cbn [kv sent kv_calls].
    rewrite <- List.app_assoc. cbn [List.app].
    destruct (kv_multipart (kv st) !! _) as [[cp|]|] eqn:Hcp; try reflexivity.
    specialize (Hm cp eq_refl).
    destruct (String.eqb_spec (ContentHash cp)
                (fingerprint (S3Auth.sha256Hex idata))); [contradiction |].
    reflexivity.
Qed.

End FullBudget.

(** C4. For a chunked upload stream of exactly
    [PART_SIZE * MAX_PARTS_PER_INVOCATION] bytes (28 x 16 MiB = 448 MiB)
    starting from fresh state, with the KV store open, credentials loaded
    and the 30 backend requests of the invocation answered 200, a single
    ingestion invocation uploads exactly 28 parts (part 1 built from the
    1 MiB identification buffer plus 15 MiB more, then 27 further 16 MiB
    parts, numbered 1 to 28), sends complete-multipart with those parts,
    deletes the checkpoint, writes the completed-content record, and
    returns a complete result of 448 MiB. *)
Theorem full_budget_payload_completes_in_one_invocation :
  forall (env : Env) (cr : S3Auth.Credentials) (st : St)
         (repoName key : string) (data : list byte),
    lenZ data = Multipart.PartSize * Multipart.MaxPartsPerRequest ->
    kv_open_err env = None ->
    S3Auth.creds (senv env) = Ok cr ->
    (forall u, S3Auth.url_err (senv env) u = None) ->
    fresh_for st repoName (takeZ data Multipart.IdentifyChunkSize) ->
    answers_ok env st 30 ->
    (forall b, exists id, xml_unmarshal_initiate env b = Ok id) ->
    (forall ps, exists bs, xml_marshal_complete env ps = Ok bs) ->
    let stateKey := checkpoint_key repoName (takeZ data Multipart.IdentifyChunkSize) in
    let first_part :=
      takeZ data Multipart.IdentifyChunkSize
        ++ takeZ (dropZ data Multipart.IdentifyChunkSize)
             (Multipart.PartSize - Multipart.IdentifyChunkSize) in
    exists (uploadId : string) (parts : list CompletedPart) (st' : St),
      Multipart.ResumableMultipartUpload env st repoName key (MkBody data EndEOF)
      = ((Some (Multipart.MkResult 469762048 true None key), None),
         st', MkBody [] EndEOF)
      /\ sent st'
         = sent st
             ++ [OpInitiate key; OpUploadPart key uploadId 1 first_part]
             ++ Spec.part_ops key uploadId 27 2 (dropZ data Multipart.PartSize)
             ++ [OpComplete key uploadId parts]
      /\ lenZ first_part = Multipart.PartSize
      /\ List.length (Spec.part_ops key uploadId 27 2 (dropZ data Multipart.PartSize))
         = 27%nat
      /\ Forall (fun op => exists pn d,
                   op = OpUploadPart key uploadId pn d
                   /\ lenZ d = Multipart.PartSize)
                (Spec.part_ops key uploadId 27 2 (dropZ data Multipart.PartSize))
      /\ List.map PartNumber parts = Spec.numbers_from 1 28
      /\ kv_multipart (kv st') !! Multipart.multipart_kv_key stateKey = None
      /\ kv_completed (kv st') !! Multipart.completed_kv_key stateKey = Some key
      /\ kv_calls st'
         = kv_calls st
             ++ [KvLookup (Multipart.completed_kv_key stateKey);
                 KvLookup (Multipart.multipart_kv_key stateKey);
                 KvDelete (Multipart.multipart_kv_key stateKey);
                 KvInsert (Multipart.completed_kv_key stateKey)].
Proof.
  intros env cr st repoName key data Hlen Hopen Hcreds Hurl Hfresh Hback Hxml
         Hmarshal stateKey first_part.
  pose proof PartSize_value as HP. pose proof IdentifyChunkSize_value as HI.
  assert (HM : Multipart.MaxPartsPerRequest = 28) by reflexivity.
  rewrite HP, HM in Hlen.
  set (idata := takeZ data Multipart.IdentifyChunkSize) in *.
  set (rest := dropZ data Multipart.IdentifyChunkSize) in *.
  assert (Hid : lenZ idata = 1048576) by (apply lenZ_takeZ; lia).
  assert (Hrest : lenZ rest = 468713472)
    by (unfold rest; rewrite lenZ_dropZ; lia).
  destruct (probe_fresh env st repoName key idata Hopen Hfresh) as [Hcheck Hprobe].
  (* initiate *)
  destruct (Hback 0%nat (OpInitiate key)) as (initResp & Hinit & Hi200 & Hiread);
    [lia |].
  rewrite Nat.add_0_r in Hinit.
  destruct (Hxml (resp_body initResp)) as [uploadId Huid].
  (* part 1 *)
  destruct (Hback 1%nat (OpUploadPart key uploadId 1 first_part))
    as (partResp & Hpart & Hp200 & _); [lia |].
  rewrite Nat.add_1_r in Hpart.
  set (st2 := MkSt (kv st) (sent st)
                (kv_calls st
                   ++ [KvLookup (Multipart.completed_kv_key stateKey);
                       KvLookup (Multipart.multipart_kv_key stateKey)])).
  pose proof (fresh_start_ok env cr Hcreds Hurl key uploadId st2
                (Multipart.fingerprint (S3Auth.sha256Hex idata)) idata rest EndEOF
                initResp partResp) as Hfs.
  rewrite Hid, HP in Hfs. cbn [st2 sent kv kv_calls] in Hfs.
  specialize (Hfs ltac:(lia) ltac:(lia) Hinit Hi200 Hiread Huid Hpart Hp200).
  change (idata ++ takeZ rest (16777216 - 1048576)) with first_part in Hfs.
  (* parts 2..28 *)
  set (state1 := MkState uploadId key
                   [MkPart 1 (Multipart.etag_of partResp first_part)] 2 16777216
                   (now_rfc3339 env)
                   (Multipart.fingerprint (S3Auth.sha256Hex idata))).
  set (st3 := MkSt (kv st)
                (sent st ++ [OpInitiate key; OpUploadPart key uploadId 1 first_part])
                (kv_calls st2)).
  assert (Hrest2 : dropZ rest (16777216 - 1048576) = dropZ data Multipart.PartSize).
  { unfold rest. rewrite HI, HP, dropZ_dropZ by lia. reflexivity. }
  destruct (loop_full_parts env cr Hcreds Hurl stateKey key uploadId 27 1 state1 st3
              (dropZ data Multipart.PartSize) EndEOF)
    as (new & Hloop & Hnums).
  { rewrite lenZ_dropZ by lia. lia. }
  { cbn. lia. }
  { cbn. lia. }
  { cbn. lia. }
  { cbn. lia. }
  { intros k op Hk _. cbn [st3 sent]. rewrite List.length_app. cbn [List.length].
    destruct (Hback (2 + k)%nat op) as (resp & Hr & H2 & _); [lia |].
    exists resp. split; [| exact H2].
    replace (List.length (sent st) + 2 + k)%nat
      with (List.length (sent st) + (2 + k))%nat by lia.
    exact Hr. }
  cbn [state1 S3UploadId S3Key CompletedParts NextPartNumber BytesUploaded
         StartedAt ContentHash st3 sent kv kv_calls] in Hloop.
  (* complete *)
  set (parts := MkPart 1 (Multipart.etag_of partResp first_part) :: new) in *.
  set (state2 := MkState uploadId key parts (2 + Z.of_nat 27)
                   (16777216 + Z.of_nat 27 * Multipart.PartSize)
                   (now_rfc3339 env)
                   (Multipart.fingerprint (S3Auth.sha256Hex idata))) in *.
  set (st4 := MkSt (kv st)
                ((sent st ++ [OpInitiate key; OpUploadPart key uploadId 1 first_part])
                   ++ Spec.part_ops key uploadId 27 2 (dropZ data Multipart.PartSize))
                (kv_calls st2)) in *.
  assert (Hparts : List.map PartNumber parts = Spec.numbers_from 1 28).
  { unfold parts. cbn [List.map PartNumber]. rewrite numbers_from_S. f_equal.
    exact Hnums. }
  assert (Hplen : List.length parts = 28%nat).
  { rewrite <- (List.length_map PartNumber), Hparts.
    unfold Spec.numbers_from. now rewrite List.length_map, List.length_seq. }
  destruct (Hmarshal parts) as [completeBody Hcb].
  destruct (Hback 29%nat (OpComplete key uploadId parts))
    as (completeResp & Hcomp & Hc200 & _); [lia |].
  pose proof (finish_ok env cr Hcreds Hurl stateKey key uploadId state2 st4 1
                completeBody completeResp) as Hfin.
  cbn [state2 CompletedParts BytesUploaded st4 sent kv kv_calls] in Hfin.
  rewrite Hplen in Hfin.
  specialize (Hfin ltac:(discriminate) Hparts Hcb).
  rewrite !List.length_app, part_ops_length in Hfin. cbn [List.length] in Hfin.
  replace (List.length (sent st) + 2 + 27)%nat
    with (List.length (sent st) + 29)%nat in Hfin by lia.
  specialize (Hfin Hcomp Hc200).
  (* the whole run *)
  exists uploadId, parts. eexists. split.
  - unfold Multipart.ResumableMultipartUpload.
    rewrite ReadFull_full by (cbn [b_data]; lia).
    cbn [b_data b_end]. fold idata. fold rest.
    fold (checkpoint_key repoName idata). fold stateKey.
    unfold stateKey at 1. rewrite Hcheck.
    unfold stateKey at 1. rewrite Hprobe.
    cbn [Multipart.p_key Multipart.p_resumed].
    fold stateKey. fold st2. rewrite Hfs.
    cbn [S3UploadId].
    change (Z.to_nat (Multipart.MaxPartsPerRequest - 1)) with 27%nat.
    rewrite Hrest2. unfold state1, st3, st2 in Hloop. cbn [kv_calls] in Hloop.
    rewrite Hloop.
    replace (dropZ (dropZ data Multipart.PartSize) (Z.of_nat 27 * Multipart.PartSize))
      with (@nil byte)
      by (symmetry; rewrite dropZ_dropZ by lia; apply dropZ_all;
          rewrite HP; lia).
    exact Hfin.
  - unfold Multipart.SaveCompletedUpload, Multipart.DeleteMultipartState.
    rewrite Hopen. unfold kv_call, st2.
    cbn [sent kv kv_calls kv_multipart kv_completed].
    rewrite <- !List.app_assoc. cbn [List.app].
    split; [reflexivity |].
    split; [unfold first_part; rewrite lenZ_app, Hid;
            fold rest; rewrite lenZ_takeZ; lia |].
    split; [apply part_ops_length |].
    split; [apply part_ops_full; rewrite lenZ_dropZ; lia |].
    split; [exact Hparts |].
    split; [apply lookup_delete_eq |].
    split; [apply lookup_insert_eq | reflexivity].
Qed.

Lemma lenZ_repeat {A} (x : A) (n : Z) :
  0 <= n -> lenZ (List.repeat x (Z.to_nat n)) = n.
Proof. intros H. unfold lenZ. rewrite List.repeat_length. lia. Qed.

Lemma full_budget_payload_completes_in_one_invocation_witness :
  lenZ Samples.layer_448MiB = Multipart.PartSize * Multipart.MaxPartsPerRequest
  /\ exists (uploadId : string) (parts : list CompletedPart) (st' : St),
       Multipart.ResumableMultipartUpload Samples.env (Samples.st_with_session 0)
         "library/app" "uploads/library/app/0b2f/data"
         (MkBody Samples.layer_448MiB EndEOF)
       = ((Some (Multipart.MkResult 469762048 true None
                   "uploads/library/app/0b2f/data"), None),
          st', MkBody [] EndEOF)
       /\ List.map PartNumber parts = Spec.numbers_from 1 28.
Proof.
  assert (Hlen : lenZ Samples.layer_448MiB
                 = Multipart.PartSize * Multipart.MaxPartsPerRequest)
    by (change (Multipart.PartSize * Multipart.MaxPartsPerRequest)
          with 469762048; apply lenZ_repeat; lia).
  split; [exact Hlen |].
  destruct (full_budget_payload_completes_in_one_invocation
              Samples.env (S3Auth.MkCreds "AKIDEXAMPLE" "secret")
              (Samples.st_with_session 0) "library/app"
              "uploads/library/app/0b2f/data" Samples.layer_448MiB)
    as (uploadId & parts & st' & Hrun & _ & _ & _ & _ & Hparts & _).
  - exact Hlen.
  - reflexivity.
  - reflexivity.
  - intros u. reflexivity.
  - split; [apply lookup_empty |].
    intros cp Hcp. exfalso. revert Hcp.
    change (kv_multipart (kv (Samples.st_with_session 0))) with (∅ : gmap string (res MultipartState)).
    rewrite lookup_empty. discriminate.
  - intros k op _. eexists. split; [reflexivity | split; reflexivity].
  - intros b. eexists. reflexivity.
  - intros ps. eexists. reflexivity.
  - exists uploadId, parts, st'. split; [exact Hrun | exact Hparts].
Defined.

(** ** C1: a network failure of upload-part inside the main loop *)

Section BackendFailure.

Import Multipart.

Lemma saved_state env st stateKey state :
  kv_open_err env = None ->
  kv_multipart (kv (SaveMultipartState env st stateKey state))
    !! multipart_kv_key stateKey = Some (Ok state).
Proof.
  intros H. unfold SaveMultipartState. rewrite H. cbn. apply lookup_insert_eq.
Qed.

Lemma loop_result_with_error env stateKey key uploadId (f : nat) :
  forall n state st body res err st' rest,
    upload_loop env f n stateKey key uploadId state st body
    = (Return (Some res, Some err), st', rest) ->
    failed_part_exit env stateKey res err st'.
Proof.
  induction f as [|f IH]; intros n state st body res err st' rest;
    [discriminate |].
  cbn [upload_loop].
  destruct (ReadFull body PartSize) as [[partData e] body1].
  destruct e as [[| |m]|]; try (intros; simplify_eq; fail).
  all: destruct (S3Auth.SignUploadPart _ _ _ _ _) as [req|m'];
    [| intros; simplify_eq].
  all: unfold send; cbn [sent kv kv_calls];
    destruct (backend env _ _) as [partResp|msg] eqn:Hb.
  all: try (destruct (negb (StatusCode partResp =? 200));
            [intros; simplify_eq | intros H; eapply IH; exact H]).
  all: intros [= <- <- <- <-];
    exists state, (sent st),
           (OpUploadPart key uploadId (NextPartNumber state) partData), msg, n;
    rewrite sent_SaveMultipartState; cbn [sent];
    repeat (split; [first [reflexivity | exact Hb] |]);
    intros Hopen; now apply saved_state.
Qed.

Lemma finish_not_both env stateKey key uploadId state st body res err st' rest :
  finish env stateKey key uploadId state st body
  = ((Some res, Some err), st', rest) -> False.
Proof.
  unfold finish.
  repeat (next_case; simplify_eq/=); intros; simplify_eq.
Qed.

(** The only exit of the engine that returns a result together with an
    error is the network failure of an upload-part request in the main
    loop; the checkpoint is saved on that exit. *)
Lemma engine_result_with_error env st repoName key body res err st' rest :
  ResumableMultipartUpload env st repoName key body
  = ((Some res, Some err), st', rest) ->
  exists idata,
    fst (fst (ReadFull body IdentifyChunkSize)) = idata
    /\ failed_part_exit env (checkpoint_key repoName idata) res err st'.
Proof.
  unfold ResumableMultipartUpload.
  destruct (ReadFull body IdentifyChunkSize) as [[idata e] body1].
  fold (checkpoint_key repoName idata).
  intros H. exists idata. split; [reflexivity |]. revert H.
  destruct e as [[| |m]|]; try (intros; simplify_eq; fail).
  all: destruct (check_completed _ _ _) as [[ck|] st1];
    [solve [cbv beta iota; intros; simplify_eq] |].
  all: destruct (resume_probe _ _ _ _ _) as [probe st2].
  all: destruct (p_resumed probe) as [state|].
  all: try (destruct (0 <? p_bytes probe);
            [solve [cbv beta iota; intros; simplify_eq] |]).
  all: try (destruct (fresh_start _ _ _ _ _ _) as [[[state|msg] st3] body3];
            [| solve [cbv beta iota; intros; simplify_eq]]).
  all: destruct (upload_loop _ _ _ _ _ _ _ _ _) as [[[state'|out] st4] body4]
         eqn:Hloop.
  all: cbv beta iota.
  all: try (intros H; exfalso; eapply finish_not_both; exact H).
  all: intros [= -> <- <-]; eapply loop_result_with_error; exact Hloop.
Qed.

Lemma takeZ_all {A} (l : list A) (n : Z) : lenZ l <= n -> takeZ l n = l.
Proof.
  revert n. induction l as [|x l IH]; intros n Hn; [reflexivity |].
  rewrite lenZ_cons in Hn. pose proof (lenZ_nonneg l).
  cbn [takeZ]. destruct (Z.leb_spec n 0); [lia |]. f_equal. apply IH. lia.
Qed.

(** A read from a stream that still holds bytes and ends cleanly. *)
Lemma ReadFull_nonempty (data : list byte) (n : Z) :
  0 < lenZ data ->
  exists e,
    ReadFull (MkBody data EndEOF) n
    = (takeZ data n, e, MkBody (dropZ data n) EndEOF)
    /\ (e = None \/ e = Some ErrUnexpectedEOF).
Proof.
  intros H. destruct (Z.le_gt_cases n (lenZ data)) as [Hle | Hgt].
  - exists None. split; [| now left]. now apply ReadFull_full.
  - exists (Some ErrUnexpectedEOF). split; [| now right].
    rewrite ReadFull_short by lia.
    rewrite takeZ_all, dropZ_all by lia. reflexivity.
Qed.

(** The first iteration of the main loop, when [Send] fails. *)
Lemma loop_network_failure env cr stateKey key uploadId (f : nat) (n : Z)
    (state : MultipartState) (st : St) (data : list byte) (msg : string) :
  S3Auth.creds (senv env) = Ok cr ->
  (forall u, S3Auth.url_err (senv env) u = None) ->
  0 < lenZ data ->
  backend env (List.length (sent st))
    (OpUploadPart key uploadId (NextPartNumber state) (takeZ data PartSize))
  = Err msg ->
  upload_loop env (S f) n stateKey key uploadId state st (MkBody data EndEOF)
  = (Return (Some (MkResult (BytesUploaded state) false (Some state) EmptyString),
             Some ("backend limit reached after " +:+ itoa n +:+ " parts: "
                     +:+ msg)),
     SaveMultipartState env
       (MkSt (kv st)
             (sent st ++ [OpUploadPart key uploadId (NextPartNumber state)
                            (takeZ data PartSize)])
             (kv_calls st))
       stateKey state,
     MkBody (dropZ data PartSize) EndEOF).
Proof.
  intros Hcreds Hurl Hdata Hback. cbn [upload_loop].
  destruct (ReadFull_nonempty data PartSize Hdata) as (e & -> & He).
  destruct (SignUploadPart_ok env cr Hcreds Hurl key uploadId
              (NextPartNumber state) (lenZ (takeZ data PartSize))) as [req Hreq].
  unfold send. cbn [sent kv kv_calls]. rewrite Hback.
  destruct He as [-> | ->]; rewrite Hreq; reflexivity.
Qed.

(** A fresh upload whose second upload-part request fails at the network
    level: the engine returns the progress of part 1 together with the
    error. *)
Lemma engine_second_part_failure env cr st repoName key data
    (initResp partResp : Response) (uploadId msg : string) :
  S3Auth.creds (senv env) = Ok cr ->
  (forall u, S3Auth.url_err (senv env) u = None) ->
  PartSize < lenZ data ->
  kv_open_err env = None ->
  fresh_for st repoName (takeZ data IdentifyChunkSize) ->
  let first_part :=
    takeZ data IdentifyChunkSize
      ++ takeZ (dropZ data IdentifyChunkSize) (PartSize - IdentifyChunkSize) in
  let state1 :=
    MkState uploadId key [MkPart 1 (etag_of partResp first_part)] 2 PartSize
            (now_rfc3339 env)
            (fingerprint (S3Auth.sha256Hex (takeZ data IdentifyChunkSize))) in
  backend env (List.length (sent st)) (OpInitiate key) = Ok initResp ->
  StatusCode initResp = 200 ->
  resp_read_err initResp = None ->
  xml_unmarshal_initiate env (resp_body initResp) = Ok uploadId ->
  backend env (S (List.length (sent st))) (OpUploadPart key uploadId 1 first_part)
  = Ok partResp ->
  StatusCode partResp = 200 ->
  backend env (S (S (List.length (sent st))))
    (OpUploadPart key uploadId 2 (takeZ (dropZ data PartSize) PartSize))
  = Err msg ->
  let stateKey := checkpoint_key repoName (takeZ data IdentifyChunkSize) in
  ResumableMultipartUpload env st repoName key (MkBody data EndEOF)
  = ((Some (MkResult PartSize false (Some state1) EmptyString),
      Some ("backend limit reached after 1 parts: " +:+ msg)),
     SaveMultipartState env
       (MkSt (kv st)
             (sent st ++ [OpInitiate key; OpUploadPart key uploadId 1 first_part;
                          OpUploadPart key uploadId 2
                            (takeZ (dropZ data PartSize) PartSize)])
             (kv_calls st ++ [KvLookup (completed_kv_key stateKey);
                              KvLookup (multipart_kv_key stateKey)]))
       stateKey state1,
     MkBody (dropZ (dropZ data PartSize) PartSize) EndEOF).
Proof.
  intros Hcreds Hurl Hlen Hopen Hfresh first_part state1
         Hinit Hi200 Hiread Huid Hpart Hp200 Hfail stateKey.
  pose proof PartSize_value as HP. pose proof IdentifyChunkSize_value as HI.
  set (idata := takeZ data IdentifyChunkSize) in *.
  set (rest := dropZ data IdentifyChunkSize) in *.
  assert (Hid : lenZ idata = 1048576) by (apply lenZ_takeZ; lia).
  assert (Hrest : lenZ rest = lenZ data - 1048576)
    by (unfold rest; rewrite lenZ_dropZ; lia).
  destruct (probe_fresh env st repoName key idata Hopen Hfresh)
    as [Hcheck Hprobe].
  set (st2 := MkSt (kv st) (sent st)
                (kv_calls st
                   ++ [KvLookup (completed_kv_key (checkpoint_key repoName idata));
                       KvLookup (multipart_kv_key (checkpoint_key repoName idata))]))
    in *.
  pose proof (fresh_start_ok env cr Hcreds Hurl key uploadId st2
                (fingerprint (S3Auth.sha256Hex idata)) idata rest EndEOF
                initResp partResp) as Hfs.
  rewrite Hid, HP in Hfs. cbn [st2 sent kv kv_calls] in Hfs.
  specialize (Hfs ltac:(lia) ltac:(lia) Hinit Hi200 Hiread Huid Hpart Hp200).
  change (idata ++ takeZ rest (16777216 - 1048576)) with first_part in Hfs.
  assert (Hrest2 : dropZ rest (16777216 - 1048576) = dropZ data PartSize).
  { unfold rest. rewrite HI, HP, dropZ_dropZ by lia. reflexivity. }
  rewrite Hrest2 in Hfs.
  unfold ResumableMultipartUpload.
  rewrite ReadFull_full by (cbn [b_data]; lia).
  cbn [b_data b_end]. fold idata. fold rest.
  fold (checkpoint_key repoName idata).
  rewrite Hcheck, Hprobe. cbn [p_key p_resumed]. fold st2.
  rewrite Hfs. cbn [S3UploadId].
  change (Z.to_nat (MaxPartsPerRequest - 1)) with 27%nat.
  rewrite (loop_network_failure env cr _ key uploadId 26 1 _ _ _ msg
             Hcreds Hurl).
  - cbn [BytesUploaded NextPartNumber sent kv kv_calls st2].
    rewrite <- List.app_assoc. reflexivity.
  - rewrite lenZ_dropZ; lia.
  - cbn [sent NextPartNumber]. rewrite List.length_app. cbn [List.length].
    rewrite Nat.add_comm. exact Hfail.
Qed.

End BackendFailure.

(** C1, as the code has it. When an upload-part request of the main loop
    fails at the network level during a chunked PATCH, the engine does save
    the multipart checkpoint with the parts uploaded so far and returns
    that progress together with the error; but [handleUploadChunk] looks at
    the error first, so the client receives 500 [UNSUPPORTED], not 202 with
    a [Range] header, and the session record is not updated. *)
Theorem upload_part_failure_is_saved_but_answered_500 :
  forall (env : Env) (st : St) (r : Uploads.HttpReq) (name uploadUUID : string)
         (session : UploadSession) (res : Multipart.MultipartUploadResult)
         (err : string) (st' : St) (rest : Body),
    kv_open_err env = None ->
    kv_sessions (kv st) !! Uploads.session_kv_key uploadUUID = Some (Ok session) ->
    BytesReceived session <= 0 ->
    S3Auth.hget "Transfer-Encoding" (Uploads.req_headers r) = "chunked" ->
    Uploads.Sscanf_d (S3Auth.hget "Content-Length" (Uploads.req_headers r)) = 0 ->
    Multipart.ResumableMultipartUpload env
      (kv_call st (KvLookup (Uploads.session_kv_key uploadUUID)) (kv st))
      name (TempLocation session +:+ "/data") (Uploads.req_body r)
    = ((Some res, Some err), st', rest) ->
    failed_part_exit env
      (checkpoint_key name
         (fst (fst (ReadFull (Uploads.req_body r) Multipart.IdentifyChunkSize))))
      res err st'
    /\ Uploads.handleUploadChunk env st r name uploadUUID
       = (Failed (MkOCIError "UNSUPPORTED" ("Multipart upload failed: " +:+ err)
                             EmptyString 500),
          st', rest)
    /\ client_status (fst (fst (Uploads.handleUploadChunk env st r name uploadUUID)))
       = Some 500.
Proof.
  intros env st r name uploadUUID session res err st' rest
         Hopen Hsess Hzero Hte Hcl Hrun.
  assert (Hh : Uploads.handleUploadChunk env st r name uploadUUID
               = (Failed (MkOCIError "UNSUPPORTED"
                            ("Multipart upload failed: " +:+ err) EmptyString 500),
                  st', rest)).
  { unfold Uploads.handleUploadChunk, Uploads.lookup_session.
    rewrite Hopen, Hsess, Hte, Hcl. cbv beta iota.
    destruct (Z.ltb_spec 0 (BytesReceived session)); [lia |].
    replace (String.eqb "chunked" "chunked") with true by reflexivity.
    cbn [andb Z.eqb]. rewrite Hrun. reflexivity. }
  split; [| split; [exact Hh | now rewrite Hh]].
  destruct (engine_result_with_error _ _ _ _ _ _ _ _ _ Hrun) as (idata & <- & Hexit).
  exact Hexit.
Qed.

Lemma upload_part_failure_is_saved_but_answered_500_witness :
  exists (st' : St) (rest : Body),
    Uploads.handleUploadChunk Samples.env_flaky (Samples.st_with_session 0)
      (Samples.chunked_request Samples.layer_16MiB_1) "library/app" "0b2f"
    = (Failed
         (MkOCIError "UNSUPPORTED"
            "Multipart upload failed: backend limit reached after 1 parts: connection reset"
            EmptyString 500),
       st', rest)
    /\ (exists state,
          kv_multipart (kv st')
            !! Multipart.multipart_kv_key
                 (checkpoint_key "library/app"
                    (takeZ Samples.layer_16MiB_1 Multipart.IdentifyChunkSize))
          = Some (Ok state)
          /\ CompletedParts state = [MkPart 1 "etag-1"]
          /\ BytesUploaded state = 16777216)
    /\ kv_sessions (kv st') !! "uploads/0b2f" = Some (Ok (Samples.session 0)).
Proof.
  assert (Hlen : lenZ Samples.layer_16MiB_1 = 16777217)
    by (apply lenZ_repeat; lia).
  assert (Hlt : Multipart.PartSize < lenZ Samples.layer_16MiB_1)
    by (rewrite Hlen; reflexivity).
  assert (Hfresh : fresh_for
                     (kv_call (Samples.st_with_session 0) (KvLookup "uploads/0b2f")
                        (kv (Samples.st_with_session 0)))
                     "library/app"
                     (takeZ Samples.layer_16MiB_1 Multipart.IdentifyChunkSize)).
  { split; [apply lookup_empty |].
    intros cp Hcp. exfalso. revert Hcp.
    change (kv_multipart
              (kv (kv_call (Samples.st_with_session 0) (KvLookup "uploads/0b2f")
                     (kv (Samples.st_with_session 0)))))
      with (∅ : gmap string (res MultipartState)).
    rewrite lookup_empty. discriminate. }
  pose proof (engine_second_part_failure Samples.env_flaky
                (S3Auth.MkCreds "AKIDEXAMPLE" "secret")
                (kv_call (Samples.st_with_session 0) (KvLookup "uploads/0b2f")
                   (kv (Samples.st_with_session 0)))
                "library/app" "uploads/library/app/0b2f/data"
                Samples.layer_16MiB_1
                (MkResponse 200 "etag-1" EmptyString None)
                (MkResponse 200 "etag-1" EmptyString None)
                "upload-1" "connection reset"
                eq_refl (fun _ => eq_refl) Hlt eq_refl Hfresh) as Hrun.
  cbv zeta in Hrun.
  specialize (Hrun eq_refl eq_refl eq_refl eq_refl eq_refl eq_refl eq_refl).
  destruct (upload_part_failure_is_saved_but_answered_500 Samples.env_flaky
              (Samples.st_with_session 0)
              (Samples.chunked_request Samples.layer_16MiB_1)
              "library/app" "0b2f" (Samples.session 0) _ _ _ _
              eq_refl ltac:(vm_compute; reflexivity) ltac:(discriminate)
              eq_refl eq_refl Hrun)
    as (_ & Hh & _).
  eexists _, _. split; [exact Hh |]. split.
  - eexists. split.
    + unfold Multipart.SaveMultipartState. cbn [kv_open_err Samples.env_flaky].
      cbv beta iota. unfold kv_call. cbn [kv kv_multipart].
      apply lookup_insert_eq.
    + split; reflexivity.
  - unfold Multipart.SaveMultipartState. cbn [kv_open_err Samples.env_flaky].
    cbv beta iota. unfold kv_call. cbn [kv kv_sessions].
    vm_compute. reflexivity.
Defined.

(* ===================================================================== *)
(** * Further properties of the code                                    *)
(* ===================================================================== *)

(** ** The content hash *)

Section ContentHash.

Lemma length_compress (h block : list Z) :
  List.length (Crypto.compress h block) = 8%nat.
Proof. reflexivity. Qed.

Lemma length_blocks (n : nat) (h ws : list Z) :
  List.length h = 8%nat -> List.length (Crypto.blocks n h ws) = 8%nat.
Proof.
  revert h ws. induction n as [|n IH]; intros h ws Hh; [exact Hh |].
  cbn [Crypto.blocks]. destruct ws as [|w ws]; [exact Hh |].
  apply IH, length_compress.
Qed.

Lemma length_be_words (l : list Z) :
  List.length (List.flat_map (Crypto.be_bytes 4) l) = (4 * List.length l)%nat.
Proof.
  induction l as [|x l IH]; [reflexivity |].
  cbn [List.flat_map]. rewrite List.length_app, IH.
  cbn [Crypto.be_bytes List.length]. lia.
Qed.

Lemma length_sha256 (data : list byte) :
  List.length (Crypto.sha256 data) = 32%nat.
Proof.
  unfold Crypto.sha256. cbv zeta.
  rewrite length_be_words, length_blocks; reflexivity.
Qed.

Lemma length_hex_encode (bs : list byte) :
  String.length (Crypto.hex_encode bs) = (2 * List.length bs)%nat.
Proof.
  induction bs as [|b bs IH]; [reflexivity |].
  cbn [Crypto.hex_encode String.length List.length]. rewrite IH. lia.
Qed.

Lemma length_sha256Hex (data : list byte) :
  String.length (S3Auth.sha256Hex data) = 64%nat.
Proof.
  unfold S3Auth.sha256Hex. now rewrite length_hex_encode, length_sha256.
Qed.

Lemma lower_hex_substring (s : string) (n m : nat) :
  Spec.lower_hex s = true -> Spec.lower_hex (String.substring n m s) = true.
Proof.
  revert n m. induction s as [|c s IH]; intros n m H.
  - now destruct n, m.
  - cbn [Spec.lower_hex] in H. apply andb_prop in H as [Hc Hs].
    destruct n as [|n]; destruct m as [|m]; cbn [String.substring Spec.lower_hex];
      try reflexivity; try (now apply IH).
    rewrite Hc. cbn [andb]. now apply IH.
Qed.

Lemma length_substring (s : string) (n m : nat) :
  (n + m <= String.length s)%nat -> String.length (String.substring n m s) = m.
Proof.
  revert n m. induction s as [|c s IH]; intros n m H.
  - cbn in H. now destruct n, m.
  - destruct n as [|n]; destruct m as [|m]; cbn [String.substring String.length] in *;
      try reflexivity.
    + f_equal. apply IH. lia.
    + apply IH. lia.
    + apply IH. lia.
Qed.

End ContentHash.

(** X1. The content hash [sha256Hex] computes has 64 characters, all
    lowercase hexadecimal digits, whatever the data; so the slice
    [contentHash[:16]] the engine takes as the fingerprint is always in
    range and is 16 lowercase hexadecimal digits. *)
Theorem content_hash_has_64_hex_digits_and_a_16_digit_fingerprint :
  forall data : list byte,
    len (S3Auth.sha256Hex data) = 64
    /\ Spec.lower_hex (S3Auth.sha256Hex data) = true
    /\ slice_to (S3Auth.sha256Hex data) 16
       = Some (Multipart.fingerprint (S3Auth.sha256Hex data))
    /\ len (Multipart.fingerprint (S3Auth.sha256Hex data)) = 16
    /\ Spec.lower_hex (Multipart.fingerprint (S3Auth.sha256Hex data)) = true.
Proof.
  intros data.
  pose proof (length_sha256Hex data) as Hl.
  assert (Hhex : Spec.lower_hex (S3Auth.sha256Hex data) = true)
    by apply hex_encode_lower.
  generalize dependent (S3Auth.sha256Hex data). intros h Hl Hhex.
  unfold Multipart.fingerprint, slice_to, len.
  repeat split.
  - now rewrite Hl.
  - exact Hhex.
  - rewrite slice_in_range; unfold len; rewrite ?Hl; try lia. reflexivity.
  - rewrite length_substring; [reflexivity | lia].
  - now apply lower_hex_substring.
Qed.

(** ** Validators *)

Section Validators.

Import Security.

Lemma isValidNameChar_ascii (c : ascii) :
  isValidNameChar c = true -> (code_of c <? 128) = true.
Proof.
  destruct c as [b0 b1 b2 b3 b4 b5 b6 b7].
  destruct b7, b6, b5, b4, b3, b2, b1, b0; vm_compute; congruence.
Qed.

Lemma isValidTagChar_ascii (c : ascii) :
  isValidTagChar c = true -> (code_of c <? 128) = true.
Proof.
  destruct c as [b0 b1 b2 b3 b4 b5 b6 b7].
  destruct b7, b6, b5, b4, b3, b2, b1, b0; vm_compute; congruence.
Qed.

Lemma first_bad_rune_all_chars (ok : ascii -> bool) (s : string) :
  (forall c, ok c = true -> (code_of c <? 128) = true) ->
  first_bad_rune ok s = None <-> all_chars ok s = true.
Proof.
  intros Hok. induction s as [|c s IH]; [easy |].
  cbn [first_bad_rune all_chars].
  destruct (ok c) eqn:Hc.
  - rewrite (Hok c Hc). cbn [andb]. exact IH.
  - rewrite andb_false_r. cbn [andb]. split; discriminate.
Qed.

Lemma Contains_char (ok : ascii -> bool) (s : string) (c : ascii) :
  all_chars ok s = true -> ok c = false ->
  Contains s (String c EmptyString) = false.
Proof.
  intros Hs Hc. induction s as [|x s IH]; [reflexivity |].
  cbn [all_chars] in Hs. apply andb_prop in Hs as [Hx Hs].
  cbn [Contains String.prefix].
  destruct (ascii_dec c x) as [-> | _]; [congruence |].
  cbn [orb]. now apply IH.
Qed.

Lemma eqb_empty (s : string) :
  String.eqb s EmptyString = false <-> s <> EmptyString.
Proof. destruct s; cbn; split; congruence. Qed.

End Validators.

(** X2. [ValidateRepositoryName] accepts a name exactly when it is not
    empty, has at most 256 bytes, does not contain [..] and consists of
    lowercase letters, digits and the separators [. _ - /] only; every
    rejection is [NAME_INVALID] with status 400. *)
Theorem repository_name_is_accepted_exactly_when_well_formed :
  forall name : string,
    (Security.ValidateRepositoryName name = None <->
       name <> EmptyString /\ len name <= 256
       /\ Security.Contains name ".." = false
       /\ all_chars Security.isValidNameChar name = true)
    /\ (forall e, Security.ValidateRepositoryName name = Some e ->
          Code e = "NAME_INVALID" /\ Status e = 400).
Proof.
  intros name. unfold Security.ValidateRepositoryName. split; [split |].
  - destruct (String.eqb name EmptyString) eqn:He; [discriminate |].
    destruct (Z.ltb_spec 256 (len name)) as [|Hl]; [discriminate |].
    destruct (Security.Contains name "..") eqn:Hdots; [discriminate |].
    destruct (Security.Contains name (String _ EmptyString)); [discriminate |].
    destruct (Security.first_bad_rune _ name) eqn:Hbad;
      [cbv beta iota; discriminate |].
    intros _. repeat split; try easy.
    + now apply eqb_empty.
    + now apply (first_bad_rune_all_chars _ _ isValidNameChar_ascii).
  - intros (He & Hl & Hdots & Hall).
    apply eqb_empty in He. rewrite He.
    destruct (Z.ltb_spec 256 (len name)); [lia |].
    pose proof (Contains_char _ name (ascii_of_nat 0) Hall eq_refl) as Hnul.
    rewrite Hdots, Hnul.
    apply (first_bad_rune_all_chars _ _ isValidNameChar_ascii) in Hall.
    now rewrite Hall.
  - intros e.
    repeat (match goal with
            | |- context [match ?x with _ => _ end] => destruct x
            end);
      intros [= <-]; split; reflexivity.
Qed.

(** X3. [ValidateReference] accepts a reference exactly when it is a
    digest [sha256:<64 hexadecimal characters>], or a tag: not empty, not
    starting with [sha256:], at most 128 bytes, of letters, digits and
    [. _ -] only. A reference that starts with [sha256:] is never taken as
    a tag. *)
Theorem reference_is_accepted_exactly_when_digest_or_tag :
  forall reference : string,
    Security.ValidateReference reference = None <->
      Spec.digest_form reference
      \/ (reference <> EmptyString
          /\ HasPrefix reference "sha256:" = false
          /\ len reference <= 128
          /\ all_chars Security.isValidTagChar reference = true).
Proof.
  intros reference. unfold Security.ValidateReference. split.
  - destruct (String.eqb reference EmptyString) eqn:He; [discriminate |].
    destruct (HasPrefix reference "sha256:") eqn:Hp.
    + intros H. left. now apply ValidateDigestFormat_accepts.
    + destruct (Z.ltb_spec 128 (len reference)) as [|Hl]; [discriminate |].
      destruct (Security.first_bad_rune _ reference) eqn:Hbad;
        [cbv beta iota; discriminate |].
      intros _. right. repeat split; try easy.
      * now apply eqb_empty.
      * now apply (first_bad_rune_all_chars _ _ isValidTagChar_ascii).
  - intros [Hd | (He & Hp & Hl & Hall)].
    + pose proof Hd as (h & -> & _).
      replace (String.eqb ("sha256:" +:+ h) EmptyString) with false by reflexivity.
      unfold HasPrefix. rewrite prefix_append.
      now apply ValidateDigestFormat_accepts.
    + apply eqb_empty in He. rewrite He, Hp.
      destruct (Z.ltb_spec 128 (len reference)); [lia |].
      apply (first_bad_rune_all_chars _ _ isValidTagChar_ascii) in Hall.
      now rewrite Hall.
Qed.

(** ** The plain signer *)

Lemma plain_canonical_last_line (c : S3Auth.Config) (k : S3Auth.Clock)
    (method key contentType : string) :
  last_line_is (S3Auth.plain_canonicalRequest c k method key contentType)
               (S3Auth.plain_payloadHash contentType).
Proof.
  unfold S3Auth.plain_canonicalRequest. cbv zeta.
  generalize (S3Auth.plain_payloadHash contentType). intros ph.
  destruct (negb (String.eqb contentType EmptyString)); last_line.
Qed.

(** X4. Every request [signRequest] produces (GET, HEAD, DELETE and
    plain PUT) carries in [x-amz-content-sha256] the payload hash that
    ends the canonical request it signs: the hash of the empty body when
    no content type is given, the literal [UNSIGNED-PAYLOAD] otherwise.
    Its [Authorization] header is the one computed from that canonical
    request, and [Content-Type] is set exactly when a content type is
    given. *)
Theorem plain_signer_sends_the_payload_hash_it_signs :
  forall (e : S3Auth.SignEnv) (method key contentType : string)
         (req : S3Auth.Request),
    S3Auth.signRequest e method key contentType = Ok req ->
    let payloadHash :=
      if String.eqb contentType EmptyString
      then "e3b0c44298fc1c149afbf4c8996fb92427ae41e4649b934ca495991b7852b855"
      else "UNSIGNED-PAYLOAD" in
    let signedHeaders :=
      if String.eqb contentType EmptyString
      then "host;x-amz-content-sha256;x-amz-date"
      else "content-type;host;x-amz-content-sha256;x-amz-date" in
    let canonicalRequest :=
      S3Auth.plain_canonicalRequest (S3Auth.cfg e) (S3Auth.clock e)
        method key contentType in
    S3Auth.Method req = method
    /\ S3Auth.URL req
       = "https://" +:+ S3Auth.FastlyOSHost (S3Auth.cfg e) +:+ "/"
           +:+ S3Auth.S3Bucket (S3Auth.cfg e) +:+ "/" +:+ key
    /\ S3Auth.hget "x-amz-content-sha256" (S3Auth.Hdr req) = payloadHash
    /\ last_line_is canonicalRequest payloadHash
    /\ S3Auth.hget "Content-Type" (S3Auth.Hdr req) = contentType
    /\ exists cr,
         S3Auth.creds e = Ok cr
         /\ S3Auth.hget "Authorization" (S3Auth.Hdr req)
            = S3Auth.authHeader_of (S3Auth.cfg e) cr (S3Auth.clock e)
                signedHeaders canonicalRequest.
Proof.
  intros e method key contentType req Hsign. cbv zeta.
  pose proof (plain_canonical_last_line (S3Auth.cfg e) (S3Auth.clock e)
                method key contentType) as Hlast.
  revert Hsign.
  unfold S3Auth.signRequest, S3Auth.with_credentials, S3Auth.NewRequest.
  destruct (S3Auth.creds e) as [cr|]; [|discriminate].
  cbv zeta. destruct (S3Auth.url_err e _); [discriminate |].
  intros H. injection H as <-.
  unfold S3Auth.plain_payloadHash in *.
  destruct (String.eqb_spec contentType EmptyString) as [Heq | Hne];
    [subst contentType |]; cbn [negb] in *.
  - rewrite sha256Hex_empty in *.
    do 3 (split; [reflexivity |]). split; [exact Hlast |].
    split; [reflexivity |]. exists cr. split; reflexivity.
  - do 3 (split; [reflexivity |]). split; [exact Hlast |].
    split; [| exists cr; split; reflexivity].
    cbn [S3Auth.Hdr S3Auth.set_headers List.fold_left fst snd S3Auth.hset
         S3Auth.hget String.eqb Ascii.eqb Bool.eqb].
    reflexivity.
Qed.

Lemma plain_signer_sends_the_payload_hash_it_signs_witness :
  exists req,
    S3Auth.signRequest Samples.signer "PUT" Samples.temp_object
      "application/octet-stream" = Ok req
    /\ S3Auth.hget "x-amz-content-sha256" (S3Auth.Hdr req) = "UNSIGNED-PAYLOAD"
    /\ S3Auth.hget "Content-Type" (S3Auth.Hdr req) = "application/octet-stream".
Proof.
  eexists. split; [vm_compute; reflexivity |].
  match goal with
  | |- S3Auth.hget _ (S3Auth.Hdr ?r) = _ /\ _ =>
      pose proof (plain_signer_sends_the_payload_hash_it_signs Samples.signer
                    "PUT" Samples.temp_object "application/octet-stream" r
                    ltac:(vm_compute; reflexivity)) as H
  end.
  cbv zeta in H. destruct H as (_ & _ & H1 & _ & H2 & _).
  split; [exact H1 | exact H2].
Defined.

(** ** What the engine returns *)

Section EngineOutput.

Import Multipart.

(** Split the engine into its exits. *)
Ltac engine_paths :=
  unfold ResumableMultipartUpload;
  destruct (ReadFull _ IdentifyChunkSize) as [[idata e] body1] eqn:Hread;
  destruct e as [[| |m]|];
  try (destruct (check_completed _ _ _) as [[ck|] st1] eqn:Hcc);
  try (destruct (resume_probe _ _ _ _ _) as [probe st2] eqn:Hprobe;
       destruct (p_resumed probe) as [state|] eqn:Hres;
       [destruct (0 <? p_bytes probe) eqn:Hbytes |
        destruct (fresh_start _ _ _ _ _ _) as [[[state|msg] st3] body3]
          eqn:Hfresh]);
  try (destruct (upload_loop _ _ _ _ _ _ _ _ _)
         as [[[state'|out'] st4] body4] eqn:Hloop);
  try (destruct (finish _ _ _ _ _ _ _) as [[out5 st5] body5] eqn:Hfin);
  cbv beta iota.

Lemma sound_result (res : MultipartUploadResult) (err : option string) :
  well_shaped res -> sound_out (Some res, err).
Proof. intros H. split; [discriminate | now intros ? [= <-]]. Qed.

Lemma sound_error (msg : string) : sound_out (None, Some msg).
Proof. split; [discriminate | now intros ? [=]]. Qed.

Lemma loop_sound env stateKey key uploadId (f : nat) :
  forall n state st body out st' rest,
    upload_loop env f n stateKey key uploadId state st body
    = (Return out, st', rest) ->
    sound_out out.
Proof.
  induction f as [|f IH]; intros n state st body out st' rest;
    [discriminate |].
  cbn [upload_loop].
  destruct (ReadFull body PartSize) as [[partData e] body1].
  destruct e as [[| |m]|]; try (intros; simplify_eq; apply sound_error).
  all: destruct (S3Auth.SignUploadPart _ _ _ _ _) as [req|m'];
    [| intros; simplify_eq; apply sound_error].
  all: unfold send; cbn [sent kv kv_calls];
    destruct (backend env _ _) as [partResp|msg].
  all: try (destruct (negb (StatusCode partResp =? 200));
            [intros; simplify_eq; apply sound_error
            | intros H; eapply IH; exact H]).
  all: intros [= <- <- <-]; apply sound_result; cbn; eauto.
Qed.

Lemma finish_sound env stateKey key uploadId state st body out st' rest :
  finish env stateKey key uploadId state st body = (out, st', rest) ->
  sound_out out.
Proof.
  unfold finish.
  repeat (next_case; simplify_eq/=); intros; simplify_eq;
    first [apply sound_error | apply sound_result; cbn; eauto].
Qed.

Lemma probe_bytes env st stateKey fp key probe st' state :
  resume_probe env st stateKey fp key = (probe, st') ->
  p_resumed probe = Some state ->
  p_bytes probe = BytesUploaded state.
Proof.
  unfold resume_probe.
  repeat (next_case; simplify_eq/=); intros; simplify_eq/=; reflexivity.
Qed.

Lemma engine_sound env st repoName key body out st' rest :
  ResumableMultipartUpload env st repoName key body = (out, st', rest) ->
  sound_out out.
Proof.
  engine_paths; intros [= <- <- <-];
    try (eapply loop_sound; exact Hloop);
    try (eapply finish_sound; exact Hfin);
    try apply sound_error;
    apply sound_result; cbn; eauto.
  all: exists state; split; [reflexivity |];
    split; [eapply probe_bytes; eassumption | reflexivity].
Qed.

End EngineOutput.

(** X6. The engine never returns a nil result without an error, so
    neither [handleUploadChunk], which reads [result.CompletedKey] once
    the error is nil, nor the wrapper [MultipartUpload] can dereference
    nil: a PATCH never ends in a panic. *)
Theorem upload_chunk_never_dereferences_a_nil_result :
  forall (env : Env) (st : St) (r : Uploads.HttpReq) (name uploadUUID key : string)
         (body : Body),
    fst (fst (Uploads.handleUploadChunk env st r name uploadUUID)) <> Panic
    /\ fst (fst (Lifecycle.MultipartUpload env st key body)) <> None.
Proof.
  intros env st r name uploadUUID key body. split.
  - unfold Uploads.handleUploadChunk, Uploads.unsupported, Uploads.accepted.
    destruct (kv_open_err env); [discriminate |].
    unfold Uploads.lookup_session. cbv beta iota.
    destruct (kv_sessions (kv st) !! _) as [[session|]|]; [| discriminate ..].
    destruct (_ && _); [discriminate |].
    destruct (_ && _).
    + destruct (Multipart.ResumableMultipartUpload _ _ _ _ _)
        as [[out st1] body1] eqn:Hrun.
      apply engine_sound in Hrun as [Hnil _].
      destruct out as [[res|] [err|]]; try discriminate; [| congruence].
      repeat (next_case; simplify_eq/=); discriminate.
    + repeat (next_case; simplify_eq/=); discriminate.
  - unfold Lifecycle.MultipartUpload.
    destruct (Multipart.ResumableMultipartUpload _ _ _ _ _)
      as [[out st1] body1] eqn:Hrun.
    apply engine_sound in Hrun as [Hnil _].
    destruct out as [[res|] [err|]]; try discriminate. congruence.
Qed.

(** X7. Every result the engine returns reports completion exactly when
    it carries no checkpoint; an incomplete result carries the checkpoint
    whose byte count it reports and names no completed key. *)
Theorem engine_results_are_well_shaped :
  forall (env : Env) (st : St) (repoName key : string) (body : Body)
         (res : Multipart.MultipartUploadResult) (err : option string)
         (st' : St) (rest : Body),
    Multipart.ResumableMultipartUpload env st repoName key body
    = ((Some res, err), st', rest) ->
    well_shaped res.
Proof.
  intros env st repoName key body res err st' rest Hrun.
  apply engine_sound in Hrun as [_ H]. now apply H.
Qed.

Lemma engine_results_are_well_shaped_witness :
  well_shaped (Multipart.MkResult 11 true None Samples.temp_object).
Proof.
  apply (engine_results_are_well_shaped Samples.env (Samples.st_with_session 0)
           "library/app" Samples.temp_object (MkBody Samples.layer EndEOF)
           (Multipart.MkResult 11 true None Samples.temp_object) None
           (snd (fst (Multipart.ResumableMultipartUpload Samples.env
                        (Samples.st_with_session 0) "library/app"
                        Samples.temp_object (MkBody Samples.layer EndEOF))))
           (snd (Multipart.ResumableMultipartUpload Samples.env
                   (Samples.st_with_session 0) "library/app"
                   Samples.temp_object (MkBody Samples.layer EndEOF)))).
  vm_compute. reflexivity.
Defined.

(** ** The backend budget of one invocation *)

Section Budget.

Import Multipart.

Lemma sends_refl n parts st st' : sent st' = sent st -> sends_at_most n parts st st'.
Proof.
  intros H. exists []. rewrite H, app_nil_r. cbn. repeat split; lia.
Qed.

Lemma sends_trans n1 p1 n2 p2 st st1 st2 :
  sends_at_most n1 p1 st st1 -> sends_at_most n2 p2 st1 st2 ->
  sends_at_most (n1 + n2) (p1 + p2) st st2.
Proof.
  intros (a & Ha & Hna & Hpa) (b & Hb & Hnb & Hpb). exists (a ++ b).
  rewrite Hb, Ha, <- app_assoc, List.filter_app, !List.length_app.
  repeat split; lia.
Qed.

Lemma sends_mono n p n' p' st st' :
  (n <= n')%nat -> (p <= p')%nat ->
  sends_at_most n p st st' -> sends_at_most n' p' st st'.
Proof.
  intros Hn Hp (a & Ha & Hna & Hpa). exists a. repeat split; [exact Ha | lia ..].
Qed.

(** Close a goal whose final log is spelled out. *)
Ltac sends_done :=
  unfold sends_at_most;
  repeat first [ rewrite sent_DeleteMultipartState
               | rewrite sent_SaveMultipartState
               | rewrite sent_SaveCompletedUpload
               | rewrite sent_DeleteCompletedUpload ];
  cbn [sent kv_call snd fst]; rewrite <- ?app_assoc;
  first [ exists []; rewrite app_nil_r; cbn; repeat split; lia
        | eexists; split; [reflexivity | cbn; split; lia] ].

Lemma check_completed_sends env st stateKey o st1 :
  check_completed env st stateKey = (o, st1) -> sends_at_most 1 0 st st1.
Proof.
  unfold check_completed, LoadCompletedUpload, send.
  repeat (next_case; simplify_eq/=); intros; simplify_eq/=; sends_done.
Qed.

Lemma resume_probe_sends env st stateKey fp key probe st1 :
  resume_probe env st stateKey fp key = (probe, st1) -> sends_at_most 1 0 st st1.
Proof.
  unfold resume_probe, LoadMultipartState, send.
  repeat (next_case; simplify_eq/=); intros; simplify_eq/=; sends_done.
Qed.

Lemma fresh_start_sends env st fp key idata body started st1 rest :
  fresh_start env st fp key idata body = (started, st1, rest) ->
  sends_at_most 2 1 st st1.
Proof.
  unfold fresh_start, send.
  repeat (next_case; simplify_eq/=); intros; simplify_eq/=; sends_done.
Qed.

Lemma loop_sends env stateKey key uploadId (f : nat) :
  forall n state st body exit st' rest,
    upload_loop env f n stateKey key uploadId state st body = (exit, st', rest) ->
    sends_at_most f f st st'.
Proof.
  induction f as [|f IH]; intros n state st body exit st' rest.
  - intros [= <- <- <-]. now apply sends_refl.
  - cbn [upload_loop].
    destruct (ReadFull body PartSize) as [[partData e] body1].
    destruct e as [[| |m]|]; try (intros; simplify_eq; sends_done).
    all: destruct (S3Auth.SignUploadPart _ _ _ _ _) as [req|m'];
      [| intros; simplify_eq; sends_done].
    all: unfold send; cbn [sent kv kv_calls];
      destruct (backend env _ _) as [partResp|msg];
      [| intros; simplify_eq; sends_done].
    all: destruct (negb (StatusCode partResp =? 200));
      [intros; simplify_eq; sends_done |].
    all: intros H; apply IH in H;
      apply (sends_trans 1 1 f f st
               (MkSt (kv st)
                  (sent st ++ [OpUploadPart key uploadId (NextPartNumber state)
                                 partData]) (kv_calls st)) st');
      [sends_done | exact H].
Qed.

Lemma finish_sends env stateKey key uploadId state st body out st' rest :
  finish env stateKey key uploadId state st body = (out, st', rest) ->
  sends_at_most 1 0 st st'.
Proof.
  unfold finish, send.
  repeat (next_case; simplify_eq/=); intros; simplify_eq/=; sends_done.
Qed.

Lemma engine_sends env st repoName key body out st' rest :
  ResumableMultipartUpload env st repoName key body = (out, st', rest) ->
  sends_at_most 32 28 st st'.
Proof.
  unfold ResumableMultipartUpload;
  destruct (ReadFull _ IdentifyChunkSize) as [[idata e] body1] eqn:Hread;
  destruct e as [[| |m]|];
  try (destruct (check_completed _ _ _) as [[ck|] st1] eqn:Hcc;
       apply check_completed_sends in Hcc);
  try (destruct (resume_probe _ _ _ _ _) as [probe st2] eqn:Hprobe;
       apply resume_probe_sends in Hprobe;
       destruct (p_resumed probe) as [state|] eqn:Hres;
       [destruct (0 <? p_bytes probe) eqn:Hbytes |
        destruct (fresh_start _ _ _ _ _ _) as [[[state|msg] st3] body3]
          eqn:Hfresh; apply fresh_start_sends in Hfresh]);
  try (destruct (upload_loop _ _ _ _ _ _ _ _ _)
         as [[[state'|out'] st4] body4] eqn:Hloop;
       apply loop_sends in Hloop);
  try (destruct (finish _ _ _ _ _ _ _) as [[out5 st5] body5] eqn:Hfin;
       apply finish_sends in Hfin);
  cbv beta iota; intros [= <- <- <-];
  try (now apply sends_refl).
  all: change (Z.to_nat (MaxPartsPerRequest - 1)) with 27%nat in *.
  all: repeat match goal with
       | H1 : sends_at_most _ _ ?a ?b, H2 : sends_at_most _ _ ?b ?c |- _ =>
           pose proof (sends_trans _ _ _ _ _ _ _ H1 H2); clear H1 H2
       end.
  all: eapply sends_mono; [| | eassumption]; cbn; lia.
Qed.

End Budget.

(** X8. One PATCH never sends more than 32 requests to the object store,
    the limit of backend requests of one invocation, and at most 28 of
    them upload a part; the log of requests only grows. The same bounds
    hold of the engine alone. *)
Theorem upload_chunk_stays_within_the_backend_budget :
  forall (env : Env) (st : St) (r : Uploads.HttpReq) (name uploadUUID : string)
         (o : Outcome) (st' : St) (rest : Body),
    Uploads.handleUploadChunk env st r name uploadUUID = (o, st', rest) ->
    sends_at_most 32 28 st st'.
Proof.
  intros env st r name uploadUUID o st' rest.
  unfold Uploads.handleUploadChunk.
  destruct (kv_open_err env); [intros [= <- <- <-]; now apply sends_refl |].
  unfold Uploads.lookup_session. cbv beta iota.
  destruct (kv_sessions (kv st) !! _) as [[session|]|];
    [| intros [= <- <- <-]; now apply sends_refl ..].
  destruct (_ && _); [intros [= <- <- <-]; now apply sends_refl |].
  destruct (_ && _).
  - destruct (Multipart.ResumableMultipartUpload _ _ _ _ _)
      as [[out st1] body1] eqn:Hrun.
    apply engine_sends in Hrun. destruct Hrun as (new & Hnew & Hn & Hp).
    assert (Hsent : forall k s, sent (Uploads.insert_session st1 k s) = sent st1)
      by reflexivity.
    repeat (next_case; simplify_eq/=); intros; simplify_eq/=;
      exists new; rewrite ?Hsent; repeat split; assumption.
  - unfold send.
    repeat (next_case; simplify_eq/=); intros; simplify_eq/=;
      unfold sends_at_most; cbn [sent Uploads.insert_session kv_call];
      first [ exists []; rewrite app_nil_r; cbn; repeat split; lia
            | eexists; split; [reflexivity | cbn; split; lia] ].
Qed.

Lemma upload_chunk_stays_within_the_backend_budget_witness :
  sends_at_most 32 28 (Samples.st_with_session 0)
    (snd (fst (Uploads.handleUploadChunk Samples.env (Samples.st_with_session 0)
                 (Samples.chunked_request Samples.layer) "library/app" "0b2f"))).
Proof.
  apply (upload_chunk_stays_within_the_backend_budget Samples.env
           (Samples.st_with_session 0) (Samples.chunked_request Samples.layer)
           "library/app" "0b2f"
           (Wrote 202 (accepted_headers "library/app" "0b2f" "0-0"))
           (snd (fst (Uploads.handleUploadChunk Samples.env
                        (Samples.st_with_session 0)
                        (Samples.chunked_request Samples.layer)
                        "library/app" "0b2f")))
           (MkBody [] EndEOF)).
  vm_compute. reflexivity.
Defined.

(** ** The records one invocation touches *)

Section Footprint.

Import Multipart.

Lemma frame_refl mk ck st st' : kv st' = kv st -> kv_frame mk ck st st'.
Proof. intros H. unfold kv_frame. rewrite H. now repeat split. Qed.

Lemma frame_trans mk ck st st1 st2 :
  kv_frame mk ck st st1 -> kv_frame mk ck st1 st2 -> kv_frame mk ck st st2.
Proof.
  intros (Hs & Hm & Hc) (Hs' & Hm' & Hc'). repeat split.
  - now rewrite Hs', Hs.
  - intros k Hk. now rewrite Hm', Hm.
  - intros k Hk. now rewrite Hc', Hc.
Qed.

(** Close a goal whose final store is spelled out. *)
Ltac frame_done :=
  unfold kv_frame, SaveMultipartState, DeleteMultipartState,
    SaveCompletedUpload, DeleteCompletedUpload;
  repeat (next_case; simplify_eq/=);
  cbn [kv kv_call kv_sessions kv_multipart kv_completed snd fst];
  (split; [reflexivity |]);
  (split; intros k Hk;
     rewrite ?lookup_insert_ne, ?lookup_delete_ne by congruence; reflexivity).

Lemma check_completed_frame_kv env st stateKey o st1 :
  check_completed env st stateKey = (o, st1) ->
  kv_frame (multipart_kv_key stateKey) (completed_kv_key stateKey) st st1.
Proof.
  unfold check_completed, LoadCompletedUpload, send.
  repeat (next_case; simplify_eq/=); intros; simplify_eq/=; frame_done.
Qed.

Lemma resume_probe_frame env st stateKey fp key probe st1 :
  resume_probe env st stateKey fp key = (probe, st1) ->
  kv_frame (multipart_kv_key stateKey) (completed_kv_key stateKey) st st1.
Proof.
  unfold resume_probe, LoadMultipartState, send.
  repeat (next_case; simplify_eq/=); intros; simplify_eq/=; frame_done.
Qed.

Lemma fresh_start_frame env st fp key idata body started st1 rest mk ck :
  fresh_start env st fp key idata body = (started, st1, rest) ->
  kv_frame mk ck st st1.
Proof.
  unfold fresh_start, send.
  repeat (next_case; simplify_eq/=); intros; simplify_eq/=; frame_done.
Qed.

Lemma loop_frame env stateKey key uploadId (f : nat) :
  forall n state st body exit st' rest,
    upload_loop env f n stateKey key uploadId state st body = (exit, st', rest) ->
    kv_frame (multipart_kv_key stateKey) (completed_kv_key stateKey) st st'.
Proof.
  induction f as [|f IH]; intros n state st body exit st' rest.
  - intros [= <- <- <-]. now apply frame_refl.
  - cbn [upload_loop].
    destruct (ReadFull body PartSize) as [[partData e] body1].
    destruct e as [[| |m]|]; try (intros; simplify_eq; frame_done).
    all: destruct (S3Auth.SignUploadPart _ _ _ _ _) as [req|m'];
      [| intros; simplify_eq; frame_done].
    all: unfold send; cbn [sent kv kv_calls];
      destruct (backend env _ _) as [partResp|msg];
      [| intros; simplify_eq; frame_done].
    all: destruct (negb (StatusCode partResp =? 200));
      [intros; simplify_eq; frame_done |].
    all: intros H; apply IH in H;
      eapply frame_trans; [| exact H]; now apply frame_refl.
Qed.

Lemma finish_frame env stateKey key uploadId state st body out st' rest :
  finish env stateKey key uploadId state st body = (out, st', rest) ->
  kv_frame (multipart_kv_key stateKey) (completed_kv_key stateKey) st st'.
Proof.
  unfold finish, send.
  repeat (next_case; simplify_eq/=); intros; simplify_eq/=; frame_done.
Qed.

Lemma engine_frame env st repoName key body out st' rest :
  ResumableMultipartUpload env st repoName key body = (out, st', rest) ->
  let idata := fst (fst (ReadFull body IdentifyChunkSize)) in
  kv_frame (multipart_kv_key (checkpoint_key repoName idata))
           (completed_kv_key (checkpoint_key repoName idata)) st st'.
Proof.
  unfold ResumableMultipartUpload, checkpoint_key;
  destruct (ReadFull _ IdentifyChunkSize) as [[idata e] body1] eqn:Hread;
  cbn [fst];
  destruct e as [[| |m]|];
  try (destruct (check_completed _ _ _) as [[ck|] st1] eqn:Hcc;
       apply check_completed_frame_kv in Hcc);
  try (destruct (resume_probe _ _ _ _ _) as [probe st2] eqn:Hprobe;
       apply resume_probe_frame in Hprobe;
       destruct (p_resumed probe) as [state|] eqn:Hres;
       [destruct (0 <? p_bytes probe) eqn:Hbytes |
        destruct (fresh_start _ _ _ _ _ _) as [[[state|msg] st3] body3]
          eqn:Hfresh;
        apply (fresh_start_frame _ _ _ _ _ _ _ _ _
                 (multipart_kv_key
                    (repoName +:+ "/" +:+ fingerprint (S3Auth.sha256Hex idata)))
                 (completed_kv_key
                    (repoName +:+ "/" +:+ fingerprint (S3Auth.sha256Hex idata))))
          in Hfresh]);
  try (destruct (upload_loop _ _ _ _ _ _ _ _ _)
         as [[[state'|out'] st4] body4] eqn:Hloop;
       apply loop_frame in Hloop);
  try (destruct (finish _ _ _ _ _ _ _) as [[out5 st5] body5] eqn:Hfin;
       apply finish_frame in Hfin);
  cbv beta iota zeta; intros [= <- <- <-];
  try (now apply frame_refl).
  all: repeat match goal with
       | H1 : kv_frame _ _ ?a ?b, H2 : kv_frame _ _ ?b ?c |- _ =>
           pose proof (frame_trans _ _ _ _ _ H1 H2); clear H1 H2
       end.
  all: assumption.
Qed.

End Footprint.

(** X9. One PATCH changes no upload session but its own, no checkpoint
    but the one of the content it received (the key built from the
    repository name and the fingerprint of the identification window) and
    no completed-content record but that content's. *)
Theorem upload_chunk_touches_only_its_own_records :
  forall (env : Env) (st : St) (r : Uploads.HttpReq) (name uploadUUID : string)
         (o : Outcome) (st' : St) (rest : Body),
    Uploads.handleUploadChunk env st r name uploadUUID = (o, st', rest) ->
    let idata :=
      fst (fst (ReadFull (Uploads.req_body r) Multipart.IdentifyChunkSize)) in
    (forall k, k <> Uploads.session_kv_key uploadUUID ->
       kv_sessions (kv st') !! k = kv_sessions (kv st) !! k)
    /\ (forall k, k <> Multipart.multipart_kv_key (checkpoint_key name idata) ->
          kv_multipart (kv st') !! k = kv_multipart (kv st) !! k)
    /\ (forall k, k <> Multipart.completed_kv_key (checkpoint_key name idata) ->
          kv_completed (kv st') !! k = kv_completed (kv st) !! k).
Proof.
  intros env st r name uploadUUID o st' rest. cbv zeta.
  unfold Uploads.handleUploadChunk.
  destruct (kv_open_err env); [intros [= <- <- <-]; now repeat split |].
  unfold Uploads.lookup_session. cbv beta iota.
  destruct (kv_sessions (kv st) !! _) as [[session|]|];
    [| intros [= <- <- <-]; now repeat split ..].
  destruct (_ && _); [intros [= <- <- <-]; now repeat split |].
  destruct (_ && _).
  - destruct (Multipart.ResumableMultipartUpload _ _ _ _ _)
      as [[out st1] body1] eqn:Hrun.
    apply engine_frame in Hrun. cbv zeta in Hrun.
    cbn [kv kv_call] in Hrun. destruct Hrun as (Hs & Hm & Hc).
    repeat (next_case; simplify_eq/=); intros; simplify_eq/=;
      unfold Uploads.insert_session;
      cbn [kv kv_call kv_sessions kv_multipart kv_completed];
      (split; [intros k Hk; rewrite ?lookup_insert_ne by congruence;
               now rewrite Hs |]);
      (split; [exact Hm | exact Hc]).
  - unfold send.
    repeat (next_case; simplify_eq/=); intros; simplify_eq/=;
      unfold Uploads.insert_session;
      cbn [kv kv_call kv_sessions kv_multipart kv_completed];
      (split; [intros k Hk; rewrite ?lookup_insert_ne by congruence;
               reflexivity |]);
      now split.
Qed.

Lemma upload_chunk_touches_only_its_own_records_witness :
  kv_sessions
    (kv (snd (fst (Uploads.handleUploadChunk Samples.env
                     (Samples.st_with_session 0)
                     (Samples.chunked_request Samples.layer)
                     "library/app" "0b2f")))) !! "uploads/77aa"
  = kv_sessions (kv (Samples.st_with_session 0)) !! "uploads/77aa".
Proof.
  apply (proj1 (upload_chunk_touches_only_its_own_records Samples.env
                  (Samples.st_with_session 0)
                  (Samples.chunked_request Samples.layer) "library/app" "0b2f"
                  (Wrote 202 (accepted_headers "library/app" "0b2f" "0-0"))
                  (snd (fst (Uploads.handleUploadChunk Samples.env
                               (Samples.st_with_session 0)
                               (Samples.chunked_request Samples.layer)
                               "library/app" "0b2f")))
                  (MkBody [] EndEOF)
                  ltac:(vm_compute; reflexivity))).
  intros H. vm_compute in H. discriminate.
Defined.

(** ** The life of an upload session *)

Section SessionLife.

Import Uploads Lifecycle.

Lemma copy_to_final_kv env st finalKey sourceKey x st' :
  copy_to_final env st finalKey sourceKey = (x, st') -> kv st' = kv st.
Proof.
  unfold copy_to_final, send.
  repeat (next_case; simplify_eq/=); intros; simplify_eq/=; reflexivity.
Qed.

Lemma copy_to_final_error env st finalKey sourceKey o st' :
  copy_to_final env st finalKey sourceKey = (inr o, st') ->
  exists e, o = Failed e.
Proof.
  unfold copy_to_final, unsupported.
  repeat (next_case; simplify_eq/=); intros; simplify_eq/=; eauto.
Qed.

Lemma status_of_unknown env st name uploadUUID :
  kv_open_err env = None ->
  kv_sessions (kv st) !! session_kv_key uploadUUID = None ->
  fst (handleGetUploadStatus env st name uploadUUID) = upload_unknown uploadUUID.
Proof.
  intros Hopen Hnone. unfold handleGetUploadStatus, lookup_session.
  now rewrite Hopen, Hnone.
Qed.

End SessionLife.

(** X10. The finalizer removes the upload session exactly when it
    answers 201: then the session is gone (a status request for it gets
    404 [BLOB_UPLOAD_UNKNOWN]) and no other session and no
    completed-content record has changed. On every other outcome, the
    failure of the session's delete included, the KV store is as
    before. *)
Theorem complete_upload_removes_the_session_exactly_on_success :
  forall (env : Env) (st : St) (r : Uploads.HttpReq)
         (name uploadUUID expectedDigest : string) (o : Outcome) (st' : St),
    Uploads.handleCompleteUpload env st r name uploadUUID expectedDigest = (o, st') ->
    match o with
    | Wrote status headers =>
        status = 201
        /\ headers = created_headers name expectedDigest
        /\ kv_sessions (kv st')
           = delete (Uploads.session_kv_key uploadUUID) (kv_sessions (kv st))
        /\ kv_completed (kv st') = kv_completed (kv st)
        /\ fst (Lifecycle.handleGetUploadStatus env st' name uploadUUID)
           = upload_unknown uploadUUID
    | _ => kv st' = kv st
    end.
Proof.
  intros env st r name uploadUUID expectedDigest o st'.
  unfold Uploads.handleCompleteUpload, Uploads.unsupported.
  destruct (kv_open_err env) eqn:Hopen; [intros [= <- <-]; reflexivity |].
  unfold Uploads.lookup_session. cbv beta iota.
  destruct (kv_sessions (kv st) !! _) as [[session|]|];
    [| intros [= <- <-]; reflexivity ..].
  destruct (negb _); [intros [= <- <-]; reflexivity |].
  destruct (Uploads.finalKey_of _) as [finalKey|];
    [| intros [= <- <-]; reflexivity].
  assert (Hdone : forall st1, kv st1 = kv st ->
            let st2 := Multipart.DeleteMultipartState env
                         (Uploads.delete_session st1
                            (Uploads.session_kv_key uploadUUID))
                         (TempLocation session +:+ "/data") in
            kv_sessions (kv st2)
            = delete (Uploads.session_kv_key uploadUUID) (kv_sessions (kv st))
            /\ kv_completed (kv st2) = kv_completed (kv st)
            /\ fst (Lifecycle.handleGetUploadStatus env st2 name uploadUUID)
               = upload_unknown uploadUUID).
  { intros st1 Hkv. cbv zeta.
    unfold Multipart.DeleteMultipartState, Uploads.delete_session.
    rewrite Hopen. cbn [kv kv_call kv_sessions kv_completed]. rewrite Hkv.
    repeat split. apply status_of_unknown; [exact Hopen |].
    cbn [kv kv_call kv_sessions]. apply lookup_delete_eq. }
  destruct (0 <? Uploads.Sscanf_d _).
  - unfold send.
    repeat (next_case; simplify_eq/=); intros; simplify_eq/=;
      try reflexivity.
    split; [reflexivity |]. split; [reflexivity |]. now apply Hdone.
  - destruct (0 <? BytesReceived session).
    + destruct (Uploads.copy_to_final _ _ _ _) as [[[]|o1] st1] eqn:Hcopy.
      * apply copy_to_final_kv in Hcopy.
        destruct (kv_delete_err env); intros [= <- <-];
          [cbn [kv kv_call]; exact Hcopy |].
        split; [reflexivity |]. split; [reflexivity |].
        now apply Hdone.
      * destruct (copy_to_final_error _ _ _ _ _ _ Hcopy) as [e ->].
        apply copy_to_final_kv in Hcopy. now intros [= <- <-].
    + destruct (kv_delete_err env); intros [= <- <-]; [reflexivity |].
      split; [reflexivity |]. split; [reflexivity |].
      now apply Hdone.
Qed.

Lemma complete_upload_removes_the_session_exactly_on_success_witness :
  let run :=
    Uploads.handleCompleteUpload Samples.env (Samples.st_with_session 0)
      Samples.no_headers_request "library/app" "0b2f"
      ("sha256:" +:+ Samples.digest_hex) in
  fst run = Wrote 201 (created_headers "library/app" ("sha256:" +:+ Samples.digest_hex))
  /\ kv_sessions (kv (snd run)) !! "uploads/0b2f" = None.
Proof.
  cbv zeta.
  pose proof (complete_upload_removes_the_session_exactly_on_success
                Samples.env (Samples.st_with_session 0)
                Samples.no_headers_request "library/app" "0b2f"
                ("sha256:" +:+ Samples.digest_hex)
                (Wrote 201 (created_headers "library/app"
                              ("sha256:" +:+ Samples.digest_hex)))
                (snd (Uploads.handleCompleteUpload Samples.env
                        (Samples.st_with_session 0) Samples.no_headers_request
                        "library/app" "0b2f" ("sha256:" +:+ Samples.digest_hex)))
                ltac:(vm_compute; reflexivity)) as H.
  cbv beta iota in H. destruct H as (_ & _ & Hs & _).
  split; [vm_compute; reflexivity |].
  rewrite Hs. apply lookup_delete_eq.
Defined.

(** X11. With the KV store available, initiating an upload stores a
    session with zero bytes received and the temp location
    [uploads/<name>/<uuid>] under [uploads/<uuid>], answers 202 with
    [Range: 0-0], sends nothing to the object store and leaves every
    other session as it was; a status request for the new upload then
    gets 204 with [Range: 0-0]. *)
Theorem initiated_upload_is_stored_and_reported_empty :
  forall (env : Env) (st : St) (f : Lifecycle.Fresh) (name : string),
    kv_open_err env = None ->
    let uuid := Lifecycle.new_uuid f in
    exists st1,
      Lifecycle.handleInitiateUpload env st f name
      = (Wrote 202 (accepted_headers name uuid "0-0"), st1)
      /\ sent st1 = sent st
      /\ kv_sessions (kv st1) !! Uploads.session_kv_key uuid
         = Some (Ok (MkSession uuid name (now_rfc3339 env) 0
                               ("uploads/" +:+ name +:+ "/" +:+ uuid)
                               (Lifecycle.expires_rfc3339 f)))
      /\ (forall k, k <> Uploads.session_kv_key uuid ->
            kv_sessions (kv st1) !! k = kv_sessions (kv st) !! k)
      /\ fst (Lifecycle.handleGetUploadStatus env st1 name uuid)
         = Wrote 204 (status_headers name uuid "0-0").
Proof.
  intros env st f name Hopen uuid.
  unfold Lifecycle.handleInitiateUpload. rewrite Hopen. fold uuid.
  eexists. split; [reflexivity |].
  unfold Uploads.insert_session. cbn [kv kv_call kv_sessions sent].
  split; [reflexivity |].
  split; [apply lookup_insert_eq |].
  split; [intros k Hk; now rewrite lookup_insert_ne by congruence |].
  unfold Lifecycle.handleGetUploadStatus, Uploads.lookup_session.
  rewrite Hopen. cbn [kv kv_call kv_sessions]. rewrite lookup_insert_eq.
  reflexivity.
Qed.

Lemma initiated_upload_is_stored_and_reported_empty_witness :
  exists st1,
    Lifecycle.handleInitiateUpload Samples.env (Samples.st_with_session 0)
      (Lifecycle.MkFresh "77aa" "2024-01-15T11:30:00Z") "library/app"
    = (Wrote 202 (accepted_headers "library/app" "77aa" "0-0"), st1)
    /\ fst (Lifecycle.handleGetUploadStatus Samples.env st1 "library/app" "77aa")
       = Wrote 204 (status_headers "library/app" "77aa" "0-0").
Proof.
  destruct (initiated_upload_is_stored_and_reported_empty Samples.env
              (Samples.st_with_session 0)
              (Lifecycle.MkFresh "77aa" "2024-01-15T11:30:00Z") "library/app"
              eq_refl) as (st1 & H1 & _ & _ & _ & H2).
  exists st1. split; [exact H1 | exact H2].
Defined.

(** X12. For an upload id with no session in the store, the PATCH
    handler, the finalizer and the status handler all answer 404
    [BLOB_UPLOAD_UNKNOWN]; none of them sends a request to the object
    store, changes the KV store or reads the body. *)
Theorem unknown_upload_is_answered_404_without_effects :
  forall (env : Env) (st : St) (r : Uploads.HttpReq)
         (name uploadUUID digest : string),
    kv_open_err env = None ->
    kv_sessions (kv st) !! Uploads.session_kv_key uploadUUID = None ->
    let st' := kv_call st (KvLookup (Uploads.session_kv_key uploadUUID)) (kv st) in
    Uploads.handleUploadChunk env st r name uploadUUID
    = (upload_unknown uploadUUID, st', Uploads.req_body r)
    /\ Uploads.handleCompleteUpload env st r name uploadUUID digest
       = (upload_unknown uploadUUID, st')
    /\ Lifecycle.handleGetUploadStatus env st name uploadUUID
       = (upload_unknown uploadUUID, st')
    /\ sent st' = sent st /\ kv st' = kv st.
Proof.
  intros env st r name uploadUUID digest Hopen Hnone st'.
  unfold Uploads.handleUploadChunk, Uploads.handleCompleteUpload,
    Lifecycle.handleGetUploadStatus, Uploads.lookup_session.
  rewrite Hopen, Hnone. now repeat split.
Qed.

Lemma unknown_upload_is_answered_404_without_effects_witness :
  fst (Lifecycle.handleGetUploadStatus Samples.env (Samples.st_with_session 0)
         "library/app" "ffff")
  = upload_unknown "ffff".
Proof.
  pose proof (unknown_upload_is_answered_404_without_effects Samples.env
                (Samples.st_with_session 0) Samples.no_headers_request
                "library/app" "ffff" EmptyString eq_refl
                ltac:(vm_compute; reflexivity)) as H.
  cbv zeta in H. destruct H as (_ & _ & H & _). now rewrite H.
Defined.

(** X13. A PATCH whose [Content-Length] reads as a positive number and
    that does not take the fast path sends, once the request is signed,
    exactly one PUT of the request body to [<TempLocation>/data], the
    same object for every such PATCH of the session whatever has been
    received before, and this whatever the store answers. Only on a 2xx
    answer is the declared length added to [bytes_received] and the new
    total reported in [Range] with 202; on any other answer, and on a
    network failure, the reply is 500 and the KV store is unchanged. *)
Theorem sized_patch_puts_to_the_temp_object_and_adds_the_declared_length :
  forall (env : Env) (st : St) (r : Uploads.HttpReq) (name uploadUUID : string)
         (session : UploadSession) (req : S3Auth.Request),
    kv_open_err env = None ->
    kv_sessions (kv st) !! Uploads.session_kv_key uploadUUID = Some (Ok session) ->
    (0 <? BytesReceived session)
    && String.eqb (S3Auth.hget "Transfer-Encoding" (Uploads.req_headers r)) "chunked"
    = false ->
    let n := Uploads.Sscanf_d (S3Auth.hget "Content-Length" (Uploads.req_headers r)) in
    let put := OpPut (TempLocation session +:+ "/data") "application/octet-stream"
                     FromClientBody in
    let total := wrap64 (BytesReceived session + n) in
    0 < n ->
    S3Auth.SignPutRequest (senv env) (TempLocation session +:+ "/data")
      "application/octet-stream" = Ok req ->
    exists (o : Outcome) (st' : St),
      Uploads.handleUploadChunk env st r name uploadUUID
      = (o, st', MkBody [] (b_end (Uploads.req_body r)))
      /\ sent st' = sent st ++ [put]
      /\ match backend env (List.length (sent st)) put with
         | Ok resp =>
             if Uploads.is_2xx (StatusCode resp)
             then o = Wrote 202
                        (accepted_headers name uploadUUID
                           ("0-" +:+ itoa (Uploads.max 0 (wrap64 (total - 1)))))
                  /\ kv_sessions (kv st') !! Uploads.session_kv_key uploadUUID
                     = Some (Ok (Uploads.with_BytesReceived session total))
             else (exists e, o = Failed e /\ Status e = 500) /\ kv st' = kv st
         | Err _ => (exists e, o = Failed e /\ Status e = 500) /\ kv st' = kv st
         end.
Proof.
  intros env st r name uploadUUID session req Hopen Hsess Hfast n put total
    Hn Hsign.
  unfold Uploads.handleUploadChunk, Uploads.lookup_session.
  rewrite Hopen, Hsess. cbv beta iota. rewrite Hfast. fold n.
  destruct (Z.eqb_spec n 0) as [|_]; [lia |]. cbn [andb].
  destruct (Z.ltb_spec 0 n) as [_|]; [|lia].
  rewrite Hsign. unfold send. cbn [sent kv kv_calls kv_call]. fold put.
  destruct (backend env (List.length (sent st)) put) as [resp|msg].
  - destruct (Uploads.is_2xx (StatusCode resp)); cbn [negb].
    + eexists _, _. split; [reflexivity |].
      unfold Uploads.insert_session. cbn [sent kv kv_call kv_sessions].
      split; [reflexivity |]. split; [reflexivity | apply lookup_insert_eq].
    + eexists _, _. split; [reflexivity |]. cbn [sent kv].
      split; [reflexivity |]. split; [| reflexivity].
      eexists. split; reflexivity.
  - eexists _, _. split; [reflexivity |]. cbn [sent kv].
    split; [reflexivity |]. split; [| reflexivity].
    eexists. split; reflexivity.
Qed.

Lemma sized_patch_puts_to_the_temp_object_and_adds_the_declared_length_witness :
  exists st',
    Uploads.handleUploadChunk Samples.env (Samples.st_with_session 100)
      (Uploads.MkReq [("Content-Length", "11")] (MkBody Samples.layer EndEOF))
      "library/app" "0b2f"
    = (Wrote 202 (accepted_headers "library/app" "0b2f" "0-110"),
       st', MkBody [] EndEOF)
    /\ sent st' = [OpPut Samples.temp_object "application/octet-stream"
                         FromClientBody]
    /\ kv_sessions (kv st') !! "uploads/0b2f" = Some (Ok (Samples.session 111)).
Proof.
  destruct (S3Auth.SignPutRequest Samples.signer Samples.temp_object
              "application/octet-stream") as [req|] eqn:Hsign;
    [| vm_compute in Hsign; discriminate].
  destruct (sized_patch_puts_to_the_temp_object_and_adds_the_declared_length
              Samples.env (Samples.st_with_session 100)
              (Uploads.MkReq [("Content-Length", "11")] (MkBody Samples.layer EndEOF))
              "library/app" "0b2f" (Samples.session 100) req
              eq_refl ltac:(vm_compute; reflexivity) eq_refl eq_refl Hsign)
    as (o & st' & Hrun & Hsent & Hans).
  change (o = Wrote 202 (accepted_headers "library/app" "0b2f" "0-110")
          /\ kv_sessions (kv st') !! "uploads/0b2f"
             = Some (Ok (Samples.session 111))) in Hans.
  destruct Hans as [-> Hkv].
  exists st'. split; [exact Hrun |]. split; [exact Hsent | exact Hkv].
Defined.

(** ** Routes *)

(** X14. [parseRoute] never panics on a slice, whatever the path, method
    and query are, and the route it returns has one of the known types
    (so the [default] branch of the switch in [handleRoute] is never
    taken) with the fields of that type set: in particular a
    complete-upload, mount, blob or referrers route always carries a
    non-empty digest, and every route but the five unnamed ones a
    non-empty repository name. *)
Theorem every_request_parses_to_a_well_shaped_route :
  forall path method query : string,
    exists route,
      Routes.parseRoute path method query = Some route
      /\ route_shape route = true
      /\ In (Router.Type_ route) route_types.
Proof.
  intros path method query.
  destruct (parseRoute_shape path method query) as (route & Hp & Hs).
  exists route. split; [exact Hp |]. split; [exact Hs |].
  unfold route_shape, route_types in *. cbv zeta in Hs.
  repeat match type of Hs with
         | (if List.existsb ?f ?l then _ else _) = true =>
             let E := fresh "E" in
             destruct (List.existsb f l) eqn:E;
             [ apply List.existsb_exists in E as (t & Hin & Heq);
               apply String.eqb_eq in Heq; rewrite Heq;
               clear - Hin; cbn in *; intuition
             | ]
         end.
  discriminate.
Qed.

(** X15. A route of an upload type comes from a path
    [/v2/<name>/blobs/uploads/<uuid>] whose pieces are the route's name
    and upload id. It
    is a complete-upload exactly for a PUT with a non-empty [digest]
    parameter, which becomes the route's digest; a PUT whose [digest]
    parameter is missing or empty is routed like a PATCH. *)
Theorem upload_routes_come_from_upload_paths :
  forall (path method query : string) (route : Router.Route),
    Routes.parseRoute path method query = Some route ->
    In (Router.Type_ route) ["upload_chunk"; "complete_upload"; "get_upload_status"] ->
    path = "/v2/" +:+ Router.Name route +:+ "/blobs/uploads/"
             +:+ Router.RouteUUID route
    /\ (Router.Type_ route = "complete_upload" ->
        method = "PUT"
        /\ Router.Digest route = Routes.extractQueryParam query "digest")
    /\ (Router.Type_ route = "get_upload_status" -> method = "GET")
    /\ (Router.Type_ route = "upload_chunk" ->
        method = "PATCH"
        \/ (method = "PUT"
            /\ Routes.extractQueryParam query "digest" = EmptyString)).
Proof.
  intros path method query route. unfold Routes.parseRoute.
  assert (Hno : forall t, In t ["upload_chunk"; "complete_upload"; "get_upload_status"] ->
                  In t ["health"; "token_auth"; "api_version"; "catalog";
                        "not_found"; "get_manifest"; "head_manifest";
                        "put_manifest"; "delete_manifest"; "mount_blob";
                        "initiate_upload"; "get_blob"; "head_blob";
                        "delete_blob"; "list_tags"; "referrers"] -> False).
  { intros t H1 H2. cbn in H1, H2. intuition congruence. }
  assert (Hother : forall ts b r,
            block_ok ts b -> b = Routes.Returned r ->
            In (Router.Type_ r) ["upload_chunk"; "complete_upload"; "get_upload_status"] ->
            (forall t, In t ts ->
               In t ["health"; "token_auth"; "api_version"; "catalog";
                     "not_found"; "get_manifest"; "head_manifest";
                     "put_manifest"; "delete_manifest"; "mount_blob";
                     "initiate_upload"; "get_blob"; "head_blob";
                     "delete_blob"; "list_tags"; "referrers"]) ->
            False).
  { intros ts b r Hb -> Hin Hsub. destruct Hb as [_ Hts]. eauto. }
  destruct (_ || _); [intros [= <-] H; exfalso; apply (Hno _ H); cbn; tauto |].
  destruct (_ || _); [intros [= <-] H; exfalso; apply (Hno _ H); cbn; tauto |].
  destruct (_ || _); [intros [= <-] H; exfalso; apply (Hno _ H); cbn; tauto |].
  destruct (negb (HasPrefix path "/v2/")) eqn:Hv2;
    [intros [= <-] H; exfalso; apply (Hno _ H); cbn; tauto |].
  destruct (v2_path path Hv2) as (p & -> & ->).
  destruct (_ && _); [intros [= <-] H; exfalso; apply (Hno _ H); cbn; tauto |].
  cbn [Routes.first_returned].
  pose proof (manifest_routes_ok p method) as H1.
  destruct (Routes.manifest_routes p method) as [r1| |] eqn:E1;
    [intros [= <-] H; exfalso;
     apply (Hother _ _ _ H1 eq_refl H); cbn; tauto | | contradiction].
  destruct (Routes.upload_routes p method query) as [r2| |] eqn:E2.
  - intros [= <-] _. destruct (upload_routes_sound _ _ _ _ E2) as (Hp & Hrest).
    split; [| exact Hrest]. rewrite Hp at 1. reflexivity.
  - pose proof (initiate_routes_ok p method query) as H3.
    destruct (Routes.initiate_routes p method query) as [r3| |] eqn:E3;
      [intros [= <-] H; exfalso;
       apply (Hother _ _ _ H3 eq_refl H); cbn; tauto | | contradiction].
    pose proof (blob_routes_ok p method) as H4.
    destruct (Routes.blob_routes p method) as [r4| |] eqn:E4;
      [intros [= <-] H; exfalso;
       apply (Hother _ _ _ H4 eq_refl H); cbn; tauto | | contradiction].
    pose proof (tags_routes_ok p method query) as H5.
    destruct (Routes.tags_routes p method query) as [r5| |] eqn:E5;
      [intros [= <-] H; exfalso;
       apply (Hother _ _ _ H5 eq_refl H); cbn; tauto | | contradiction].
    pose proof (referrers_routes_ok p method query) as H6.
    destruct (Routes.referrers_routes p method query) as [r6| |] eqn:E6;
      [intros [= <-] H; exfalso;
       apply (Hother _ _ _ H6 eq_refl H); cbn; tauto | | contradiction].
    intros [= <-] H; exfalso; apply (Hno _ H); cbn; tauto.
  - pose proof (upload_routes_ok p method query) as H2. rewrite E2 in H2.
    contradiction.
Qed.

Lemma upload_routes_come_from_upload_paths_witness :
  "/v2/library/app/blobs/uploads/0b2f"
  = "/v2/" +:+ "library/app" +:+ "/blobs/uploads/" +:+ "0b2f"
  /\ ("complete_upload" = "complete_upload" ->
      "PUT" = "PUT"
      /\ "sha256:" +:+ Samples.digest_hex
         = Routes.extractQueryParam
             ("digest=sha256%3A" +:+ Samples.digest_hex) "digest").
Proof.
  pose proof (upload_routes_come_from_upload_paths
                "/v2/library/app/blobs/uploads/0b2f" "PUT"
                ("digest=sha256%3A" +:+ Samples.digest_hex)
                (Router.MkRoute "complete_upload" "library/app" EmptyString
                   ("sha256:" +:+ Samples.digest_hex) "0b2f" EmptyString
                   EmptyString)
                ltac:(vm_compute; reflexivity)
                ltac:(cbn; tauto)) as (H1 & H2 & _).
  split; [exact H1 | exact H2].
Defined.

Section NoPanic.

Import Router Routes Uploads.

Lemma handleUploadChunk_no_panic env st r name uploadUUID :
  fst (fst (handleUploadChunk env st r name uploadUUID)) <> Panic.
Proof.
  unfold handleUploadChunk, unsupported, accepted.
  destruct (kv_open_err env); [discriminate |].
  unfold lookup_session. cbv beta iota.
  destruct (kv_sessions (kv st) !! _) as [[session|]|]; [| discriminate ..].
  destruct (_ && _); [discriminate |].
  destruct (_ && _).
  - destruct (Multipart.ResumableMultipartUpload _ _ _ _ _)
      as [[out st1] body1] eqn:Hrun.
    apply engine_sound in Hrun as [Hnil _].
    destruct out as [[res|] [err|]]; try discriminate; [| congruence].
    repeat (next_case; simplify_eq/=); discriminate.
  - repeat (next_case; simplify_eq/=); discriminate.
Qed.

Lemma handleInitiateUpload_no_panic env st f name :
  fst (Lifecycle.handleInitiateUpload env st f name) <> Panic.
Proof.
  unfold Lifecycle.handleInitiateUpload, unsupported.
  now destruct (kv_open_err env).
Qed.

Lemma handleMountBlob_no_panic env st f name d fromRepo :
  Spec.digest_form d ->
  fst (Lifecycle.handleMountBlob env st f name d fromRepo) <> Panic.
Proof.
  intros (h & -> & Hh). pose proof (hex64_len h Hh) as Hl.
  unfold Lifecycle.handleMountBlob, HasPrefix, unsupported.
  rewrite prefix_append, (BlobKey_sha256 h Hl). cbn [negb].
  destruct (S3Auth.SignHeadRequest _ _); [| discriminate].
  unfold send. destruct (backend env _ _) as [resp|]; [| discriminate].
  destruct (is_2xx _); [discriminate | apply handleInitiateUpload_no_panic].
Qed.

Lemma handleDeleteBlob_no_panic env st name d :
  Spec.digest_form d ->
  fst (Blobs.handleDeleteBlob env st name d) <> Panic.
Proof.
  intros (h & -> & Hh). pose proof (hex64_len h Hh) as Hl.
  unfold Blobs.handleDeleteBlob, HasPrefix, unsupported.
  rewrite prefix_append, (BlobKey_sha256 h Hl). cbn [negb].
  destruct (S3Auth.SignDeleteRequest _ _); [| discriminate].
  unfold send. destruct (backend env _ _) as [resp|]; [| discriminate].
  now destruct (_ =? _).
Qed.

Lemma handleGetUploadStatus_no_panic env st name uploadUUID :
  fst (Lifecycle.handleGetUploadStatus env st name uploadUUID) <> Panic.
Proof.
  unfold Lifecycle.handleGetUploadStatus, unsupported, lookup_session.
  destruct (kv_open_err env); [discriminate |]. cbv beta iota.
  now destruct (kv_sessions (kv st) !! _) as [[session|]|].
Qed.

End NoPanic.

(** X16. No request that [parseRoute] sends to the upload handlers
    (initiate, mount, PATCH, finalize, status) or to blob deletion ends
    in a panic: the digest of a finalize, mount or delete route is never
    empty, so [handleRoute] validates it before the handler slices it,
    and the PATCH handler never meets a nil result. *)
Theorem routed_upload_requests_never_panic :
  forall (env : Env) (st : St) (f : Lifecycle.Fresh)
         (rest : Router.Route -> St -> Outcome * St) (r : Uploads.HttpReq)
         (path method query : string) (route : Router.Route),
    Routes.parseRoute path method query = Some route ->
    In (Router.Type_ route)
       [ "initiate_upload"; "mount_blob"; "upload_chunk"; "complete_upload";
         "get_upload_status"; "delete_blob" ] ->
    fst (Router.handleRoute env st None (Routes.dispatch env f rest) r route)
    <> Panic.
Proof.
  intros env st f rest r path method query route Hparse Htype.
  destruct (parseRoute_shape path method query) as (route' & Hp & Hshape).
  rewrite Hparse in Hp. injection Hp as <-.
  destruct route as [t name reference digest uuid from q].
  cbn [Router.Type_] in Htype.
  unfold Router.handleRoute.
  cbn [Router.Type_ Router.Name Router.Reference Router.Digest Router.RouteUUID
       Router.MountFrom].
  destruct (if negb (String.eqb name EmptyString)
            then Security.ValidateRepositoryName name else None);
    [discriminate |].
  destruct (if negb (String.eqb reference EmptyString)
            then Security.ValidateReference reference else None);
    [discriminate |].
  destruct (if negb (String.eqb digest EmptyString)
            then Security.ValidateDigestFormat digest else None) eqn:Hgate;
    [discriminate |].
  assert (Hdigest : Routes.nonempty digest = true -> Spec.digest_form digest).
  { unfold Routes.nonempty. intros Hne. rewrite Hne in Hgate.
    now apply ValidateDigestFormat_accepts. }
  cbn in Htype.
  destruct Htype as [<- | [<- | [<- | [<- | [<- | [<- | []]]]]]];
    cbn in Hshape; unfold Routes.dispatch;
    cbn [Router.Type_ Router.Name Router.Reference Router.Digest
         Router.RouteUUID Router.MountFrom String.eqb Ascii.eqb Bool.eqb].
  - apply handleInitiateUpload_no_panic.
  - apply handleMountBlob_no_panic, Hdigest.
    repeat (apply andb_prop in Hshape as [Hshape ?]). assumption.
  - pose proof (handleUploadChunk_no_panic env st r name uuid) as H.
    destruct (Uploads.handleUploadChunk env st r name uuid) as [[o st1] b1].
    exact H.
  - apply handleCompleteUpload_no_panic, Hdigest.
    repeat (apply andb_prop in Hshape as [Hshape ?]). assumption.
  - apply handleGetUploadStatus_no_panic.
  - apply handleDeleteBlob_no_panic, Hdigest.
    repeat (apply andb_prop in Hshape as [Hshape ?]). assumption.
Qed.

Lemma routed_upload_requests_never_panic_witness :
  fst (Router.handleRoute Samples.env (Samples.st_with_session 0) None
         (Routes.dispatch Samples.env
            (Lifecycle.MkFresh "77aa" "2024-01-15T11:30:00Z")
            Samples.no_other_routes)
         (Samples.chunked_request Samples.layer)
         (Router.MkRoute "upload_chunk" "library/app" EmptyString EmptyString
                         "0b2f" EmptyString EmptyString))
  <> Panic.
Proof.
  apply (routed_upload_requests_never_panic Samples.env
           (Samples.st_with_session 0)
           (Lifecycle.MkFresh "77aa" "2024-01-15T11:30:00Z")
           Samples.no_other_routes (Samples.chunked_request Samples.layer)
           "/v2/library/app/blobs/uploads/0b2f" "PATCH" EmptyString).
  - vm_compute. reflexivity.
  - cbn. tauto.
Defined.

(** ** Rate limiting *)

Section Limiter.

Import Guards.

Lemma serve_in_window (clientIP : string) (times : list Z) :
  forall (store : gmap string rateLimitEntry) (count reset : Z),
    store !! clientIP = Some (MkEntry count reset) ->
    Forall (fun now => now <= reset) times ->
    1 <= count ->
    count + lenZ times < 9223372036854775808 ->
    serve store clientIP times = later_verdicts (count + 1) (List.length times).
Proof.
  induction times as [|now times IH]; intros store count reset Hentry Hin Hc Hbound;
    [reflexivity |].
  inversion Hin as [|? ? Hnow Hrest]; subst.
  rewrite lenZ_cons in Hbound. pose proof (lenZ_nonneg times).
  cbn [serve List.length later_verdicts]. unfold CheckRateLimit.
  rewrite Hentry. cbn [ResetTime Count].
  destruct (Z.ltb_spec reset now); [lia |].
  rewrite (wrap64_small (count + 1)) by lia.
  unfold RateLimitMaxRequests.
  destruct (Z.ltb_spec 100 (count + 1)); destruct (Z.leb_spec (count + 1) 100);
    try lia.
  - f_equal. apply (IH _ (count + 1) reset);
      [apply lookup_insert_eq | assumption | lia | lia].
  - rewrite wrap64_small by lia. f_equal.
    apply (IH _ (count + 1) reset);
      [apply lookup_insert_eq | assumption | lia | lia].
Qed.

End Limiter.

(** X17. For a client with no entry in the limiter, or one whose window
    has passed, the first request opens a window of 60 seconds and is
    allowed with [remaining] reported as 100; of the requests that
    follow within the window, those up to the hundredth are allowed with
    [remaining = 100 - count], and every later one is refused with
    [remaining = 0]. *)
Theorem rate_limit_allows_the_first_100_requests_of_a_window :
  forall (store : gmap string Guards.rateLimitEntry) (clientIP : string)
         (now : Z) (times : list Z),
    (store !! clientIP = None
     \/ exists entry, store !! clientIP = Some entry
                      /\ Guards.ResetTime entry < now) ->
    Forall (fun t => t <= now + 60 * Guards.Second) times ->
    lenZ times < 9223372036854775807 ->
    serve store clientIP (now :: times)
    = (true, 1, 100) :: later_verdicts 2 (List.length times).
Proof.
  intros store clientIP now times Hfresh Hin Hbound.
  cbn [serve].
  assert (Hfirst : Guards.CheckRateLimit store clientIP now
                   = ((true, 1, 100),
                      <[clientIP := Guards.MkEntry 1 (now + 60 * Guards.Second)]>
                        store)).
  { unfold Guards.CheckRateLimit.
    destruct Hfresh as [-> | (entry & -> & Hexp)]; [reflexivity |].
    destruct (Z.ltb_spec (Guards.ResetTime entry) now); [reflexivity | lia]. }
  rewrite Hfirst. f_equal.
  apply (serve_in_window clientIP times _ 1 (now + 60 * Guards.Second));
    [apply lookup_insert_eq | exact Hin | lia | lia].
Qed.

Lemma rate_limit_allows_the_first_100_requests_of_a_window_witness :
  serve ∅ "203.0.113.7" [0; 1; 2]
  = [(true, 1, 100); (true, 2, 98); (true, 3, 97)].
Proof.
  apply (rate_limit_allows_the_first_100_requests_of_a_window ∅ "203.0.113.7" 0
           [1; 2]).
  - left. apply lookup_empty.
  - repeat constructor; vm_compute; discriminate.
  - vm_compute. reflexivity.
Defined.

(** ** Authorization *)

Section Authorization.

Import TokenAuth.

Lemma permitted_in_spec (actions : list string) (action : string) :
  permitted_in actions action = true
  <-> In action actions \/ In "*" actions.
Proof.
  induction actions as [|p actions IH]; cbn [permitted_in In]; [intuition congruence |].
  destruct (String.eqb_spec p action) as [-> |]; cbn [orb]; [intuition congruence |].
  destruct (String.eqb_spec p "*") as [-> |]; [intuition congruence |].
  rewrite IH. intuition congruence.
Qed.

Lemma granted_by_spec (access : list AccessEntry) (repoName action : string) :
  granted_by access repoName action = true
  <-> exists a, In a access
        /\ Type_ a = "repository"
        /\ (Name a = repoName \/ Name a = "*")
        /\ (In action (Actions a) \/ In "*" (Actions a)).
Proof.
  induction access as [|a access IH]; cbn [granted_by In].
  - split; [discriminate | intros (? & [] & _)].
  - destruct (String.eqb_spec (Type_ a) "repository") as [Ht | Ht]; cbn [negb].
    + destruct (String.eqb_spec (Name a) repoName) as [Hn | Hn]; cbn [negb andb].
      * destruct (permitted_in (Actions a) action) eqn:Hp.
        -- apply permitted_in_spec in Hp. split; [| reflexivity].
           intros _. exists a. intuition congruence.
        -- rewrite IH. split; [intros (b & ? & ?); exists b; intuition congruence |].
           intros (b & [<- | Hin] & Hb); [| exists b; intuition congruence].
           destruct Hb as (_ & _ & Hact). apply permitted_in_spec in Hact.
           congruence.
      * destruct (String.eqb_spec (Name a) "*") as [Hs | Hs]; cbn [negb].
        -- destruct (permitted_in (Actions a) action) eqn:Hp.
           ++ apply permitted_in_spec in Hp. split; [| reflexivity].
              intros _. exists a. intuition congruence.
           ++ rewrite IH. split; [intros (b & ? & ?); exists b; intuition congruence |].
              intros (b & [<- | Hin] & Hb); [| exists b; intuition congruence].
              destruct Hb as (_ & _ & Hact). apply permitted_in_spec in Hact.
              congruence.
        -- rewrite IH. split; [intros (b & ? & ?); exists b; intuition congruence |].
           intros (b & [<- | Hin] & Hb); [| exists b; intuition congruence].
           intuition congruence.
    + rewrite IH. split; [intros (b & ? & ?); exists b; intuition congruence |].
      intros (b & [<- | Hin] & Hb); [| exists b; intuition congruence].
      intuition congruence.
Qed.

End Authorization.

(** X18. A token authorises an action on a repository exactly when one
    of its entries of type [repository] names the repository or [*] and
    lists the action or [*]; a request without claims is always
    authorised. With the action [getRequiredAction] asks for, a token
    whose entries list only [pull] therefore reaches none of the push
    and delete routes. *)
Theorem token_grants_exactly_the_listed_actions :
  forall (claims : TokenAuth.TokenClaims) (repoName action : string),
    (TokenAuth.CheckAuthorization (Some claims) repoName action = true
     <-> exists a, In a (TokenAuth.Access claims)
           /\ TokenAuth.Type_ a = "repository"
           /\ (TokenAuth.Name a = repoName \/ TokenAuth.Name a = "*")
           /\ (In action (TokenAuth.Actions a) \/ In "*" (TokenAuth.Actions a)))
    /\ TokenAuth.CheckAuthorization None repoName action = true
    /\ (Forall (fun a => forall p, In p (TokenAuth.Actions a) -> p = "pull")
               (TokenAuth.Access claims) ->
        forall routeType,
          In routeType [ "put_manifest"; "initiate_upload"; "upload_chunk";
                         "complete_upload"; "mount_blob"; "delete_manifest";
                         "delete_blob" ] ->
          TokenAuth.CheckAuthorization (Some claims) repoName
            (Guards.getRequiredAction routeType) = false).
Proof.
  intros claims repoName action. split; [apply granted_by_spec |].
  split; [reflexivity |].
  intros Hpull routeType Hroute.
  apply not_true_is_false. intros Hgrant.
  apply granted_by_spec in Hgrant as (a & Hin & _ & _ & Hact).
  rewrite List.Forall_forall in Hpull. specialize (Hpull a Hin).
  cbn in Hroute.
  destruct Hact as [Hact | Hact]; apply Hpull in Hact;
    [| discriminate].
  intuition (subst; discriminate).
Qed.

(** X19. The completed-content record of a content is trusted only
    after the object store answered 200 to a HEAD of the recorded key in
    this invocation; the store is then left as it was. When the check
    does not succeed and the KV store is available, no usable record is
    left behind: a stale record has been deleted, so the next load finds
    none. *)
Theorem completed_record_is_trusted_only_after_a_200_HEAD :
  forall (env : Env) (st : St) (stateKey : string) (o : option string) (st' : St),
    Multipart.check_completed env st stateKey = (o, st') ->
    match o with
    | Some completedKey =>
        completedKey <> EmptyString
        /\ kv_completed (kv st) !! Multipart.completed_kv_key stateKey
           = Some completedKey
        /\ sent st' = sent st ++ [OpHead completedKey]
        /\ (exists resp,
              backend env (List.length (sent st)) (OpHead completedKey) = Ok resp
              /\ StatusCode resp = 200)
        /\ kv st' = kv st
    | None =>
        kv_open_err env = None ->
        fst (Multipart.LoadCompletedUpload env st' stateKey) = Ok EmptyString
    end.
Proof.
  intros env st stateKey o st'.
  unfold Multipart.check_completed, Multipart.LoadCompletedUpload,
    Multipart.DeleteCompletedUpload, send.
  destruct (kv_open_err env) eqn:Hopen; [intros [= <- <-]; discriminate |].
  cbn [kv kv_call sent kv_calls kv_completed].
  destruct (kv_completed (kv st) !! _) as [completedKey|] eqn:Hrec.
  - destruct (String.eqb_spec completedKey EmptyString) as [-> | Hne].
    + intros [= <- <-] _. cbn [fst kv kv_call kv_completed]. now rewrite Hrec.
    + destruct (S3Auth.SignHeadRequest _ _).
      * destruct (backend env _ _) as [resp|] eqn:Hback.
        -- destruct (Z.eqb_spec (StatusCode resp) 200) as [H200 |].
           ++ intros [= <- <-]. repeat split; try easy. now exists resp.
           ++ intros [= <- <-] _. cbn [fst kv kv_call kv_completed].
              now rewrite lookup_delete_eq.
        -- intros [= <- <-] _. cbn [fst kv kv_call kv_completed].
           now rewrite lookup_delete_eq.
      * intros [= <- <-] _. cbn [fst kv kv_call kv_completed].
        now rewrite lookup_delete_eq.
  - cbn [String.eqb]. intros [= <- <-] _. cbn [fst kv kv_call kv_completed].
    now rewrite Hrec.
Qed.

Lemma completed_record_is_trusted_only_after_a_200_HEAD_witness :
  "uploads/library/app/77aa/data" <> EmptyString
  /\ kv_completed (kv Samples.st_completed)
       !! Multipart.completed_kv_key
            (checkpoint_key "library/app" Samples.layer)
     = Some "uploads/library/app/77aa/data".
Proof.
  pose proof (completed_record_is_trusted_only_after_a_200_HEAD Samples.env
                Samples.st_completed
                (checkpoint_key "library/app" Samples.layer)
                (Some "uploads/library/app/77aa/data")
                (snd (Multipart.check_completed Samples.env Samples.st_completed
                        (checkpoint_key "library/app" Samples.layer)))
                ltac:(vm_compute; reflexivity)) as (H1 & H2 & _).
  split; [exact H1 | exact H2].
Defined.

(** ** The stream and its parts *)

Lemma surjective_pairing3 {A B C} (x : A * B * C) :
  x = (fst (fst x), snd (fst x), snd x).
Proof. now destruct x as [[a b] c]. Qed.

(** The run of the engine on a stream of 16 MiB and one byte against a
    backend that fails on the third request: part 1 of 16 MiB and part 2
    of one byte are sent. *)
Lemma two_part_run :
  let data := Samples.layer_16MiB_1 in
  let first_part :=
    takeZ data Multipart.IdentifyChunkSize
      ++ takeZ (dropZ data Multipart.IdentifyChunkSize)
               (Multipart.PartSize - Multipart.IdentifyChunkSize) in
  let second_part := takeZ (dropZ data Multipart.PartSize) Multipart.PartSize in
  sent (snd (fst (Multipart.ResumableMultipartUpload Samples.env_flaky
                    (Samples.st_with_session 0) "library/app"
                    Samples.temp_object (MkBody data EndEOF))))
  = [ OpInitiate Samples.temp_object;
      OpUploadPart Samples.temp_object "upload-1" 1 first_part;
      OpUploadPart Samples.temp_object "upload-1" 2 second_part ].
Proof.
  intros data first_part second_part.
  assert (Hlen : lenZ data = 16777217) by (apply lenZ_repeat; lia).
  assert (Hlt : Multipart.PartSize < lenZ data) by (rewrite Hlen; reflexivity).
  assert (Hfresh : fresh_for (Samples.st_with_session 0) "library/app"
                     (takeZ data Multipart.IdentifyChunkSize)).
  { split; [apply lookup_empty |].
    intros cp Hcp. exfalso. revert Hcp.
    change (kv_multipart (kv (Samples.st_with_session 0)))
      with (∅ : gmap string (res MultipartState)).
    rewrite lookup_empty. discriminate. }
  pose proof (engine_second_part_failure Samples.env_flaky
                (S3Auth.MkCreds "AKIDEXAMPLE" "secret")
                (Samples.st_with_session 0)
                "library/app" Samples.temp_object data
                (MkResponse 200 "etag-1" EmptyString None)
                (MkResponse 200 "etag-1" EmptyString None)
                "upload-1" "connection reset"
                eq_refl (fun _ => eq_refl) Hlt eq_refl Hfresh) as Hrun.
  cbv zeta in Hrun.
  specialize (Hrun eq_refl eq_refl eq_refl eq_refl eq_refl eq_refl eq_refl).
  rewrite Hrun. cbn [fst snd]. rewrite sent_SaveMultipartState. reflexivity.
Qed.

Lemma no_checkpoint_in_a_fresh_store (repoName : string) (idata : list byte) :
  no_checkpoint_for (Samples.st_with_session 0) repoName idata.
Proof.
  intros cp Hcp. exfalso. revert Hcp.
  change (kv_multipart (kv (Samples.st_with_session 0)))
    with (∅ : gmap string (res MultipartState)).
  rewrite lookup_empty. discriminate.
Qed.


Section Stream.

Import Multipart.

Lemma uploaded_parts_app (a b : list S3Op) :
  uploaded_parts (a ++ b) = uploaded_parts a ++ uploaded_parts b.
Proof.
  induction a as [|op a IH]; [reflexivity |].
  destruct op; cbn [uploaded_parts List.app]; now rewrite ?IH.
Qed.

Lemma no_parts n st st' :
  sends_at_most n 0 st st' ->
  exists new, sent st' = sent st ++ new /\ uploaded_parts new = [].
Proof.
  intros (new & Hnew & _ & Hp). exists new. split; [exact Hnew |].
  clear Hnew. induction new as [|op new IH]; [reflexivity |].
  destruct op; cbn [List.filter is_upload_part uploaded_parts List.length] in *;
    first [now apply IH | lia].
Qed.

Lemma streams_nil first data st st' :
  (exists new, sent st' = sent st ++ new /\ uploaded_parts new = []) ->
  streams first data st st'.
Proof.
  intros (new & Hnew & Hp). exists new, data. rewrite Hp. now repeat split.
Qed.

Lemma streams_skip first data st st1 st' :
  (exists new, sent st1 = sent st ++ new /\ uploaded_parts new = []) ->
  streams first data st1 st' -> streams first data st st'.
Proof.
  intros (pre & Hpre & Hp) (new & tail & Hnew & Hnum & Hdata).
  exists (pre ++ new), tail. rewrite uploaded_parts_app, Hp. cbn [List.app].
  repeat split; [| assumption ..]. now rewrite Hnew, Hpre, <- app_assoc.
Qed.

Lemma streams_part first d data key uploadId st st1 st' :
  sent st1 = sent st ++ [OpUploadPart key uploadId first d] ->
  streams (first + 1) data st1 st' -> streams first (d ++ data) st st'.
Proof.
  intros Hpre (new & tail & Hnew & Hnum & Hdata).
  exists (OpUploadPart key uploadId first d :: new), tail.
  cbn [uploaded_parts List.map List.length List.concat fst snd].
  rewrite numbers_from_S, Hnum, <- app_assoc, <- Hdata.
  repeat split. now rewrite Hnew, Hpre, <- app_assoc.
Qed.

Lemma ReadFull_data (b : Body) (n : Z) d e b' :
  ReadFull b n = (d, e, b') -> b_data b = d ++ b_data b'.
Proof.
  unfold ReadFull. destruct (n <=? lenZ (b_data b)); intros [= <- _ <-];
    cbn [b_data]; [now rewrite takeZ_dropZ | now rewrite app_nil_r].
Qed.

Lemma loop_streams env stateKey key uploadId (f : nat) :
  forall n state st body exit st' rest,
    upload_loop env f n stateKey key uploadId state st body = (exit, st', rest) ->
    0 <= NextPartNumber state ->
    NextPartNumber state + Z.of_nat f < 9223372036854775808 ->
    streams (NextPartNumber state) (b_data body) st st'.
Proof.
  induction f as [|f IH]; intros n state st body exit st' rest.
  - intros [= <- <- <-] _ _. apply streams_nil. exists []. now rewrite app_nil_r.
  - cbn [upload_loop].
    destruct (ReadFull body PartSize) as [[partData e] body1] eqn:Hread.
    apply ReadFull_data in Hread. rewrite Hread.
    assert (Hsave : forall s, streams (NextPartNumber state)
                      (partData ++ b_data body1) st
                      (SaveMultipartState env st stateKey s)).
    { intros s. apply streams_nil. exists [].
      now rewrite sent_SaveMultipartState, app_nil_r. }
    assert (Hsent : forall s,
              streams (NextPartNumber state) (partData ++ b_data body1) st
                (SaveMultipartState env
                   (MkSt (kv st)
                      (sent st ++ [OpUploadPart key uploadId
                                     (NextPartNumber state) partData])
                      (kv_calls st)) stateKey s)).
    { intros s.
      apply (streams_part _ _ _ key uploadId st
               (MkSt (kv st)
                  (sent st ++ [OpUploadPart key uploadId
                                 (NextPartNumber state) partData])
                  (kv_calls st))); [reflexivity |].
      apply streams_nil. exists [].
      now rewrite sent_SaveMultipartState, app_nil_r. }
    destruct e as [[| |m]|].
    1: { intros [= <- <- <-] _ _. apply streams_nil. exists [].
         now rewrite app_nil_r. }
    2: { intros [= <- <- <-] _ _. apply Hsave. }
    all: destruct (S3Auth.SignUploadPart _ _ _ _ _) as [req|m'];
      [| intros [= <- <- <-] _ _; apply Hsave].
    all: unfold send; cbn [sent kv kv_calls];
      destruct (backend env _ _) as [partResp|msg];
      [| intros [= <- <- <-] _ _; apply Hsent].
    all: destruct (negb (StatusCode partResp =? 200));
      [intros [= <- <- <-] _ _; apply Hsent |].
    all: intros H Hpos Hbound; apply IH in H;
      cbn [NextPartNumber] in H;
      rewrite ?wrap64_small in H by lia;
      [ eapply streams_part; [| exact H]; reflexivity
      | cbn [NextPartNumber]; rewrite wrap64_small by lia; lia
      | cbn [NextPartNumber]; rewrite wrap64_small by lia; lia ].
Qed.

Lemma fresh_start_streams env st fp key idata body started st1 rest :
  fresh_start env st fp key idata body = (started, st1, rest) ->
  match started with
  | inl state =>
      NextPartNumber state = 2
      /\ exists d, sent st1 = sent st ++ [OpInitiate key;
                                          OpUploadPart key (S3UploadId state) 1 d]
                   /\ idata ++ b_data body = d ++ b_data rest
  | inr _ => streams 1 (idata ++ b_data body) st st1
  end.
Proof.
  unfold fresh_start.
  destruct (S3Auth.SignInitiateMultipartUpload _ _);
    [| intros [= <- <- <-]; apply streams_nil; exists []; now rewrite app_nil_r].
  unfold send. cbn [sent kv kv_calls].
  assert (Hinit : forall data,
            streams 1 data st
              (MkSt (kv st) (sent st ++ [OpInitiate key]) (kv_calls st))).
  { intros data. apply streams_nil. now exists [OpInitiate key]. }
  destruct (backend env _ _) as [initResp|]; [| intros [= <- <- <-]; apply Hinit].
  destruct (negb (StatusCode initResp =? 200)); [intros [= <- <- <-]; apply Hinit |].
  destruct (resp_read_err initResp); [intros [= <- <- <-]; apply Hinit |].
  destruct (xml_unmarshal_initiate env _) as [uploadId|];
    [| intros [= <- <- <-]; apply Hinit].
  cbv zeta.
  destruct (if 0 <? PartSize - lenZ idata
            then ReadFull body (PartSize - lenZ idata)
            else ([], None, body)) as [[more err] body1] eqn:Hread.
  assert (Hdata : b_data body = more ++ b_data body1).
  { destruct (0 <? PartSize - lenZ idata).
    - now apply ReadFull_data in Hread.
    - now injection Hread as <- _ <-. }
  assert (Hpart : forall st2,
            sent st2 = sent st ++ [OpInitiate key;
                                   OpUploadPart key uploadId 1 (idata ++ more)] ->
            streams 1 (idata ++ b_data body) st st2).
  { intros st2 Hst2.
    apply (streams_skip 1 _ st
             (MkSt (kv st) (sent st ++ [OpInitiate key]) (kv_calls st)) st2).
    - exists [OpInitiate key]. split; reflexivity.
    - rewrite Hdata, app_assoc.
      apply (streams_part 1 _ _ key uploadId _ st2).
      + rewrite Hst2. cbn [sent]. rewrite <- app_assoc. reflexivity.
      + apply streams_nil. exists []. now rewrite app_nil_r. }
  destruct err as [[| |m]|]; try (intros [= <- <- <-]; apply Hinit).
  all: destruct (S3Auth.SignUploadPart _ _ _ _ _);
    [| intros [= <- <- <-]; apply Hinit].
  all: cbn [sent kv kv_calls]; rewrite <- app_assoc; cbn [List.app];
    destruct (backend env _ _) as [partResp|];
    [| intros [= <- <- <-]; now apply Hpart].
  all: destruct (negb (StatusCode partResp =? 200));
    [intros [= <- <- <-]; now apply Hpart |].
  all: intros [= <- <- <-]; split; [reflexivity |];
    exists (idata ++ more); split; [reflexivity |];
    now rewrite Hdata, app_assoc.
Qed.

Lemma probe_not_resumed env st stateKey fp key probe st1 :
  (forall cp, kv_multipart (kv st) !! multipart_kv_key stateKey = Some (Ok cp) ->
              ContentHash cp <> fp) ->
  resume_probe env st stateKey fp key = (probe, st1) ->
  p_resumed probe = None.
Proof.
  intros Hno. unfold resume_probe, LoadMultipartState.
  destruct (kv_open_err env); [now intros [= <- <-] |].
  destruct (kv_multipart (kv st) !! _) as [[cp|]|] eqn:Hcp;
    [| now intros [= <- <-] ..].
  specialize (Hno cp eq_refl).
  destruct (String.eqb_spec (ContentHash cp) fp); [contradiction |].
  now intros [= <- <-].
Qed.

End Stream.

Section StreamEngine.

Import Multipart.

Lemma streams_after first data st st1 st' :
  streams first data st st1 ->
  (exists new, sent st' = sent st1 ++ new /\ uploaded_parts new = []) ->
  streams first data st st'.
Proof.
  intros (new & tail & Hnew & Hnum & Hdata) (post & Hpost & Hp).
  exists (new ++ post), tail. rewrite uploaded_parts_app, Hp, app_nil_r.
  repeat split; [| assumption ..]. now rewrite Hpost, Hnew, <- app_assoc.
Qed.

Lemma engine_streams env st repoName key body out st' rest :
  no_checkpoint_for st repoName (fst (fst (ReadFull body IdentifyChunkSize))) ->
  ResumableMultipartUpload env st repoName key body = (out, st', rest) ->
  streams 1 (b_data body) st st'.
Proof.
  unfold ResumableMultipartUpload, no_checkpoint_for, checkpoint_key.
  destruct (ReadFull body IdentifyChunkSize) as [[idata e] body1] eqn:Hread.
  apply ReadFull_data in Hread. rewrite Hread. cbn [fst]. intros Hno.
  assert (Hquiet : forall st0, sent st0 = sent st ->
            streams 1 (idata ++ b_data body1) st st0).
  { intros st0 H0. apply streams_nil. exists []. now rewrite app_nil_r. }
  destruct e as [[| |m]|];
    [ intros [= <- <- <-]; now apply Hquiet
    |
    | intros [= <- <- <-]; now apply Hquiet
    | ].
  all: destruct (check_completed _ _ _) as [[ck|] st1] eqn:Hcc;
    pose proof (check_completed_frame _ _ _ _ _ Hcc) as (Hmp & _ & _);
    apply check_completed_sends, no_parts in Hcc;
    [intros [= <- <- <-]; now apply streams_nil |].
  all: intros Hrun; apply (streams_skip _ _ _ _ _ Hcc); revert Hrun.
  all: destruct (resume_probe _ _ _ _ _) as [probe st2] eqn:Hprobe;
    rewrite <- Hmp in Hno;
    rewrite (probe_not_resumed _ _ _ _ _ _ _ Hno Hprobe);
    apply resume_probe_sends, no_parts in Hprobe;
    intros Hrun; apply (streams_skip _ _ _ _ _ Hprobe); revert Hrun.
  all: destruct (fresh_start _ _ _ _ _ _) as [[[state|msg] st3] body3] eqn:Hfresh;
    apply fresh_start_streams in Hfresh;
    [| intros [= <- <- <-]; exact Hfresh].
  all: destruct Hfresh as (Hnext & d & Hsent & Hdata); rewrite Hdata.
  all: intros Hrun;
    apply (streams_skip 1 _ st2
             (MkSt (kv st2) (sent st2 ++ [OpInitiate (p_key probe)])
                   (kv_calls st2)) st');
    [exists [OpInitiate (p_key probe)]; split; reflexivity |].
  all: apply (streams_part 1 _ _ (p_key probe) (S3UploadId state) _ st3);
    [rewrite Hsent; cbn [sent]; rewrite <- app_assoc; reflexivity |];
    revert Hrun.
  all: change (Z.to_nat (MaxPartsPerRequest - 1)) with 27%nat.
  all: destruct (upload_loop _ _ _ _ _ _ _ _ _)
         as [[[state'|out'] st4] body4] eqn:Hloop;
    (apply loop_streams in Hloop; try (rewrite Hnext; lia));
    rewrite Hnext in Hloop;
    [| intros [= <- <- <-]; exact Hloop].
  all: destruct (finish _ _ _ _ _ _ _) as [[out5 st5] body5] eqn:Hfin;
    apply finish_sends, no_parts in Hfin;
    intros [= <- <- <-]; exact (streams_after _ _ _ _ _ Hloop Hfin).
Qed.

End StreamEngine.

(** X20. When the store holds no checkpoint for the content received,
    the upload-part requests of one invocation of the engine are numbered
    1, 2, 3, ... without gap or repeat, and their payloads, one after the
    other, are the beginning of the request body: the first part begins
    with the identification window and nothing is skipped or sent
    twice. *)
Theorem fresh_upload_sends_the_stream_in_consecutive_parts :
  forall (env : Env) (st : St) (repoName key : string) (body : Body)
         (out : Multipart.EngineOut) (st' : St) (rest : Body),
    no_checkpoint_for st repoName
      (fst (fst (ReadFull body Multipart.IdentifyChunkSize))) ->
    Multipart.ResumableMultipartUpload env st repoName key body = (out, st', rest) ->
    exists (new : list S3Op) (tail : list byte),
      sent st' = sent st ++ new
      /\ List.map fst (uploaded_parts new)
         = Spec.numbers_from 1 (List.length (uploaded_parts new))
      /\ b_data body = List.concat (List.map snd (uploaded_parts new)) ++ tail.
Proof.
  intros env st repoName key body out st' rest Hno Hrun.
  exact (engine_streams env st repoName key body out st' rest Hno Hrun).
Qed.

Lemma fresh_upload_sends_the_stream_in_consecutive_parts_witness :
  let data := Samples.layer_16MiB_1 in
  let first_part :=
    takeZ data Multipart.IdentifyChunkSize
      ++ takeZ (dropZ data Multipart.IdentifyChunkSize)
               (Multipart.PartSize - Multipart.IdentifyChunkSize) in
  let second_part := takeZ (dropZ data Multipart.PartSize) Multipart.PartSize in
  exists (new : list S3Op) (tail : list byte),
    uploaded_parts new = [(1, first_part); (2, second_part)]
    /\ List.map fst (uploaded_parts new)
       = Spec.numbers_from 1 (List.length (uploaded_parts new))
    /\ data = List.concat (List.map snd (uploaded_parts new)) ++ tail.
Proof.
  pose proof two_part_run as Hrun. revert Hrun.
  generalize Samples.layer_16MiB_1.
  intros stream Hrun data first_part second_part.
  cbv zeta in Hrun. fold data in Hrun. fold first_part second_part in Hrun.
  destruct (fresh_upload_sends_the_stream_in_consecutive_parts
              Samples.env_flaky (Samples.st_with_session 0) "library/app"
              Samples.temp_object (MkBody data EndEOF) _ _ _
              (no_checkpoint_in_a_fresh_store _ _)
              (surjective_pairing3 _))
    as (new & tail & Hnew & Hnum & Hdata).
  rewrite Hrun in Hnew. change (sent (Samples.st_with_session 0)) with (@nil S3Op) in Hnew.
  cbn [List.app] in Hnew.
  exists new, tail. subst new. split; [reflexivity |].
  split; [exact Hnum | exact Hdata].
Defined.

(** ** Pagination *)

Section Pages.

Import Pagination.

Lemma start_after_range (items : list string) (last : string) :
  forall i, 0 <= i ->
    0 <= start_after items last i <= i + lenZ items.
Proof.
  induction items as [|item items IH]; intros i Hi; cbn [start_after].
  - unfold lenZ. cbn. lia.
  - rewrite lenZ_cons. pose proof (lenZ_nonneg items).
    destruct (String.eqb item last); [lia |].
    specialize (IH (i + 1) ltac:(lia)). lia.
Qed.

Lemma start_after_absent (items : list string) (last : string) :
  forall i, ~ In last items -> start_after items last i = 0.
Proof.
  induction items as [|item items IH]; intros i Hni; [reflexivity |].
  cbn [start_after]. destruct (String.eqb_spec item last) as [-> | _].
  - exfalso. apply Hni. now left.
  - apply IH. intros H. apply Hni. now right.
Qed.

Lemma start_after_found (pre : list string) (x : string) (post : list string) :
  forall i, ~ In x pre ->
    start_after (pre ++ x :: post) x i = i + lenZ pre + 1.
Proof.
  induction pre as [|p pre IH]; intros i Hni; cbn [start_after List.app].
  - rewrite String.eqb_refl. unfold lenZ. cbn. lia.
  - destruct (String.eqb_spec p x) as [-> | _].
    + exfalso. apply Hni. now left.
    + rewrite IH by (intros H; apply Hni; now right).
      rewrite lenZ_cons. lia.
Qed.

Lemma takeZ_short {A} (l : list A) (n : Z) : lenZ (takeZ l n) <= Z.max 0 n.
Proof.
  revert n. induction l as [|x l IH]; intros n; cbn [takeZ].
  - unfold lenZ. cbn. lia.
  - destruct (Z.leb_spec n 0); [unfold lenZ; cbn; lia |].
    rewrite lenZ_cons. specialize (IH (n - 1)). lia.
Qed.

End Pages.

(** X21. [PaginateStringSlice] starts its page at [start], the index
    right after the first occurrence of [last], and at [0] when [last] is
    empty or does not occur. For a page size [n >= 0] such that
    [start + n] fits an [int], the page is the run of at most [n] items
    from [start] on and [hasMore] tells whether items remain after it.
    When [start + n] overflows (a page size close to the largest [int]
    with [last] found), [endIdx] wraps below [startIdx] and the slice
    expression [items[startIdx:endIdx]] panics. *)
Theorem page_is_a_run_of_at_most_n_items :
  forall (items : list string) (n : Z) (last : string),
    0 <= n < 9223372036854775808 ->
    lenZ items < 9223372036854775808 ->
    exists start : Z,
      0 <= start <= lenZ items
      /\ (last = EmptyString \/ ~ In last items -> start = 0)
      /\ (forall before after,
            last <> EmptyString ->
            items = before ++ last :: after -> ~ In last before ->
            start = lenZ before + 1)
      /\ if start + n <? 9223372036854775808
         then exists page nextLast hasMore,
                Pagination.PaginateStringSlice items n last
                = Some (page, nextLast, hasMore)
                /\ page = takeZ (dropZ items start) n
                /\ lenZ page <= n
                /\ (hasMore = true <-> start + n < lenZ items)
         else Pagination.PaginateStringSlice items n last = None.
Proof.
  intros items n last Hn Hitems.
  unfold Pagination.PaginateStringSlice.
  set (start := if negb (String.eqb last EmptyString)
                then Pagination.start_after items last 0 else 0).
  assert (Hstart : 0 <= start <= lenZ items).
  { subst start. pose proof (lenZ_nonneg items).
    destruct (negb _); [| lia].
    pose proof (start_after_range items last 0 ltac:(lia)). lia. }
  assert (Hzero : last = EmptyString \/ ~ In last items -> start = 0).
  { subst start. intros [-> | Hni]; [reflexivity |].
    destruct (negb _); [now apply start_after_absent | reflexivity]. }
  assert (Hfound : forall before after,
            last <> EmptyString ->
            items = before ++ last :: after -> ~ In last before ->
            start = lenZ before + 1).
  { subst start. intros before after Hne -> Hni.
    apply String.eqb_neq in Hne. rewrite Hne. cbn [negb].
    rewrite start_after_found by exact Hni. lia. }
  exists start. split; [exact Hstart |]. split; [exact Hzero |].
  split; [exact Hfound |]. cbv zeta.
  destruct (Z.ltb_spec (start + n) 9223372036854775808) as [Hfits | Hwraps].
  - rewrite (wrap64_small (start + n)) by lia.
    destruct (Z.leb_spec 0 start); [| lia]. cbn [andb].
    destruct (Z.ltb_spec (lenZ items) (start + n)) as [Hover | Hfit].
    + destruct (Z.leb_spec start (lenZ items)); [| lia].
      eexists _, _, _. split; [reflexivity |].
      assert (Hall : takeZ (dropZ items start) (lenZ items - start)
                     = takeZ (dropZ items start) n).
      { rewrite !takeZ_all; [reflexivity | rewrite lenZ_dropZ; lia ..]. }
      split; [exact Hall |].
      split; [rewrite Hall; pose proof (takeZ_short (dropZ items start) n); lia |].
      destruct (Z.ltb_spec (lenZ items) (lenZ items)); [lia |].
      split; [discriminate | lia].
    + destruct (Z.leb_spec start (start + n)); [| lia].
      eexists _, _, _. split; [reflexivity |].
      replace (start + n - start) with n by lia.
      split; [reflexivity |].
      split; [pose proof (takeZ_short (dropZ items start) n); lia |].
      destruct (Z.ltb_spec (start + n) (lenZ items)); split; try easy; lia.
  - assert (Hwrap : wrap64 (start + n) = start + n - 18446744073709551616).
    { unfold wrap64.
      replace (start + n + 9223372036854775808)
        with (start + n - 9223372036854775808 + 1 * 18446744073709551616)
        by lia.
      rewrite Z_mod_plus_full, Z.mod_small by lia. lia. }
    rewrite Hwrap.
    destruct (Z.ltb_spec (lenZ items) (start + n - 18446744073709551616));
      [lia |].
    destruct (Z.leb_spec start (start + n - 18446744073709551616)); [lia |].
    now rewrite andb_false_r.
Qed.

Lemma page_is_a_run_of_at_most_n_items_witness :
  exists page nextLast hasMore,
    Pagination.PaginateStringSlice ["v1"; "v2"; "v3"] 2 "v1"
    = Some (page, nextLast, hasMore)
    /\ page = takeZ (dropZ ["v1"; "v2"; "v3"] 1) 2.
Proof.
  destruct (page_is_a_run_of_at_most_n_items ["v1"; "v2"; "v3"] 2 "v1"
              ltac:(lia) ltac:(vm_compute; reflexivity))
    as (start & _ & _ & Hfound & Hpage).
  assert (Hone : start = 1)
    by (apply (Hfound [] ["v2"; "v3"]);
        [discriminate | reflexivity | intros []]).
  subst start.
  change (exists page nextLast hasMore,
            Pagination.PaginateStringSlice ["v1"; "v2"; "v3"] 2 "v1"
            = Some (page, nextLast, hasMore)
            /\ page = takeZ (dropZ ["v1"; "v2"; "v3"] 1) 2
            /\ lenZ page <= 2
            /\ (hasMore = true <-> 1 + 2 < lenZ ["v1"; "v2"; "v3"])) in Hpage.
  destruct Hpage as (page & nextLast & hasMore & H1 & H2 & _).
  exists page, nextLast, hasMore. split; [exact H1 | exact H2].
Defined.

(** X22. For a list without repetitions and without the empty string
    and a page size [n > 0], the page asked for with the [nextLast] of a
    page that has more begins right where that page ended: the two pages
    follow each other in the list, nothing is skipped or listed twice,
    and when the second page has no more the list ends with it. *)
Theorem the_next_page_continues_where_the_page_ended :
  forall (items : list string) (n : Z) (last : string)
         (page : list string) (nextLast : string),
    List.NoDup items ->
    ~ In EmptyString items ->
    0 < n ->
    lenZ items + n < 9223372036854775808 ->
    Pagination.PaginateStringSlice items n last = Some (page, nextLast, true) ->
    exists page' nextLast' hasMore' before after,
      Pagination.PaginateStringSlice items n nextLast
      = Some (page', nextLast', hasMore')
      /\ items = before ++ page ++ page' ++ after
      /\ lenZ page = n
      /\ (hasMore' = false -> after = []).
Proof.
  intros items n last page nextLast Hnodup Hne Hn Hbound.
  unfold Pagination.PaginateStringSlice at 1.
  set (start := if negb (String.eqb last EmptyString)
                then Pagination.start_after items last 0 else 0).
  assert (Hstart : 0 <= start <= lenZ items).
  { subst start. pose proof (lenZ_nonneg items).
    destruct (negb _); [| lia].
    pose proof (start_after_range items last 0 ltac:(lia)). lia. }
  cbv zeta. rewrite (wrap64_small (start + n)) by lia.
  destruct (Z.leb_spec 0 start); [| lia]. cbn [andb].
  destruct (Z.ltb_spec (lenZ items) (start + n)) as [Hover | Hfit].
  { destruct (Z.leb_spec start (lenZ items)); [| discriminate].
    destruct (Z.ltb_spec (lenZ items) (lenZ items)); [lia | discriminate]. }
  destruct (Z.leb_spec start (start + n)); [| lia].
  destruct (Z.ltb_spec (start + n) (lenZ items)) as [Hmore |]; [| discriminate].
  replace (start + n - start) with n by lia.
  set (D := dropZ items start).
  assert (HD : lenZ D = lenZ items - start) by (apply lenZ_dropZ; lia).
  assert (Hlen : lenZ (takeZ D n) = n) by (apply lenZ_takeZ; lia).
  rewrite Hlen. destruct (Z.ltb_spec 0 n); [| lia]. cbn [andb].
  intros [= <- <-].
  set (B := dropZ D n).
  assert (HB : lenZ B = lenZ items - start - n)
    by (unfold B; rewrite lenZ_dropZ; lia).
  assert (Hitems : items = takeZ items start ++ takeZ D n ++ B).
  { unfold B, D. now rewrite !takeZ_dropZ. }
  assert (Hpage : takeZ D n <> []).
  { intros Hnil. rewrite Hnil in Hlen. unfold lenZ in Hlen. cbn in Hlen. lia. }
  pose proof (app_removelast_last EmptyString Hpage) as Hsplit.
  set (x := List.last (takeZ D n) EmptyString) in *.
  set (P := List.removelast (takeZ D n)) in *.
  assert (HP : lenZ P = n - 1).
  { rewrite Hsplit, lenZ_app in Hlen. unfold lenZ in *. cbn in Hlen. lia. }
  assert (Hitems' : items = (takeZ items start ++ P) ++ x :: B).
  { rewrite Hitems at 1. rewrite Hsplit, <- !app_assoc. reflexivity. }
  assert (Hx : ~ In x (takeZ items start ++ P)).
  { rewrite Hitems' in Hnodup. apply List.NoDup_remove_2 in Hnodup.
    intros Hin. apply Hnodup. apply in_app_iff in Hin. apply in_app_iff.
    rewrite in_app_iff. tauto. }
  assert (Hxne : x <> EmptyString).
  { intros Hempty. apply Hne. rewrite Hitems', Hempty. apply in_elt. }
  assert (Hnext : Pagination.start_after items x 0 = start + n).
  { rewrite Hitems' at 1. rewrite start_after_found by exact Hx.
    rewrite lenZ_app, HP, lenZ_takeZ by lia. lia. }
  unfold Pagination.PaginateStringSlice.
  apply String.eqb_neq in Hxne. rewrite Hxne. cbn [negb]. rewrite Hnext.
  cbv zeta. rewrite (wrap64_small (start + n + n)) by lia.
  destruct (Z.leb_spec 0 (start + n)); [| lia]. cbn [andb].
  assert (Hdrop : dropZ items (start + n) = B)
    by (unfold B, D; rewrite dropZ_dropZ; [reflexivity | lia ..]).
  rewrite Hdrop.
  destruct (Z.ltb_spec (lenZ items) (start + n + n)) as [Hlast | Hmid].
  - destruct (Z.leb_spec (start + n) (lenZ items)); [| lia].
    eexists _, _, _, (takeZ items start), []. split; [reflexivity |].
    rewrite (takeZ_all B) by lia. rewrite app_nil_r.
    split; [exact Hitems |]. split; [exact Hlen | reflexivity].
  - destruct (Z.leb_spec (start + n) (start + n + n)); [| lia].
    replace (start + n + n - (start + n)) with n by lia.
    eexists _, _, _, (takeZ items start), (dropZ B n). split; [reflexivity |].
    rewrite (takeZ_dropZ B). split; [exact Hitems |]. split; [exact Hlen |].
    destruct (Z.ltb_spec (start + n + n) (lenZ items)); [discriminate |].
    intros _. apply dropZ_all. lia.
Qed.

Lemma the_next_page_continues_where_the_page_ended_witness :
  exists page' nextLast' hasMore' before after,
    Pagination.PaginateStringSlice ["v1"; "v2"; "v3"; "v4"; "v5"] 2 "v2"
    = Some (page', nextLast', hasMore')
    /\ ["v1"; "v2"; "v3"; "v4"; "v5"] = before ++ ["v1"; "v2"] ++ page' ++ after
    /\ lenZ ["v1"; "v2"] = 2
    /\ (hasMore' = false -> after = []).
Proof.
  apply (the_next_page_continues_where_the_page_ended
           ["v1"; "v2"; "v3"; "v4"; "v5"] 2 EmptyString ["v1"; "v2"] "v2").
  - repeat constructor; cbn; intuition discriminate.
  - cbn. intuition discriminate.
  - lia.
  - vm_compute. reflexivity.
  - vm_compute. reflexivity.
Defined.

(** ** Mount and blob deletion *)

(** X23. For a digest of the accepted form, a mount request sends one
    HEAD for the blob's key [blobs/sha256/<h[0:2]>/<h[2:4]>/<h>]. If the
    store answers 2xx the reply is 201 and nothing is written: no
    session is created and the KV store is untouched. Otherwise the
    request is served exactly as an upload initiation. The repository
    named by [from] plays no part in either case. *)
Theorem mount_answers_201_for_a_stored_blob_and_opens_an_upload_otherwise :
  forall (env : Env) (st : St) (f : Lifecycle.Fresh) (name h fromRepo : string)
         (req : S3Auth.Request) (resp : Response),
    Spec.hex64 h ->
    S3Auth.SignHeadRequest (senv env) (Spec.final_key h) = Ok req ->
    backend env (List.length (sent st)) (OpHead (Spec.final_key h)) = Ok resp ->
    let st1 := MkSt (kv st) (sent st ++ [OpHead (Spec.final_key h)]) (kv_calls st) in
    Lifecycle.handleMountBlob env st f name ("sha256:" +:+ h) fromRepo
    = if Uploads.is_2xx (StatusCode resp)
      then (Wrote 201 (created_headers name ("sha256:" +:+ h)), st1)
      else Lifecycle.handleInitiateUpload env st1 f name.
Proof.
  intros env st f name h fromRepo req resp Hh Hsign Hback st1.
  pose proof (hex64_len h Hh) as Hl.
  unfold Lifecycle.handleMountBlob, HasPrefix.
  rewrite prefix_append, (BlobKey_sha256 h Hl). cbn [negb].
  rewrite Hsign. unfold send. rewrite Hback. fold st1.
  now destruct (Uploads.is_2xx _).
Qed.

Lemma mount_answers_201_for_a_stored_blob_and_opens_an_upload_otherwise_witness :
  Lifecycle.handleMountBlob Samples.env (Samples.st_with_session 0)
    (Lifecycle.MkFresh "77aa" "2024-01-15T11:30:00Z") "library/app"
    ("sha256:" +:+ Samples.digest_hex) "library/base"
  = (Wrote 201 (created_headers "library/app" ("sha256:" +:+ Samples.digest_hex)),
     MkSt (kv (Samples.st_with_session 0))
          [OpHead (Spec.final_key Samples.digest_hex)] []).
Proof.
  destruct (S3Auth.SignHeadRequest Samples.signer
              (Spec.final_key Samples.digest_hex)) as [req|] eqn:Hsign;
    [| vm_compute in Hsign; discriminate].
  exact (mount_answers_201_for_a_stored_blob_and_opens_an_upload_otherwise
           Samples.env (Samples.st_with_session 0)
           (Lifecycle.MkFresh "77aa" "2024-01-15T11:30:00Z") "library/app"
           Samples.digest_hex "library/base" req
           (MkResponse 200 EmptyString EmptyString None)
           ltac:(split; vm_compute; reflexivity) Hsign eq_refl).
Defined.

(** X24. For a digest of the accepted form, blob deletion sends one
    DELETE for the blob's key and reports 404 [BLOB_UNKNOWN] exactly when
    the store answers 404; on every other answer of the store, an error
    status included, it reports 202. The KV store is untouched and the
    repository name plays no part. *)
Theorem blob_delete_reports_202_unless_the_store_says_404 :
  forall (env : Env) (st : St) (name h : string)
         (req : S3Auth.Request) (resp : Response),
    Spec.hex64 h ->
    S3Auth.SignDeleteRequest (senv env) (Spec.final_key h) = Ok req ->
    backend env (List.length (sent st)) (OpDelete (Spec.final_key h)) = Ok resp ->
    Blobs.handleDeleteBlob env st name ("sha256:" +:+ h)
    = (if StatusCode resp =? 404
       then Failed (MkOCIError "BLOB_UNKNOWN" "blob unknown to registry"
                               ("sha256:" +:+ h) 404)
       else Wrote 202 [],
       MkSt (kv st) (sent st ++ [OpDelete (Spec.final_key h)]) (kv_calls st)).
Proof.
  intros env st name h req resp Hh Hsign Hback.
  pose proof (hex64_len h Hh) as Hl.
  unfold Blobs.handleDeleteBlob, HasPrefix.
  rewrite prefix_append, (BlobKey_sha256 h Hl). cbn [negb].
  rewrite Hsign. unfold send. rewrite Hback.
  now destruct (StatusCode resp =? _).
Qed.

Lemma blob_delete_reports_202_unless_the_store_says_404_witness :
  Blobs.handleDeleteBlob
    (MkEnv Samples.signer None
       (fun _ _ => Ok (MkResponse 500 EmptyString EmptyString None))
       (fun _ => Ok "upload-1") (fun _ => Ok []) (fun _ => Ok [])
       "2024-01-15T10:30:00Z" None)
    (Samples.st_with_session 0) "library/app" ("sha256:" +:+ Samples.digest_hex)
  = (Wrote 202 [],
     MkSt (kv (Samples.st_with_session 0))
          [OpDelete (Spec.final_key Samples.digest_hex)] []).
Proof.
  destruct (S3Auth.SignDeleteRequest Samples.signer
              (Spec.final_key Samples.digest_hex)) as [req|] eqn:Hsign;
    [| vm_compute in Hsign; discriminate].
  exact (blob_delete_reports_202_unless_the_store_says_404
           (MkEnv Samples.signer None
              (fun _ _ => Ok (MkResponse 500 EmptyString EmptyString None))
              (fun _ => Ok "upload-1") (fun _ => Ok []) (fun _ => Ok [])
              "2024-01-15T10:30:00Z" None)
           (Samples.st_with_session 0) "library/app" Samples.digest_hex req
           (MkResponse 500 EmptyString EmptyString None)
           ltac:(split; vm_compute; reflexivity) Hsign eq_refl).
Defined.

(** ** Query parameters *)

Section Query.

Import Routes.

Lemma hex_is_plain (c : ascii) :
  Security.isHexChar c = true ->
  Ascii.eqb c "&" = false /\ Ascii.eqb c "%" = false /\ Ascii.eqb c ":" = false.
Proof.
  destruct c as [b0 b1 b2 b3 b4 b5 b6 b7].
  destruct b7, b6, b5, b4, b3, b2, b1, b0; vm_compute; intuition congruence.
Qed.

Lemma Split_hex (h : string) :
  Spec.all_hex h = true -> Split h "&" = [h].
Proof.
  induction h as [|c h IH]; [reflexivity |]. cbn [Spec.all_hex Split].
  intros H. apply andb_prop in H as [Hc Hh].
  destruct (hex_is_plain c Hc) as (-> & _ & _). now rewrite IH.
Qed.

Lemma replace_hex (h old new : string) (c : ascii) :
  Spec.all_hex h = true -> Security.isHexChar c = false ->
  replace_from 0 h (String c old) new = h.
Proof.
  intros Hh Hc. induction h as [|x h IH]; [reflexivity |].
  cbn [Spec.all_hex] in Hh. apply andb_prop in Hh as [Hx Hh].
  cbn [replace_from String.prefix].
  destruct (ascii_dec c x) as [-> |]; [congruence |].
  now rewrite IH.
Qed.

Lemma prefix_empty (s : string) : String.prefix EmptyString s = true.
Proof. now destruct s. Qed.

Lemma cut_colon_hex (h : string) :
  Spec.all_hex h = true -> Security.cut_colon h = None.
Proof.
  induction h as [|c h IH]; [reflexivity |]. cbn [Spec.all_hex Security.cut_colon].
  intros H. apply andb_prop in H as [Hc Hh].
  destruct (hex_is_plain c Hc) as (_ & _ & ->). now rewrite IH.
Qed.

End Query.

(** X25. The percent-decoding of a query parameter is limited to the
    upper-case escapes [%3A] and [%2F]. For a hash [h] of hexadecimal
    digits, [digest=sha256%3A<h>] and [digest=sha256:<h>] both yield the
    digest [sha256:<h>], while the lower-case escape in
    [digest=sha256%3a<h>] is left as it is, and the value it yields is
    rejected by [ValidateDigestFormat]. *)
Theorem digest_parameter_is_decoded_for_upper_case_escapes_only :
  forall h : string,
    Spec.all_hex h = true ->
    Routes.extractQueryParam ("digest=sha256%3A" +:+ h) "digest" = "sha256:" +:+ h
    /\ Routes.extractQueryParam ("digest=sha256:" +:+ h) "digest" = "sha256:" +:+ h
    /\ Routes.extractQueryParam ("digest=sha256%3a" +:+ h) "digest"
       = "sha256%3a" +:+ h
    /\ Security.ValidateDigestFormat ("sha256%3a" +:+ h) <> None.
Proof.
  intros h Hh.
  pose proof (Split_hex h Hh) as Hsplit.
  pose proof (replace_hex h "3A" ":" "%" Hh eq_refl) as H3A.
  pose proof (replace_hex h "2F" "/" "%" Hh eq_refl) as H2F.
  pose proof (cut_colon_hex h Hh) as Hcut.
  unfold Routes.extractQueryParam, Routes.ReplaceAll.
  rewrite !append_cons, !append_nil.
  cbn [Routes.Split Ascii.eqb Bool.eqb]. rewrite Hsplit.
  cbn [Routes.first_param Routes.SplitN2 Ascii.eqb Bool.eqb String.eqb].
  repeat split.
  - cbn. rewrite ?prefix_empty, H3A, ?append_cons, ?append_nil.
    cbn. now rewrite H2F.
  - cbn. rewrite ?prefix_empty, H3A, ?append_cons, ?append_nil.
    cbn. now rewrite H2F.
  - cbn. rewrite ?prefix_empty, H3A, ?append_cons, ?append_nil.
    cbn. now rewrite H2F.
  - unfold Security.ValidateDigestFormat.
    cbn [String.eqb Security.cut_colon Ascii.eqb Bool.eqb]. now rewrite Hcut.
Qed.

Lemma digest_parameter_is_decoded_for_upper_case_escapes_only_witness :
  Routes.extractQueryParam ("digest=sha256%3A" +:+ Samples.digest_hex) "digest"
  = "sha256:" +:+ Samples.digest_hex.
Proof.
  exact (proj1 (digest_parameter_is_decoded_for_upper_case_escapes_only
                  Samples.digest_hex ltac:(vm_compute; reflexivity))).
Defined.

Section Recorded.

Import Multipart.

Lemma loop_return_has_error env stateKey key uploadId (f : nat) :
  forall n state st body o st' rest,
    upload_loop env f n stateKey key uploadId state st body
    = (Return (o, None), st', rest) -> False.
Proof.
  induction f as [|f IH]; intros n state st body o st' rest; [discriminate |].
  cbn [upload_loop].
  destruct (ReadFull body PartSize) as [[partData e] body1].
  destruct e as [[| |m]|]; [discriminate | | discriminate |].
  all: destruct (S3Auth.SignUploadPart _ _ _ _ _) as [req|m']; [| discriminate].
  all: unfold send; cbn [sent kv kv_calls];
    destruct (backend env _ _) as [partResp|msg]; [| discriminate].
  all: destruct (negb (StatusCode partResp =? 200)); [discriminate |].
  all: intros H; eapply IH; exact H.
Qed.

Lemma finish_completed env stateKey key uploadId state st body res st' rest :
  kv_open_err env = None ->
  finish env stateKey key uploadId state st body = ((Some res, None), st', rest) ->
  r_CompletedKey res <> EmptyString ->
  r_IsComplete res = true
  /\ kv_completed (kv st') !! completed_kv_key stateKey = Some (r_CompletedKey res).
Proof.
  intros Hopen. unfold finish, SaveCompletedUpload, DeleteMultipartState, send.
  rewrite Hopen.
  repeat (next_case; simplify_eq/=); intros; simplify_eq/=; try congruence.
  all: split; [reflexivity | apply lookup_insert_eq].
Qed.

Lemma check_completed_trusted env st stateKey completedKey st' :
  check_completed env st stateKey = (Some completedKey, st') ->
  completedKey <> EmptyString
  /\ kv_completed (kv st) !! completed_kv_key stateKey = Some completedKey
  /\ sent st' = sent st ++ [OpHead completedKey]
  /\ (exists resp,
        backend env (List.length (sent st)) (OpHead completedKey) = Ok resp
        /\ StatusCode resp = 200)
  /\ kv st' = kv st.
Proof.
  unfold check_completed, LoadCompletedUpload, DeleteCompletedUpload, send.
  destruct (kv_open_err env) eqn:Hopen; [discriminate |].
  cbn [kv kv_call sent kv_calls kv_completed].
  destruct (kv_completed (kv st) !! _) as [ck|] eqn:Hrec; [| discriminate].
  destruct (String.eqb_spec ck EmptyString) as [-> | Hne]; [discriminate |].
  destruct (S3Auth.SignHeadRequest _ _); [| discriminate].
  destruct (backend env _ _) as [resp|] eqn:Hback; [| discriminate].
  destruct (Z.eqb_spec (StatusCode resp) 200) as [H200 |]; [| discriminate].
  intros [= <- <-]. repeat split; try easy. now exists resp.
Qed.

End Recorded.

(** X26. With the KV store available, whenever the engine returns a
    result that names a completed key, the result is complete and the
    completed-content record of the content received holds that key when
    the engine returns: either the record was there and verified, or the
    engine wrote it after completing the multipart upload. *)
Theorem reported_completed_key_is_the_recorded_one :
  forall (env : Env) (st : St) (repoName key : string) (body : Body)
         (res : Multipart.MultipartUploadResult) (st' : St) (rest : Body),
    kv_open_err env = None ->
    Multipart.ResumableMultipartUpload env st repoName key body
    = ((Some res, None), st', rest) ->
    Multipart.r_CompletedKey res <> EmptyString ->
    let idata := fst (fst (ReadFull body Multipart.IdentifyChunkSize)) in
    Multipart.r_IsComplete res = true
    /\ kv_completed (kv st')
         !! Multipart.completed_kv_key (checkpoint_key repoName idata)
       = Some (Multipart.r_CompletedKey res).
Proof.
  intros env st repoName key body res st' rest Hopen. cbv zeta.
  unfold Multipart.ResumableMultipartUpload, checkpoint_key.
  destruct (ReadFull body Multipart.IdentifyChunkSize) as [[idata e] body1].
  cbn [fst].
  destruct e as [[| |m]|];
    [ intros [= <- <- <-]; cbn; congruence
    |
    | discriminate
    | ].
  all: destruct (Multipart.check_completed _ _ _) as [[ck|] st1] eqn:Hcc;
    [ apply check_completed_trusted in Hcc as (_ & Hrec & _ & _ & Hkv);
      intros [= <- <- <-] _; cbn [Multipart.r_IsComplete Multipart.r_CompletedKey];
      rewrite Hkv; now split
    | ].
  all: destruct (Multipart.resume_probe _ _ _ _ _) as [probe st2].
  all: destruct (Multipart.p_resumed probe) as [state|];
    [ destruct (0 <? Multipart.p_bytes probe);
      [intros [= <- <- <-]; cbn; congruence |]
    | destruct (Multipart.fresh_start _ _ _ _ _ _) as [[[state|msg] st3] body3];
      [| discriminate] ].
  all: destruct (Multipart.upload_loop _ _ _ _ _ _ _ _ _)
         as [[[state'|[o err]] st4] body4] eqn:Hloop;
    [ intros Hfin Hkey; exact (finish_completed _ _ _ _ _ _ _ _ _ _ Hopen Hfin Hkey)
    | intros [= -> -> <- <-];
      exfalso; exact (loop_return_has_error _ _ _ _ _ _ _ _ _ _ _ _ Hloop) ].
Qed.

Lemma reported_completed_key_is_the_recorded_one_witness :
  kv_completed
    (kv (snd (fst (Multipart.ResumableMultipartUpload Samples.env
                     (Samples.st_with_session 0) "library/app"
                     Samples.temp_object (MkBody Samples.layer EndEOF)))))
    !! Multipart.completed_kv_key (checkpoint_key "library/app" Samples.layer)
  = Some Samples.temp_object.
Proof.
  exact (proj2 (reported_completed_key_is_the_recorded_one Samples.env
                  (Samples.st_with_session 0) "library/app" Samples.temp_object
                  (MkBody Samples.layer EndEOF)
                  (Multipart.MkResult 11 true None Samples.temp_object)
                  (snd (fst (Multipart.ResumableMultipartUpload Samples.env
                               (Samples.st_with_session 0) "library/app"
                               Samples.temp_object (MkBody Samples.layer EndEOF))))
                  (snd (Multipart.ResumableMultipartUpload Samples.env
                          (Samples.st_with_session 0) "library/app"
                          Samples.temp_object (MkBody Samples.layer EndEOF)))
                  eq_refl ltac:(vm_compute; reflexivity)
                  ltac:(discriminate))).
Defined.

Section PartSizes.

Import Multipart.

Lemma full_but_last_nil : full_but_last [].
Proof. intros p []. Qed.

Lemma full_but_last_one (p : Z * list byte) : full_but_last [p].
Proof. intros q []. Qed.

Lemma full_but_last_cons (p : Z * list byte) (parts : list (Z * list byte)) :
  lenZ (snd p) = PartSize -> full_but_last parts -> full_but_last (p :: parts).
Proof.
  intros Hp Hparts q. destruct parts as [|p' parts]; [intros [] |].
  cbn [List.removelast]. intros [<- | Hq]; [exact Hp | now apply Hparts].
Qed.

Lemma ReadFull_cases (b : Body) (n : Z) d e b' :
  ReadFull b n = (d, e, b') -> 0 <= n ->
  (e = None /\ lenZ d = n) \/ (e <> None /\ lenZ d < n /\ b_data b' = []).
Proof.
  unfold ReadFull. destruct (Z.leb_spec n (lenZ (b_data b))) as [Hle | Hlt];
    intros [= <- <- <-] Hn.
  - left. split; [reflexivity | now apply lenZ_takeZ].
  - right. repeat split; [discriminate | exact Hlt].
Qed.

Lemma loop_on_empty env stateKey key uploadId (f : nat) :
  forall n state st body exit st' rest,
    b_data body = [] ->
    upload_loop env f n stateKey key uploadId state st body = (exit, st', rest) ->
    sent st' = sent st.
Proof.
  destruct f as [|f]; intros n state st body exit st' rest Hempty.
  - now intros [= <- <- <-].
  - cbn [upload_loop]. unfold ReadFull. rewrite Hempty.
    change (PartSize <=? lenZ []) with false. cbv beta iota.
    destruct (b_end body); cbn [lenZ List.length Z.of_nat Z.eqb].
    + now intros [= <- <- <-].
    + intros [= <- <- <-]. apply sent_SaveMultipartState.
Qed.

Lemma loop_sizes env stateKey key uploadId (f : nat) :
  forall n state st body exit st' rest,
    upload_loop env f n stateKey key uploadId state st body = (exit, st', rest) ->
    exists new, sent st' = sent st ++ new /\ full_but_last (uploaded_parts new).
Proof.
  induction f as [|f IH]; intros n state st body exit st' rest.
  - intros [= <- <- <-]. exists []. rewrite app_nil_r. split; [reflexivity |].
    apply full_but_last_nil.
  - cbn [upload_loop].
    destruct (ReadFull body PartSize) as [[partData e] body1] eqn:Hread.
    apply ReadFull_cases in Hread; [| vm_compute; discriminate].
    assert (Hsave : forall s,
              exists new, sent (SaveMultipartState env st stateKey s)
                          = sent st ++ new
                          /\ full_but_last (uploaded_parts new)).
    { intros s. exists []. rewrite sent_SaveMultipartState, app_nil_r.
      split; [reflexivity | apply full_but_last_nil]. }
    assert (Hsent : forall s,
              exists new,
                sent (SaveMultipartState env
                        (MkSt (kv st)
                           (sent st ++ [OpUploadPart key uploadId
                                          (NextPartNumber state) partData])
                           (kv_calls st)) stateKey s)
                = sent st ++ new
                /\ full_but_last (uploaded_parts new)).
    { intros s. eexists. rewrite sent_SaveMultipartState. cbn [sent].
      split; [reflexivity | apply full_but_last_one]. }
    destruct e as [[| |m]|];
      [ intros [= <- <- <-]; exists []; rewrite app_nil_r;
        split; [reflexivity | apply full_but_last_nil]
      |
      | intros [= <- <- <-]; apply Hsave
      | ].
    all: destruct (S3Auth.SignUploadPart _ _ _ _ _) as [req|m'];
      [| intros [= <- <- <-]; apply Hsave].
    all: unfold send; cbn [sent kv kv_calls];
      destruct (backend env _ _) as [partResp|msg];
      [| intros [= <- <- <-]; apply Hsent].
    all: destruct (negb (StatusCode partResp =? 200));
      [intros [= <- <- <-]; apply Hsent |].
    + intros H. destruct Hread as [[H0 _] | (_ & _ & Hempty)]; [discriminate |].
      apply (loop_on_empty _ _ _ _ _ _ _ _ _ _ _ _ Hempty) in H.
      cbn [sent] in H. eexists. split; [exact H | apply full_but_last_one].
    + intros H. destruct Hread as [[_ Hfull] | (Hne & _)]; [| congruence].
      apply IH in H as (new & Hnew & Hparts). cbn [sent] in Hnew.
      exists (OpUploadPart key uploadId (NextPartNumber state) partData :: new).
      split; [now rewrite Hnew, <- app_assoc |].
      cbn [uploaded_parts]. now apply full_but_last_cons.
Qed.

Lemma fresh_start_sizes env st fp key idata body started st1 rest :
  lenZ idata <= IdentifyChunkSize ->
  fresh_start env st fp key idata body = (started, st1, rest) ->
  exists new,
    sent st1 = sent st ++ new
    /\ (uploaded_parts new = []
        \/ exists d, uploaded_parts new = [(1, d)]
                     /\ (lenZ d = PartSize \/ b_data rest = [])).
Proof.
  intros Hid. unfold fresh_start.
  assert (Hquiet : forall st0 pre, sent st0 = sent st ++ pre ->
            uploaded_parts pre = [] ->
            exists new, sent st0 = sent st ++ new
              /\ (uploaded_parts new = []
                  \/ exists d, uploaded_parts new = [(1, d)]
                       /\ (lenZ d = PartSize \/ b_data rest = []))).
  { intros st0 pre H0 Hp. exists pre. split; [exact H0 | now left]. }
  destruct (S3Auth.SignInitiateMultipartUpload _ _);
    [| intros [= <- <- <-]; apply (Hquiet _ []); [now rewrite app_nil_r | reflexivity]].
  unfold send. cbn [sent kv kv_calls].
  destruct (backend env _ _) as [initResp|];
    [| intros [= <- <- <-]; now apply (Hquiet _ [OpInitiate key])].
  destruct (negb (StatusCode initResp =? 200));
    [intros [= <- <- <-]; now apply (Hquiet _ [OpInitiate key]) |].
  destruct (resp_read_err initResp);
    [intros [= <- <- <-]; now apply (Hquiet _ [OpInitiate key]) |].
  destruct (xml_unmarshal_initiate env _) as [uploadId|];
    [| intros [= <- <- <-]; now apply (Hquiet _ [OpInitiate key])].
  cbv zeta. clear Hquiet.
  assert (Hpos : (0 <? PartSize - lenZ idata) = true).
  { apply Z.ltb_lt. revert Hid. unfold IdentifyChunkSize, PartSize. lia. }
  rewrite Hpos.
  destruct (ReadFull body (PartSize - lenZ idata)) as [[more err] body1] eqn:Hread.
  apply ReadFull_cases in Hread; [| apply Z.ltb_lt in Hpos; lia].
  assert (Hsize : lenZ (idata ++ more) = PartSize \/ b_data body1 = []).
  { destruct Hread as [[_ Hfull] | (_ & _ & Hempty)]; [left | now right].
    rewrite lenZ_app, Hfull. lia. }
  destruct err as [[| |m]|];
    [ | | intros [= <- <- <-]; exists [OpInitiate key]; split; [reflexivity | now left] | ].
  all: destruct (S3Auth.SignUploadPart _ _ _ _ _);
    [| intros [= <- <- <-]; exists [OpInitiate key]; split; [reflexivity | now left]].
  all: cbn [sent kv kv_calls]; rewrite <- app_assoc; cbn [List.app];
    destruct (backend env _ _) as [partResp|];
    [| intros [= <- <- <-]; eexists; split; [reflexivity |];
       right; eexists; split; [reflexivity | exact Hsize]].
  all: destruct (negb (StatusCode partResp =? 200));
    intros [= <- <- <-]; eexists; (split; [reflexivity |]);
    right; eexists; (split; [reflexivity | exact Hsize]).
Qed.

Lemma sizes_quiet st st' :
  (exists new, sent st' = sent st ++ new /\ uploaded_parts new = []) ->
  exists new, sent st' = sent st ++ new /\ full_but_last (uploaded_parts new).
Proof.
  intros (new & Hnew & Hp). exists new. rewrite Hp.
  split; [exact Hnew | apply full_but_last_nil].
Qed.

Lemma sizes_skip st st1 st' :
  (exists new, sent st1 = sent st ++ new /\ uploaded_parts new = []) ->
  (exists new, sent st' = sent st1 ++ new /\ full_but_last (uploaded_parts new)) ->
  exists new, sent st' = sent st ++ new /\ full_but_last (uploaded_parts new).
Proof.
  intros (pre & Hpre & Hp) (new & Hnew & Hparts). exists (pre ++ new).
  rewrite uploaded_parts_app, Hp. split; [| exact Hparts].
  now rewrite Hnew, Hpre, <- app_assoc.
Qed.

Lemma sizes_after st st1 st' :
  (exists new, sent st1 = sent st ++ new /\ full_but_last (uploaded_parts new)) ->
  (exists new, sent st' = sent st1 ++ new /\ uploaded_parts new = []) ->
  exists new, sent st' = sent st ++ new /\ full_but_last (uploaded_parts new).
Proof.
  intros (new & Hnew & Hparts) (post & Hpost & Hp). exists (new ++ post).
  rewrite uploaded_parts_app, Hp, app_nil_r. split; [| exact Hparts].
  now rewrite Hpost, Hnew, <- app_assoc.
Qed.

Lemma sizes_first_then_loop env stateKey key uploadId f n state
      st st3 body3 exit st4 rest :
  (exists new,
     sent st3 = sent st ++ new
     /\ (uploaded_parts new = []
         \/ exists d, uploaded_parts new = [(1, d)]
                      /\ (lenZ d = PartSize \/ b_data body3 = []))) ->
  upload_loop env f n stateKey key uploadId state st3 body3 = (exit, st4, rest) ->
  exists new, sent st4 = sent st ++ new /\ full_but_last (uploaded_parts new).
Proof.
  intros (n3 & Hn3 & Hp3) Hloop.
  destruct (loop_sizes _ _ _ _ _ _ _ _ _ _ _ _ Hloop) as (n4 & Hn4 & Hp4).
  exists (n3 ++ n4). split; [now rewrite Hn4, Hn3, <- app_assoc |].
  rewrite uploaded_parts_app.
  destruct Hp3 as [-> | (d & -> & [Hfull | Hempty])]; cbn [List.app].
  - exact Hp4.
  - now apply full_but_last_cons.
  - apply (loop_on_empty _ _ _ _ _ _ _ _ _ _ _ _ Hempty) in Hloop.
    rewrite Hloop in Hn4.
    assert (n4 = []) as ->
      by (apply (app_inv_head (sent st3)); now rewrite app_nil_r).
    apply full_but_last_one.
Qed.

Lemma sizes_first st st3 (body3 : Body) :
  (exists new,
     sent st3 = sent st ++ new
     /\ (uploaded_parts new = []
         \/ exists d, uploaded_parts new = [(1, d)]
                      /\ (lenZ d = PartSize \/ b_data body3 = []))) ->
  exists new, sent st3 = sent st ++ new /\ full_but_last (uploaded_parts new).
Proof.
  intros (n3 & Hn3 & Hp3). exists n3. split; [exact Hn3 |].
  destruct Hp3 as [-> | (d & -> & _)];
    [apply full_but_last_nil | apply full_but_last_one].
Qed.

Lemma engine_sizes env st repoName key body out st' rest :
  no_checkpoint_for st repoName (fst (fst (ReadFull body IdentifyChunkSize))) ->
  ResumableMultipartUpload env st repoName key body = (out, st', rest) ->
  exists new, sent st' = sent st ++ new /\ full_but_last (uploaded_parts new).
Proof.
  unfold ResumableMultipartUpload, no_checkpoint_for, checkpoint_key.
  destruct (ReadFull body IdentifyChunkSize) as [[idata e] body1] eqn:Hread.
  apply ReadFull_cases in Hread; [| vm_compute; discriminate].
  assert (Hid : lenZ idata <= IdentifyChunkSize)
    by (destruct Hread as [[_ H] | (_ & H & _)]; lia).
  clear Hread. cbn [fst]. intros Hno.
  assert (Hquiet : forall st0, sent st0 = sent st ->
            exists new, sent st0 = sent st ++ new
                        /\ full_but_last (uploaded_parts new)).
  { intros st0 H0. apply sizes_quiet. exists []. now rewrite app_nil_r. }
  destruct e as [[| |m]|];
    [ intros [= <- <- <-]; now apply Hquiet
    |
    | intros [= <- <- <-]; now apply Hquiet
    | ].
  all: destruct (check_completed _ _ _) as [[ck|] st1] eqn:Hcc;
    pose proof (check_completed_frame _ _ _ _ _ Hcc) as (Hmp & _ & _);
    apply check_completed_sends, no_parts in Hcc;
    [intros [= <- <- <-]; now apply sizes_quiet |].
  all: intros Hrun; apply (sizes_skip _ _ _ Hcc); revert Hrun.
  all: destruct (resume_probe _ _ _ _ _) as [probe st2] eqn:Hprobe;
    rewrite <- Hmp in Hno;
    rewrite (probe_not_resumed _ _ _ _ _ _ _ Hno Hprobe);
    apply resume_probe_sends, no_parts in Hprobe;
    intros Hrun; apply (sizes_skip _ _ _ Hprobe); revert Hrun.
  all: destruct (fresh_start _ _ _ _ _ _) as [[[state|msg] st3] body3] eqn:Hfresh;
    apply (fresh_start_sizes _ _ _ _ _ _ _ _ _ Hid) in Hfresh;
    [| intros [= <- <- <-]; exact (sizes_first _ _ _ Hfresh)].
  all: change (Z.to_nat (MaxPartsPerRequest - 1)) with 27%nat.
  all: destruct (upload_loop _ _ _ _ _ _ _ _ _)
         as [[[state'|out'] st4] body4] eqn:Hloop;
    apply (sizes_first_then_loop _ _ _ _ _ _ _ _ _ _ _ _ _ Hfresh) in Hloop;
    [| intros [= <- <- <-]; exact Hloop].
  all: destruct (finish _ _ _ _ _ _ _) as [[out5 st5] body5] eqn:Hfin;
    apply finish_sends, no_parts in Hfin;
    intros [= <- <- <-]; exact (sizes_after _ _ _ Hloop Hfin).
Qed.

End PartSizes.

(** X27. When the store holds no checkpoint for the content received,
    every part the engine uploads in one invocation but the last one
    holds exactly 16 MiB ([PartSize]): a shorter part is sent only at the
    end of the stream. *)
Theorem fresh_upload_sends_full_parts_but_the_last :
  forall (env : Env) (st : St) (repoName key : string) (body : Body)
         (out : Multipart.EngineOut) (st' : St) (rest : Body),
    no_checkpoint_for st repoName
      (fst (fst (ReadFull body Multipart.IdentifyChunkSize))) ->
    Multipart.ResumableMultipartUpload env st repoName key body = (out, st', rest) ->
    exists new : list S3Op,
      sent st' = sent st ++ new
      /\ forall p, In p (List.removelast (uploaded_parts new)) ->
           lenZ (snd p) = 16777216.
Proof.
  intros env st repoName key body out st' rest Hno Hrun.
  exact (engine_sizes env st repoName key body out st' rest Hno Hrun).
Qed.

Lemma fresh_upload_sends_full_parts_but_the_last_witness :
  let data := Samples.layer_16MiB_1 in
  let first_part :=
    takeZ data Multipart.IdentifyChunkSize
      ++ takeZ (dropZ data Multipart.IdentifyChunkSize)
               (Multipart.PartSize - Multipart.IdentifyChunkSize) in
  let second_part := takeZ (dropZ data Multipart.PartSize) Multipart.PartSize in
  exists new : list S3Op,
    uploaded_parts new = [(1, first_part); (2, second_part)]
    /\ lenZ first_part = 16777216.
Proof.
  pose proof two_part_run as Hrun. revert Hrun.
  generalize Samples.layer_16MiB_1.
  intros stream Hrun data first_part second_part.
  cbv zeta in Hrun. fold data in Hrun. fold first_part second_part in Hrun.
  destruct (fresh_upload_sends_full_parts_but_the_last
              Samples.env_flaky (Samples.st_with_session 0) "library/app"
              Samples.temp_object (MkBody data EndEOF) _ _ _
              (no_checkpoint_in_a_fresh_store _ _)
              (surjective_pairing3 _))
    as (new & Hnew & Hfull).
  rewrite Hrun in Hnew. change (sent (Samples.st_with_session 0)) with (@nil S3Op) in Hnew.
  cbn [List.app] in Hnew.
  exists new. subst new. split; [reflexivity |].
  apply (Hfull (1, first_part)). left. reflexivity.
Defined.
